(** * Tool-calling loops of the name-day assistant

    A shallow embedding of [session_1/chat_with_pure_tool.py] and
    [session_1/chat_with_react_agent.py], and the properties of the
    orchestration loop that hold (or fail) on that code.

    Python values are a small inductive type, the messages of a transcript
    being ordinary Python dicts.  Effects are threaded explicitly through a
    state-and-exception monad: the store of list objects (so that aliasing of
    the caller's [messages] list is visible), the number of gateway calls made
    so far and the log of HTTP requests sent to the lookup service.  State
    changes made before an exception is raised are kept, as in Python.

    The language-model gateway, the HTTP service and the [json] library are
    external to the repository: they are fields of an environment [env] over
    which every general theorem is universally quantified.  Console output
    ([print]) is not modelled, and floating-point numbers are outside the
    universe of values. *)

From Stdlib Require Import ZArith Ascii String.
From stdpp Require Import gmap strings list pretty.
From Equations Require Import Equations.

Local Open Scope string_scope.
Local Open Scope list_scope.
Local Open Scope Z_scope.
Set Warnings "-register-all".

(** ** Python values *)

(** The values that flow through the two scripts: what [json.loads] can build
    (floats apart), plus sets, which the lambda of [get_names_for_week]
    builds with a set display. A dict keeps its items in insertion order. *)
Inductive pyval : Type :=
| PNone
| PBool (b : bool)
| PInt (n : Z)
| PStr (s : string)
| PList (items : list pyval)
| PDict (items : list (string * pyval))
| PSet (items : list pyval).

(** The exceptions that can cross the code of the two scripts. *)
Inductive exn : Type :=
| KeyError (key : string)
| TypeError (why : string)
| AttributeError (attr : string)
| JSONDecodeError
| APIError (why : string)
| RequestException (why : string).

Inductive outcome (A : Type) : Type :=
| Ok (a : A)
| Raise (e : exn).
Arguments Ok {A} a.
Arguments Raise {A} e.

(** [Optional[str]] as a Python value. *)
Definition opt_str (c : option string) : pyval :=
  match c with
  | Some s => PStr s
  | None => PNone
  end.

(** [d[key]] read on the items of a dict. *)
Fixpoint assoc (key : string) (items : list (string * pyval)) : option pyval :=
  match items with
  | [] => None
  | (k, v) :: rest => if String.eqb k key then Some v else assoc key rest
  end.

(** [obj.get(key)]: only a dict has the method; a missing key gives [None]. *)
Definition py_get (obj : pyval) (key : string) : outcome pyval :=
  match obj with
  | PDict items => Ok (default PNone (assoc key items))
  | _ => Raise (AttributeError "get")
  end.

(** [obj.map]: no value that [response.json()] can return has such an
    attribute, whatever its type. *)
Definition py_attr_map (obj : pyval)
  : outcome ((pyval -> outcome pyval) -> outcome pyval) :=
  match obj with
  | PNone | PBool _ | PInt _ | PStr _ | PList _ | PDict _ | PSet _ =>
      Raise (AttributeError "map")
  end.

(** ** Objects of the client libraries *)

(** [tool_call.function] and [tool_call] of the OpenAI client. *)
Record Function := mkFunction { name : string; arguments : string }.
Record ToolCall := mkToolCall { id : string; function : Function }.

(** [response.choices[0].message]. *)
Record ChatCompletionMessage := mkMessage {
  content : option string;
  tool_calls : option (list ToolCall)
}.

(** The keyword arguments of [client.chat.completions.create]. The tool
    schemas are represented by the names they declare. *)
Record completion_request := mkRequest {
  req_model : string;
  req_messages : list pyval;
  req_tools : list string;
  req_tool_choice : string;
  req_parallel_tool_calls : option bool
}.

(** [requests.Response]: the status and what [response.json()] does. *)
Record Response := mkResponse { status_code : Z; json : outcome pyval }.

(** ** The world outside the repository *)

Record env := mkEnv {
  (** [json.loads] and [json.dumps] *)
  json_loads : string -> outcome pyval;
  json_dumps : pyval -> outcome string;
  (** the text an f-string replacement field [{v}] produces *)
  format_value : pyval -> string;
  (** the gateway: its answer to the [n]-th call (counted from 0) *)
  chat_completions_create : nat -> completion_request -> outcome ChatCompletionMessage;
  (** the lookup service: its answer given the requests sent before *)
  requests_get : list string -> string -> outcome Response
}.

(** ** State and the monad of effects *)

Definition loc := nat.

Record state := mkState {
  heap : gmap loc (list pyval);   (* the list objects, by identity *)
  gateway_calls : nat;            (* calls of completions.create so far *)
  http_log : list string          (* URLs requested so far, oldest first *)
}.

Definition M (A : Type) : Type := state -> outcome A * state.

Definition ret {A} (a : A) : M A := fun s => (Ok a, s).

Definition raise {A} (e : exn) : M A := fun s => (Raise e, s).

Definition bind {A B} (c : M A) (k : A -> M B) : M B :=
  fun s =>
    match c s with
    | (Ok a, s') => k a s'
    | (Raise e, s') => (Raise e, s')
    end.

Definition lift {A} (o : outcome A) : M A := fun s => (o, s).

Declare Scope py_scope.
Delimit Scope py_scope with py.
Notation "x <- c ;; k" := (bind c (fun x => k))
  (at level 100, c at next level, right associativity) : py_scope.
Notation "c ;;; k" := (bind c (fun _ => k))
  (at level 100, right associativity) : py_scope.
Local Open Scope py_scope.

(** The contents of the list object at [l] (a location that names no object
    reads as the empty list). *)
Definition contents (s : state) (l : loc) : list pyval := heap s !!! l.

(** Reading the list (what a callee that receives the reference sees). *)
Definition read (l : loc) : M (list pyval) := fun s => (Ok (contents s l), s).

(** [messages.append(m)]: in place, on the object itself. *)
Definition append (l : loc) (m : pyval) : M unit :=
  fun s =>
    (Ok tt, mkState (<[l := contents s l ++ [m]]> (heap s)) (gateway_calls s) (http_log s)).

(** [messages.copy()]: a fresh list object with the same items. *)
Definition list_copy (l : loc) : M loc :=
  fun s =>
    let l' := fresh (dom (heap s)) in
    (Ok l', mkState (<[l' := contents s l]> (heap s)) (gateway_calls s) (http_log s)).

(** A list display [[m1, ..., mn]]: a fresh list object. *)
Definition list_new (items : list pyval) : M loc :=
  fun s =>
    let l' := fresh (dom (heap s)) in
    (Ok l', mkState (<[l' := items]> (heap s)) (gateway_calls s) (http_log s)).

(** The state once the gateway has answered a call. *)
Definition answered (s : state) : state :=
  mkState (heap s) (S (gateway_calls s)) (http_log s).

(** [for x in xs: body(x)]. *)
Fixpoint for_each {A} (xs : list A) (body : A -> M unit) : M unit :=
  match xs with
  | [] => ret tt
  | x :: rest => body x ;;; for_each rest body
  end.

(** Calling [f] with the keyword arguments unpacked from [function_args], for
    a function declared as [def f(date)]: the argument must be a mapping whose
    only key is [date]. *)
Definition call_with_kwargs (f : pyval -> M pyval) (function_args : pyval) : M pyval :=
  match function_args with
  | PDict [(k, v)] =>
      if String.eqb k "date" then f v
      else raise (TypeError "unexpected keyword argument")
  | PDict [] => raise (TypeError "missing required argument date")
  | PDict _ => raise (TypeError "unexpected keyword argument")
  | _ => raise (TypeError "argument after ** must be a mapping")
  end.

(** ** The tool functions *)

Section Tools.
Variable E : env.

(** [client.chat.completions.create(...)] followed by [.choices[0].message]. *)
Definition create (req : completion_request) : M ChatCompletionMessage :=
  fun s =>
    (chat_completions_create E (gateway_calls s) req,
     mkState (heap s) (S (gateway_calls s)) (http_log s)).

(** [requests.get(url)]. *)
Definition http_get (url : string) : M Response :=
  fun s =>
    (requests_get E (http_log s) url,
     mkState (heap s) (gateway_calls s) (http_log s ++ [url])).

(** The same text in both scripts. *)
Definition get_name_for_day (date : pyval) : M pyval :=
  response <- http_get ("https://svatkyapi.cz/api/day/" +:+ format_value E date) ;;
  if status_code response =? 200 then
    data <- lift (json response) ;;
    name <- lift (py_get data "name") ;;
    ret (PDict [("date", date); ("name", name)])
  else
    ret (PDict [("date", date); ("name", PStr "Error fetching data")]).

Definition get_all_info_about_day (date : pyval) : M pyval :=
  response <- http_get ("https://svatkyapi.cz/api/day/" +:+ format_value E date) ;;
  if status_code response =? 200 then
    data <- lift (json response) ;;
    ret (PDict [("date", date); ("data", data)])
  else
    ret (PDict [("date", date); ("data", PStr "Error fetching data")]).

(** The lambda handed to [data.map]: a set display of three lookups. *)
Definition week_day_entry (day : pyval) : outcome pyval :=
  match py_get day "name" with
  | Ok n =>
      match py_get day "date" with
      | Ok d =>
          match py_get day "dayInWeek" with
          | Ok w => Ok (PSet [n; d; w])
          | Raise e => Raise e
          end
      | Raise e => Raise e
      end
  | Raise e => Raise e
  end.

Definition get_names_for_week (date : pyval) : M pyval :=
  response <- http_get ("https://svatkyapi.cz/api/week/" +:+ format_value E date) ;;
  if status_code response =? 200 then
    data <- lift (json response) ;;
    data_map <- lift (py_attr_map data) ;;
    weekData <- lift (data_map week_day_entry) ;;
    ret (PDict [("date", date); ("weekData", weekData)])
  else
    ret (PDict [("date", date); ("weekData", PStr "Error fetching data")]).

End Tools.

(** ** [chat_with_pure_tool.py]: one tool round *)

Module PureTool.
Section WithEnv.
Variable E : env.

Definition tools : list string := ["get_name_for_day"].

Definition available_functions : gmap string (pyval -> M pyval) :=
  {[ "get_name_for_day" := get_name_for_day E ]}.

(** [available_functions[function_name]]. *)
Definition lookup_function (function_name : string) : M (pyval -> M pyval) :=
  match available_functions !! function_name with
  | Some f => ret f
  | None => raise (KeyError function_name)
  end.

Definition default_model : string := "gpt-4o".

Definition get_completion_from_messages (messages : loc) (model : string)
  : M ChatCompletionMessage :=
  transcript <- read messages ;;
  response_message <- create E (mkRequest model transcript tools "auto" None) ;;
  match tool_calls response_message with
  | Some (tool_call :: _) =>
      let function_name := name (function tool_call) in
      function_args <- lift (json_loads E (arguments (function tool_call))) ;;
      let tool_id := id tool_call in
      function_to_call <- lookup_function function_name ;;
      function_response <- call_with_kwargs function_to_call function_args ;;
      arguments_text <- lift (json_dumps E function_args) ;;
      append messages
        (PDict [("role", PStr "assistant");
                ("tool_calls",
                 PList [PDict [("id", PStr tool_id);
                               ("type", PStr "function");
                               ("function",
                                PDict [("name", PStr function_name);
                                       ("arguments", PStr arguments_text)])]])]) ;;;
      content_text <- lift (json_dumps E function_response) ;;
      append messages
        (PDict [("role", PStr "tool");
                ("tool_call_id", PStr tool_id);
                ("name", PStr function_name);
                ("content", PStr content_text)]) ;;;
      transcript' <- read messages ;;
      final_answer <- create E (mkRequest model transcript' tools "auto" None) ;;
      ret final_answer
  | _ => ret response_message
  end.

(** The example usage at the end of the script; the value is the last line
    it prints: the [content] of the message returned when it is a non-empty
    text, a fixed notice otherwise. *)
Definition example_usage : M string :=
  messages <- list_new
    [PDict [("role", PStr "system"); ("content", PStr "You are a helpful AI assistant.")];
     PDict [("role", PStr "user"); ("content", PStr "Kdo měl svátek 28. října 2024?")]] ;;
  response <- get_completion_from_messages messages default_model ;;
  match content response with
  | Some text => if String.eqb text "" then ret "No text content in the response" else ret text
  | None => ret "No text content in the response"
  end.

(** *** Vocabulary for the statements *)

(** What the gateway is asked, and what it answers, at the first call. *)
Definition request_of (model : string) (messages : loc) (s : state) : completion_request :=
  mkRequest model (contents s messages) tools "auto" None.

Definition reply (model : string) (messages : loc) (s : state)
  : outcome ChatCompletionMessage :=
  chat_completions_create E (gateway_calls s) (request_of model messages s).

(** Resolving and executing the capability of one request, nothing else. *)
Definition invoke (tool_call : ToolCall) : M pyval :=
  function_args <- lift (json_loads E (arguments (function tool_call))) ;;
  function_to_call <- lookup_function (name (function tool_call)) ;;
  call_with_kwargs function_to_call function_args.

(** The two messages the function adds for the request it executes. *)
Definition assistant_message (tool_call : ToolCall) (arguments_text : string) : pyval :=
  PDict [("role", PStr "assistant");
         ("tool_calls",
          PList [PDict [("id", PStr (id tool_call));
                        ("type", PStr "function");
                        ("function",
                         PDict [("name", PStr (name (function tool_call)));
                                ("arguments", PStr arguments_text)])]])].

Definition tool_message (tool_call : ToolCall) (content_text : string) : pyval :=
  PDict [("role", PStr "tool");
         ("tool_call_id", PStr (id tool_call));
         ("name", PStr (name (function tool_call)));
         ("content", PStr content_text)].

End WithEnv.
End PureTool.

(** ** [chat_with_react_agent.py]: the ReAct loop *)

Module React.

Record ReactAgent := mkAgent { model : string; max_iterations : Z }.

(** [ReactAgent.__init__], whose [model] defaults to ["gpt-4o"]. *)
Definition init (model : string) : ReactAgent := mkAgent model 10.

(** How one pass through the body of the [while] ends: [continue], or
    [return final_content]. *)
Inductive flow : Type :=
| Continue
| Return (final_content : option string).

Definition limit_message : string :=
  "Error: Maximum iterations reached without getting a final answer.".

(** One element of the list comprehension over [response_message.tool_calls]. *)
Definition tool_call_entry (tc : ToolCall) : pyval :=
  PDict [("id", PStr (id tc));
         ("type", PStr "function");
         ("function",
          PDict [("name", PStr (name (function tc)));
                 ("arguments", PStr (arguments (function tc)))])].

(** The assistant message that records a turn with tool calls. *)
Definition assistant_tool_message (response_message : ChatCompletionMessage)
  (calls : list ToolCall) : pyval :=
  PDict [("role", PStr "assistant");
         ("content", opt_str (content response_message));
         ("tool_calls", PList (map tool_call_entry calls))].

(** The final assistant message. *)
Definition assistant_final_message (final_content : option string) : pyval :=
  PDict [("role", PStr "assistant"); ("content", opt_str final_content)].

(** The message that carries a tool result. *)
Definition tool_message (tool_id function_name content_text : string) : pyval :=
  PDict [("role", PStr "tool");
         ("tool_call_id", PStr tool_id);
         ("name", PStr function_name);
         ("content", PStr content_text)].

Section WithEnv.
Variable E : env.

Definition tools : list string :=
  ["get_name_for_day"; "get_all_info_about_day"; "get_names_for_week"].

Definition available_functions : gmap string (pyval -> M pyval) :=
  <[ "get_name_for_day" := get_name_for_day E ]>
  (<[ "get_all_info_about_day" := get_all_info_about_day E ]>
  (<[ "get_names_for_week" := get_names_for_week E ]> ∅)).

(** [available_functions[function_name]]. *)
Definition lookup_function (function_name : string) : M (pyval -> M pyval) :=
  match available_functions !! function_name with
  | Some f => ret f
  | None => raise (KeyError function_name)
  end.

(** The body of [for tool_call in response_message.tool_calls]. *)
Definition process_tool_call (messages : loc) (tool_call : ToolCall) : M unit :=
  let function_name := name (function tool_call) in
  function_args <- lift (json_loads E (arguments (function tool_call))) ;;
  let tool_id := id tool_call in
  function_to_call <- lookup_function function_name ;;
  function_response <- call_with_kwargs function_to_call function_args ;;
  content_text <- lift (json_dumps E function_response) ;;
  append messages (tool_message tool_id function_name content_text).

(** The body of the [while] loop, from the gateway call on. The counter
    [iteration], incremented on entry, is only printed: it is kept by
    [while_loop] below. *)
Definition loop_body (self : ReactAgent) (messages : loc) : M flow :=
  transcript <- read messages ;;
  response_message <-
    create E (mkRequest (model self) transcript tools "auto" (Some false)) ;;
  match tool_calls response_message with
  | Some (tool_call :: more) =>
      let calls := tool_call :: more in
      append messages (assistant_tool_message response_message calls) ;;;
      for_each calls (process_tool_call messages) ;;;
      ret Continue
  | _ =>
      let final_content := content response_message in
      append messages (assistant_final_message final_content) ;;;
      ret (Return final_content)
  end.

(** The [while iteration < self.max_iterations] loop, entered with the
    current value of [iteration]. *)
Equations? while_loop (self : ReactAgent) (messages : loc) (iteration : Z) (s : state)
  : outcome (option string) * state
  by wf (Z.to_nat (max_iterations self - iteration)) lt :=
while_loop self messages iteration s with Z_lt_dec iteration (max_iterations self) := {
  | left _ with loop_body self messages s := {
      | (Ok Continue, s') => while_loop self messages (iteration + 1) s';
      | (Ok (Return final_content), s') => (Ok final_content, s');
      | (Raise e, s') => (Raise e, s') };
  | right _ => (Ok (Some limit_message), s) }.
Proof. lia. Qed.

(** [ReactAgent.run]. *)
Definition run (self : ReactAgent) (messages : loc) : M (option string) :=
  while_loop self messages 0.

Definition system_prompt : pyval :=
  PDict [("role", PStr "system"); ("content", PStr "You are a helpful AI assistant.")].

Definition user_prompt (text : string) : pyval :=
  PDict [("role", PStr "user"); ("content", PStr text)].

(** [main]: three runs, each on a copy of the list built at the call site. *)
Definition main : M unit :=
  let agent := init "gpt-4o" in
  messages1 <- list_new [system_prompt; user_prompt "Kdo měl svátek 28. října 2024?"] ;;
  copy1 <- list_copy messages1 ;;
  result1 <- run agent copy1 ;;
  messages2 <- list_new [system_prompt;
    user_prompt "Zjisti mi detalní informace o dnech 3. ledna 2024 a 3. ledna 2012?"] ;;
  copy2 <- list_copy messages2 ;;
  result2 <- run agent copy2 ;;
  messages3 <- list_new [system_prompt; user_prompt "Kdo měl svátek 28. a 30. října 2024?"] ;;
  copy3 <- list_copy messages3 ;;
  result3 <- run agent copy3 ;;
  ret tt.

(** *** Vocabulary for the statements *)

(** What the gateway is asked, and what it answers, when the loop body is
    entered in state [s]. *)
Definition request_of (self : ReactAgent) (messages : loc) (s : state) : completion_request :=
  mkRequest (model self) (contents s messages) tools "auto" (Some false).

Definition reply (self : ReactAgent) (messages : loc) (s : state)
  : outcome ChatCompletionMessage :=
  chat_completions_create E (gateway_calls s) (request_of self messages s).

(** The state once the assistant message of a turn with tool calls is recorded. *)
Definition recorded (messages : loc) (response_message : ChatCompletionMessage)
  (calls : list ToolCall) (s : state) : state :=
  snd (append messages (assistant_tool_message response_message calls) (answered s)).

(** Resolving and executing the capability of one request, nothing else. *)
Definition invoke (tool_call : ToolCall) : M pyval :=
  function_args <- lift (json_loads E (arguments (function tool_call))) ;;
  function_to_call <- lookup_function (name (function tool_call)) ;;
  call_with_kwargs function_to_call function_args.

(** The requests of a turn executed one after the other, in the order given,
    with no transcript in sight: the values the capabilities return. *)
Fixpoint invoke_in_order (calls : list ToolCall) : M (list pyval) :=
  match calls with
  | [] => ret []
  | tool_call :: rest =>
      v <- invoke tool_call ;;
      vs <- invoke_in_order rest ;;
      ret (v :: vs)
  end.

(** [k] passes through the loop body in a row, each ending in [continue]. *)
Fixpoint passes (self : ReactAgent) (messages : loc) (k : nat) (s : state) : option state :=
  match k with
  | O => Some s
  | S k' =>
      match loop_body self messages s with
      | (Ok Continue, s') => passes self messages k' s'
      | _ => None
      end
  end.

End WithEnv.
End React.

(** ** A reference [json] for concrete runs

    The general theorems hold for every [env]. To evaluate the code on
    concrete transcripts, this module gives an executable [json.loads],
    [json.dumps] and f-string formatting on the fragment the scenarios
    use: JSON texts whose numbers are integers and whose [\u] escapes are
    not surrogates, with strings held as UTF-8 bytes. A text outside the
    fragment is rejected by [loads]. *)

Module Json.

Definition dquote : ascii := "034"%char.
Definition backslash : ascii := "092"%char.

Definition code (c : ascii) : N := N_of_ascii c.
Definition chr (n : N) : ascii := ascii_of_N n.
Definition str1 (c : ascii) : string := String c EmptyString.

Definition is_ws (c : ascii) : bool :=
  let n := code c in ((n =? 32) || (n =? 9) || (n =? 10) || (n =? 13))%N.

Definition is_digit (c : ascii) : bool :=
  let n := code c in ((48 <=? n) && (n <=? 57))%N.

Definition hex_value (c : ascii) : option N :=
  let n := code c in
  if ((48 <=? n) && (n <=? 57))%N then Some (n - 48)%N
  else if ((97 <=? n) && (n <=? 102))%N then Some (n - 87)%N
  else if ((65 <=? n) && (n <=? 70))%N then Some (n - 55)%N
  else None.

Definition hex_digit (n : N) : ascii :=
  if (n <? 10)%N then chr (48 + n) else chr (87 + n).

(** Four lower-case hexadecimal digits. *)
Definition hex4 (n : N) : string :=
  String (hex_digit ((n / 4096) mod 16)%N)
    (String (hex_digit ((n / 256) mod 16)%N)
       (String (hex_digit ((n / 16) mod 16)%N)
          (String (hex_digit (n mod 16)%N) EmptyString))).

(** The UTF-8 bytes of a code point. *)
Definition utf8 (cp : N) : string :=
  if (cp <? 128)%N then str1 (chr cp)
  else if (cp <? 2048)%N then
    String (chr (192 + cp / 64)%N) (str1 (chr (128 + cp mod 64)%N))
  else if (cp <? 65536)%N then
    String (chr (224 + cp / 4096)%N)
      (String (chr (128 + (cp / 64) mod 64)%N) (str1 (chr (128 + cp mod 64)%N)))
  else
    String (chr (240 + cp / 262144)%N)
      (String (chr (128 + (cp / 4096) mod 64)%N)
         (String (chr (128 + (cp / 64) mod 64)%N) (str1 (chr (128 + cp mod 64)%N)))).

Fixpoint skip_ws (s : string) : string :=
  match s with
  | String c rest => if is_ws c then skip_ws rest else s
  | EmptyString => s
  end.

Fixpoint read_digits (acc : Z) (s : string) : Z * string :=
  match s with
  | String c rest =>
      if is_digit c then read_digits (acc * 10 + Z.of_N (code c - 48)) rest
      else (acc, s)
  | EmptyString => (acc, s)
  end.

(** The digits of an integer literal, no sign: [0], or a run that does not
    start with [0]. A fraction or an exponent after it is outside the fragment. *)
Definition read_int (s : string) : option (Z * string) :=
  match s with
  | String c rest =>
      if (code c =? 48)%N then Some (0, rest)
      else if is_digit c then Some (read_digits 0 s)
      else None
  | EmptyString => None
  end.

Definition no_fraction (s : string) : bool :=
  match s with
  | String c _ =>
      let n := code c in negb ((n =? 46) || (n =? 101) || (n =? 69))%N
  | EmptyString => true
  end.

Definition read_number (s : string) : option (pyval * string) :=
  match s with
  | String c rest =>
      let '(negative, digits) := if (code c =? 45)%N then (true, rest) else (false, s) in
      match read_int digits with
      | Some (n, rest') =>
          if no_fraction rest' then Some (PInt (if negative then - n else n), rest')
          else None
      | None => None
      end
  | EmptyString => None
  end.

(** The character a one-letter escape stands for. *)
Definition unescape (e : ascii) : option ascii :=
  let n := code e in
  if (n =? 34)%N then Some dquote
  else if (n =? 92)%N then Some backslash
  else if (n =? 47)%N then Some "/"%char
  else if (n =? 98)%N then Some (chr 8)
  else if (n =? 102)%N then Some (chr 12)
  else if (n =? 110)%N then Some (chr 10)
  else if (n =? 114)%N then Some (chr 13)
  else if (n =? 116)%N then Some (chr 9)
  else None.

Definition code_point (h1 h2 h3 h4 : ascii) : option N :=
  match hex_value h1, hex_value h2, hex_value h3, hex_value h4 with
  | Some a, Some b, Some c, Some d =>
      let cp := (a * 4096 + b * 256 + c * 16 + d)%N in
      if ((55296 <=? cp) && (cp <=? 57343))%N then None else Some cp
  | _, _, _, _ => None
  end.

Definition prepend (prefix : string) (r : option (string * string)) : option (string * string) :=
  match r with
  | Some (text, rest) => Some (prefix +:+ text, rest)
  | None => None
  end.

(** The characters of a string literal, after its opening quote. *)
Fixpoint read_string (s : string) : option (string * string) :=
  match s with
  | EmptyString => None
  | String c rest =>
      if (code c =? 34)%N then Some (EmptyString, rest)
      else if (code c =? 92)%N then
        match rest with
        | String e rest' =>
            match unescape e with
            | Some ch => prepend (str1 ch) (read_string rest')
            | None =>
                if (code e =? 117)%N then
                  match rest' with
                  | String h1 (String h2 (String h3 (String h4 rest''))) =>
                      match code_point h1 h2 h3 h4 with
                      | Some cp => prepend (utf8 cp) (read_string rest'')
                      | None => None
                      end
                  | _ => None
                  end
                else None
            end
        | EmptyString => None
        end
      else if (code c <? 32)%N then None
      else prepend (str1 c) (read_string rest)
  end.

(** [d[k] = v] on the items of a dict: a key keeps its first position. *)
Fixpoint dict_set (k : string) (v : pyval) (items : list (string * pyval))
  : list (string * pyval) :=
  match items with
  | [] => [(k, v)]
  | (k', v') :: rest =>
      if String.eqb k' k then (k', v) :: rest else (k', v') :: dict_set k v rest
  end.

Definition starts_with (p s : string) : option string :=
  if String.prefix p s then Some (String.substring (String.length p) (String.length s - String.length p) s)
  else None.

Fixpoint parse_value (fuel : nat) (s : string) {struct fuel} : option (pyval * string) :=
  match fuel with
  | O => None
  | S fuel' =>
      match skip_ws s with
      | EmptyString => None
      | String c rest =>
          let n := code c in
          if (n =? 123)%N then
            match skip_ws rest with
            | String c' rest' =>
                if (code c' =? 125)%N then Some (PDict [], rest')
                else parse_members fuel' [] (String c' rest')
            | EmptyString => None
            end
          else if (n =? 91)%N then
            match skip_ws rest with
            | String c' rest' =>
                if (code c' =? 93)%N then Some (PList [], rest')
                else parse_elements fuel' [] (String c' rest')
            | EmptyString => None
            end
          else if (n =? 34)%N then
            match read_string rest with
            | Some (text, rest') => Some (PStr text, rest')
            | None => None
            end
          else
            match starts_with "null" (String c rest) with
            | Some rest' => Some (PNone, rest')
            | None =>
                match starts_with "true" (String c rest) with
                | Some rest' => Some (PBool true, rest')
                | None =>
                    match starts_with "false" (String c rest) with
                    | Some rest' => Some (PBool false, rest')
                    | None => read_number (String c rest)
                    end
                end
            end
      end
  end
with parse_elements (fuel : nat) (acc : list pyval) (s : string) {struct fuel}
  : option (pyval * string) :=
  match fuel with
  | O => None
  | S fuel' =>
      match parse_value fuel' s with
      | Some (v, rest) =>
          match skip_ws rest with
          | String c rest' =>
              if (code c =? 44)%N then parse_elements fuel' (acc ++ [v]) rest'
              else if (code c =? 93)%N then Some (PList (acc ++ [v]), rest')
              else None
          | EmptyString => None
          end
      | None => None
      end
  end
with parse_members (fuel : nat) (acc : list (string * pyval)) (s : string) {struct fuel}
  : option (pyval * string) :=
  match fuel with
  | O => None
  | S fuel' =>
      match skip_ws s with
      | String q rest =>
          if (code q =? 34)%N then
            match read_string rest with
            | Some (key, rest1) =>
                match skip_ws rest1 with
                | String colon rest2 =>
                    if (code colon =? 58)%N then
                      match parse_value fuel' rest2 with
                      | Some (v, rest3) =>
                          match skip_ws rest3 with
                          | String c rest4 =>
                              if (code c =? 44)%N then
                                parse_members fuel' (dict_set key v acc) rest4
                              else if (code c =? 125)%N then
                                Some (PDict (dict_set key v acc), rest4)
                              else None
                          | EmptyString => None
                          end
                      | None => None
                      end
                    else None
                | EmptyString => None
                end
            | None => None
            end
          else None
      | EmptyString => None
      end
  end.

(** [json.loads]: one value, blanks around it, nothing after. *)
Definition loads (text : string) : outcome pyval :=
  match parse_value (2 * String.length text + 2) text with
  | Some (v, rest) =>
      match skip_ws rest with
      | EmptyString => Ok v
      | String _ _ => Raise JSONDecodeError
      end
  | None => Raise JSONDecodeError
  end.

(** The escape of one character on seven bits, for [json.dumps]. *)
Definition escape_char (c : ascii) : string :=
  let n := code c in
  if (n =? 34)%N then String backslash (str1 dquote)
  else if (n =? 92)%N then String backslash (str1 backslash)
  else if (n =? 10)%N then String backslash "n"
  else if (n =? 13)%N then String backslash "r"
  else if (n =? 9)%N then String backslash "t"
  else if (n =? 8)%N then String backslash "b"
  else if (n =? 12)%N then String backslash "f"
  else if ((32 <=? n) && (n <=? 126))%N then str1 c
  else String backslash ("u" +:+ hex4 n).

(** The escape of a code point above seven bits ([ensure_ascii]). *)
Definition escape_code_point (cp : N) : string :=
  if (cp <? 65536)%N then String backslash ("u" +:+ hex4 cp)
  else
    let v := (cp - 65536)%N in
    String backslash ("u" +:+ hex4 (55296 + v / 1024)%N)
      +:+ String backslash ("u" +:+ hex4 (56320 + v mod 1024)%N).

Definition continuation (c : ascii) : N := (code c mod 64)%N.

(** The body of a string literal: the UTF-8 bytes are read back as code
    points, each escaped as [json.dumps] does by default. *)
Fixpoint escape_string (s : string) : string :=
  match s with
  | EmptyString => EmptyString
  | String c rest =>
      let n := code c in
      if (n <? 192)%N then escape_char c +:+ escape_string rest
      else if (n <? 224)%N then
        match rest with
        | String c2 rest2 =>
            escape_code_point ((n - 192) * 64 + continuation c2)%N +:+ escape_string rest2
        | _ => escape_char c +:+ escape_string rest
        end
      else if (n <? 240)%N then
        match rest with
        | String c2 (String c3 rest3) =>
            escape_code_point ((n - 224) * 4096 + continuation c2 * 64 + continuation c3)%N
              +:+ escape_string rest3
        | _ => escape_char c +:+ escape_string rest
        end
      else
        match rest with
        | String c2 (String c3 (String c4 rest4)) =>
            escape_code_point
              ((n - 240) * 262144 + continuation c2 * 4096
               + continuation c3 * 64 + continuation c4)%N
              +:+ escape_string rest4
        | _ => escape_char c +:+ escape_string rest
        end
  end.

Definition quoted (s : string) : string :=
  String dquote (escape_string s +:+ str1 dquote).

Fixpoint join (sep : string) (parts : list string) : string :=
  match parts with
  | [] => EmptyString
  | [p] => p
  | p :: rest => p +:+ sep +:+ join sep rest
  end.

(** [json.dumps] with its default separators; a set is not serializable. *)
Fixpoint dumps (v : pyval) : outcome string :=
  match v with
  | PNone => Ok "null"
  | PBool true => Ok "true"
  | PBool false => Ok "false"
  | PInt n => Ok (pretty n)
  | PStr s => Ok (quoted s)
  | PList items =>
      let fix elements (l : list pyval) : outcome (list string) :=
        match l with
        | [] => Ok []
        | x :: rest =>
            match dumps x with
            | Ok t =>
                match elements rest with
                | Ok ts => Ok (t :: ts)
                | Raise e => Raise e
                end
            | Raise e => Raise e
            end
        end in
      match elements items with
      | Ok parts => Ok ("[" +:+ join ", " parts +:+ "]")
      | Raise e => Raise e
      end
  | PDict items =>
      let fix members (l : list (string * pyval)) : outcome (list string) :=
        match l with
        | [] => Ok []
        | (k, x) :: rest =>
            match dumps x with
            | Ok t =>
                match members rest with
                | Ok ts => Ok ((quoted k +:+ ": " +:+ t) :: ts)
                | Raise e => Raise e
                end
            | Raise e => Raise e
            end
        end in
      match members items with
      | Ok parts => Ok ("{" +:+ join ", " parts +:+ "}")
      | Raise e => Raise e
      end
  | PSet _ => Raise (TypeError "Object of type set is not JSON serializable")
  end.

Fixpoint contains (c : ascii) (s : string) : bool :=
  match s with
  | EmptyString => false
  | String c' rest => (code c' =? code c)%N || contains c rest
  end.

(** [repr] of a [str], inside the chosen quotes. *)
Fixpoint repr_chars (quote : ascii) (s : string) : string :=
  match s with
  | EmptyString => EmptyString
  | String c rest =>
      let n := code c in
      (if (n =? code quote)%N || (n =? 92)%N then String backslash (str1 c)
       else if (n =? 10)%N then String backslash "n"
       else if (n =? 13)%N then String backslash "r"
       else if (n =? 9)%N then String backslash "t"
       else if (n <? 32)%N || (n =? 127)%N then
         String backslash (String "x" (String (hex_digit (n / 16)) (str1 (hex_digit (n mod 16)))))
       else str1 c) +:+ repr_chars quote rest
  end.

Definition repr_str (s : string) : string :=
  let quote := if contains "'" s && negb (contains dquote s) then dquote else "'"%char in
  String quote (repr_chars quote s +:+ str1 quote).

Fixpoint repr (v : pyval) : string :=
  match v with
  | PNone => "None"
  | PBool true => "True"
  | PBool false => "False"
  | PInt n => pretty n
  | PStr s => repr_str s
  | PList items => "[" +:+ join ", " (map repr items) +:+ "]"
  | PDict items =>
      "{" +:+ join ", " (map (fun kv => repr_str (fst kv) +:+ ": " +:+ repr (snd kv)) items) +:+ "}"
  | PSet [] => "set()"
  | PSet items => "{" +:+ join ", " (map repr items) +:+ "}"
  end.

(** [str(v)], which an f-string field without a format spec produces. *)
Definition format (v : pyval) : string :=
  match v with
  | PStr s => s
  | _ => repr v
  end.

End Json.

(** ** Stubs of the outside world for concrete runs *)

Module Scenario.

(** The JSON text of an argument object with a [date]. *)
Definition date_arguments (d : string) : string :=
  "{" +:+ Json.quoted "date" +:+ ": " +:+ Json.quoted d +:+ "}".

Definition request (tool_id function_name d : string) : ToolCall :=
  mkToolCall tool_id (mkFunction function_name (date_arguments d)).

(** A gateway that plays a script, one response per call. *)
Definition scripted (responses : list ChatCompletionMessage)
  : nat -> completion_request -> outcome ChatCompletionMessage :=
  fun n _ =>
    match responses !! n with
    | Some r => Ok r
    | None => Raise (APIError "no response left in the script")
    end.

(** A gateway that gives the same response at every call. *)
Definition always (r : ChatCompletionMessage)
  : nat -> completion_request -> outcome ChatCompletionMessage :=
  fun _ _ => Ok r.

(** A lookup service that answers every request alike. *)
Definition service (status : Z) (body : outcome pyval) : list string -> string -> outcome Response :=
  fun _ _ => Ok (mkResponse status body).

Definition world (gateway : nat -> completion_request -> outcome ChatCompletionMessage)
  (lookup : list string -> string -> outcome Response) : env :=
  mkEnv Json.loads Json.dumps Json.format gateway lookup.

Definition question : list pyval :=
  [PDict [("role", PStr "system"); ("content", PStr "You are a helpful assistant")];
   PDict [("role", PStr "user"); ("content", PStr "Who has a name day on 2024-10-28?")]].

(** The caller's list is the object at location 0. *)
Definition start : state := mkState {[ 0%nat := question ]} 0 [].

Definition agent : React.ReactAgent := React.init "gpt-4o".

(** The service is down: every request gets a 404 with no JSON body. *)
Definition down : list string -> string -> outcome Response :=
  service 404 (Raise JSONDecodeError).

(** A model that asks for the same lookup at every call, and never answers. *)
Definition insistent : env :=
  world (always (mkMessage None (Some [request "call_1" "get_name_for_day" "2024-10-28"])))
    down.

(** A model whose answer, at the first call, is the text of the limit message. *)
Definition parrot : env :=
  world (always (mkMessage (Some React.limit_message) None)) down.

(** A model that first asks for a tool that does not exist, and would
    then answer. *)
Definition hallucinating : env :=
  world (scripted [mkMessage None (Some [request "call_1" "nonexistent_tool" "2024-10-28"]);
                   mkMessage (Some "Nobody I know of.") None])
    down.

(** A week of name days, as the service lists them. *)
Definition week_body : pyval :=
  PList [PDict [("date", PStr "2024-10-28"); ("dayInWeek", PStr "pondeli"); ("name", PStr "Alfred")];
         PDict [("date", PStr "2024-10-29"); ("dayInWeek", PStr "utery"); ("name", PStr "Silvie")]].

(** A model that asks for the week, and would then answer; the service is
    up and answers 200 with the week. *)
Definition week_asked : env :=
  world (scripted [mkMessage None (Some [request "call_1" "get_names_for_week" "2024-10-28"]);
                   mkMessage (Some "Alfred and Silvie.") None])
    (service 200 (Ok week_body)).

(** A model that answers at once, with text alone. *)
Definition direct_answer : ChatCompletionMessage :=
  mkMessage (Some "Sorry, I cannot look that up.") None.

Definition direct : env := world (scripted [direct_answer]) down.

(** The service is up and knows one name. *)
Definition up : list string -> string -> outcome Response :=
  service 200 (Ok (PDict [("name", PStr "Alfred")])).

(** The text of the tool message for a lookup of [d] when the service is up. *)
Definition lookup_text (d : string) : string :=
  "{" +:+ Json.quoted "date" +:+ ": " +:+ Json.quoted d +:+ ", "
  +:+ Json.quoted "name" +:+ ": " +:+ Json.quoted "Alfred" +:+ "}".

(** Three lookups asked for in one turn. *)
Definition three_requests : list ToolCall :=
  [request "call_1" "get_name_for_day" "2024-10-28";
   request "call_2" "get_name_for_day" "2024-10-29";
   request "call_3" "get_name_for_day" "2024-10-30"].

Definition three_asked : ChatCompletionMessage :=
  mkMessage (Some "I will look up the three days.") (Some three_requests).

Definition three_lookups : env :=
  world (scripted [three_asked; mkMessage (Some "Alfred, three times.") None]) up.

(** Three requests in one turn, the second for a tool that does not exist. *)
Definition middle_unknown : list ToolCall :=
  [request "call_1" "get_name_for_day" "2024-10-28";
   request "call_2" "nonexistent_tool" "2024-10-29";
   request "call_3" "get_name_for_day" "2024-10-30"].

Definition middle_unknown_asked : ChatCompletionMessage :=
  mkMessage None (Some middle_unknown).

Definition one_unknown_of_three : env :=
  world (scripted [middle_unknown_asked; mkMessage (Some "Alfred.") None]) up.

(** For the single-round script: two lookups asked for in the first
    response, and a second response that asks for a lookup again. *)
Definition two_asked : ChatCompletionMessage :=
  mkMessage (Some "I will look up both days.")
    (Some [request "call_1" "get_name_for_day" "2024-10-28";
           request "call_2" "get_name_for_day" "2024-10-30"]).

Definition asks_again : ChatCompletionMessage :=
  mkMessage None (Some [request "call_3" "get_name_for_day" "2024-10-30"]).

Definition two_then_more : env := world (scripted [two_asked; asks_again]) up.

(** A gateway that fails at its first call. *)
Definition unreachable : env := world (scripted []) up.

(** A request whose arguments are not JSON, and one whose arguments are a
    JSON list. *)
Definition truncated_call : ToolCall :=
  mkToolCall "call_1" (mkFunction "get_name_for_day" "{").

Definition list_call : ToolCall :=
  mkToolCall "call_1" (mkFunction "get_name_for_day" "[]").

Definition truncated_arguments : env :=
  world (scripted [mkMessage None (Some [truncated_call])]) up.

Definition list_arguments : env :=
  world (scripted [mkMessage None (Some [list_call])]) up.

(** For the single-round script: a first response that asks for a tool of
    the other script. *)
Definition week_in_single_round : env :=
  world (scripted [mkMessage None (Some [request "call_1" "get_names_for_week" "2024-10-28"])])
    up.

(** A model that answers every question at once. *)
Definition forthcoming : env := world (always direct_answer) up.

(** For the single-round script: a request whose arguments come without
    the space that [json.dumps] puts after the colon. *)
Definition compact_call : ToolCall :=
  mkToolCall "call_1"
    (mkFunction "get_name_for_day"
       ("{" +:+ Json.quoted "date" +:+ ":" +:+ Json.quoted "2024-10-28" +:+ "}")).

Definition compact_arguments : env :=
  world (scripted [mkMessage None (Some [compact_call]); direct_answer]) up.

(** The text of the tool message for a lookup of [d] when the service is down. *)
Definition marker_text (d : string) : string :=
  "{" +:+ Json.quoted "date" +:+ ": " +:+ Json.quoted d +:+ ", "
  +:+ Json.quoted "name" +:+ ": " +:+ Json.quoted "Error fetching data" +:+ "}".

End Scenario.

(** * Properties *)

(** ** Vocabulary *)

(** [s'] differs from [s] only by items added at the end of the list object
    [messages], by gateway calls and by HTTP requests made. *)
Definition only_appends (messages : loc) (s s' : state) : Prop :=
  contents s messages `prefix_of` contents s' messages
  ∧ (∀ l, l ≠ messages → heap s' !! l = heap s !! l)
  ∧ (gateway_calls s ≤ gateway_calls s')%nat
  ∧ http_log s `prefix_of` http_log s'.

(** The same, the gateway being left alone: what a tool step may do. *)
Definition turn_step (messages : loc) (s s' : state) : Prop :=
  only_appends messages s s' ∧ gateway_calls s' = gateway_calls s.

(** [s'] differs from [s] only by HTTP requests made. *)
Definition only_requests (s s' : state) : Prop :=
  heap s' = heap s
  ∧ gateway_calls s' = gateway_calls s
  ∧ http_log s `prefix_of` http_log s'.

(** Every run of [c] relates the state it starts in to the state it ends in,
    whether it returns or raises. *)
Definition keeps {A} (R : state → state → Prop) (c : M A) : Prop :=
  ∀ s, R s (snd (c s)).

(** The same state with another store of list objects. *)
Definition with_heap (h : gmap loc (list pyval)) (s : state) : state :=
  mkState h (gateway_calls s) (http_log s).

(** [c] neither reads nor writes the store of list objects. *)
Definition heap_blind {A} (c : M A) : Prop :=
  ∀ s h, c (with_heap h s) = (fst (c s), with_heap h (snd (c s))).

(** The state once [url] has been requested from the lookup service. *)
Definition requested (url : string) (s : state) : state :=
  mkState (heap s) (gateway_calls s) (http_log s ++ [url]).

(** The exception a tool step raises when the registry has no such name:
    the arguments are decoded before the registry is consulted. *)
Definition unknown_tool_error (E : env) (tool_call : ToolCall) : exn :=
  match json_loads E (arguments (function tool_call)) with
  | Ok _ => KeyError (name (function tool_call))
  | Raise e => e
  end.

(** The tool messages of a turn: one per request and serialized result, in
    the order of the requests. *)
Definition tool_messages (calls : list ToolCall) (texts : list string) : list pyval :=
  zip_with (fun tool_call content_text =>
              React.tool_message (id tool_call) (name (function tool_call)) content_text)
    calls texts.

(** A message built by the tool step of the loop. *)
Definition is_tool_message (m : pyval) : Prop :=
  ∃ tool_id function_name content_text,
    m = React.tool_message tool_id function_name content_text.

(** [s'] has the transcript of [s] plus messages that all satisfy [P]. *)
Definition adds_only (P : pyval → Prop) (messages : loc) (s s' : state) : Prop :=
  ∃ added, contents s' messages = contents s messages ++ added ∧ Forall P added.

(** A stretch of transcript made of whole turns: an assistant message that
    records requests, then one tool message per request, in their order. *)
Inductive answered_turns : list pyval → Prop :=
| answered_none : answered_turns []
| answered_turn r calls texts rest :
    calls ≠ [] →
    length texts = length calls →
    answered_turns rest →
    answered_turns
      (React.assistant_tool_message r calls :: tool_messages calls texts ++ rest).

(** [m["role"] == role], for a message that is a dict with such a key. *)
Definition has_role (role : string) (m : pyval) : bool :=
  match py_get m "role" with
  | Ok (PStr r) => String.eqb r role
  | _ => false
  end.

(** The number of tool messages in a stretch of transcript. *)
Definition tool_count (ms : list pyval) : nat :=
  length (List.filter (has_role "tool") ms).

(** Every list object of [s] is still there in [s'], with the same items. *)
Definition spares (s s' : state) : Prop :=
  ∀ l items, heap s !! l = Some items → heap s' !! l = Some items.

(** At most [n] gateway calls lead from [s] to [s']. *)
Definition within (n : nat) (s s' : state) : Prop :=
  (gateway_calls s' ≤ gateway_calls s + n)%nat.

(** A response the loop treats as a turn with tool calls, and one it treats
    as the final answer ([None] and the empty list are both falsy). *)
Definition requests_tools (r : ChatCompletionMessage) (calls : list ToolCall) : Prop :=
  tool_calls r = Some calls ∧ calls ≠ [].

Definition text_only (r : ChatCompletionMessage) : Prop :=
  tool_calls r = None ∨ tool_calls r = Some [].

(** ** The transcript of a run, as a value

    What "the full resulting transcript" of a run is, said without any list
    object: the loop of [ReactAgent.run] with the conversation passed along
    as a value, each message put at its end as the turn produces it. The
    list object the caller hands to [run] is compared with it below. *)

(** How a stretch of the run ends: the value returned or the exception
    raised, the messages it leaves, and the counters of the outside world. *)
Record ended (A : Type) := mkEnded {
  result : outcome A;
  transcript : list pyval;
  world : state
}.
Arguments mkEnded {A} _ _ _.
Arguments result {A} _.
Arguments transcript {A} _.
Arguments world {A} _.

Section ByValue.
Variable E : env.

(** The tool messages of the requests [calls], answered one after the other
    from the state [s] on, up to the first step that raises. *)
Fixpoint round_by_value (calls : list ToolCall) (s : state) : ended unit :=
  match calls with
  | [] => mkEnded (Ok tt) [] s
  | tool_call :: rest =>
      match React.invoke E tool_call s with
      | (Raise e, s1) => mkEnded (Raise e) [] s1
      | (Ok function_response, s1) =>
          match json_dumps E function_response with
          | Raise e => mkEnded (Raise e) [] s1
          | Ok content_text =>
              let later := round_by_value rest s1 in
              mkEnded (result later)
                (React.tool_message (id tool_call) (name (function tool_call)) content_text
                   :: transcript later)
                (world later)
          end
      end
  end.

(** The run with [iterations] iterations left, from the conversation
    [conversation] on. *)
Fixpoint run_by_value (self : React.ReactAgent) (iterations : nat)
  (conversation : list pyval) (s : state) : ended (option string) :=
  match iterations with
  | O => mkEnded (Ok (Some React.limit_message)) conversation s
  | S iterations' =>
      match chat_completions_create E (gateway_calls s)
              (mkRequest (React.model self) conversation React.tools "auto" (Some false)) with
      | Raise e => mkEnded (Raise e) conversation (answered s)
      | Ok response_message =>
          match tool_calls response_message with
          | Some (tool_call :: more) =>
              let calls := tool_call :: more in
              let round := round_by_value calls (answered s) in
              let conversation' :=
                conversation
                  ++ React.assistant_tool_message response_message calls :: transcript round in
              match result round with
              | Ok _ => run_by_value self iterations' conversation' (world round)
              | Raise e => mkEnded (Raise e) conversation' (world round)
              end
          | _ =>
              mkEnded (Ok (content response_message))
                (conversation ++ [React.assistant_final_message (content response_message)])
                (answered s)
          end
      end
  end.

(** The whole transcript of [ReactAgent.run] called on a list that holds
    what [messages] holds in [s]: all the iterations of the agent, no list
    object in the state. *)
Definition resulting_transcript (self : React.ReactAgent) (messages : loc) (s : state)
  : ended (option string) :=
  run_by_value self (Z.to_nat (React.max_iterations self)) (contents s messages)
    (with_heap ∅ s).

End ByValue.

(** ** The monad *)

Section MonadFacts.
Context {A B : Type}.

Lemma bind_ok (c : M A) (k : A → M B) s a s' :
  c s = (Ok a, s') → bind c k s = k a s'.
Proof. intros H. unfold bind. now rewrite H. Qed.

Lemma bind_raise (c : M A) (k : A → M B) s e s' :
  c s = (Raise e, s') → bind c k s = (Raise e, s').
Proof. intros H. unfold bind. now rewrite H. Qed.

Lemma bind_inv_ok (c : M A) (k : A → M B) s b s' :
  bind c k s = (Ok b, s') → ∃ a s1, c s = (Ok a, s1) ∧ k a s1 = (Ok b, s').
Proof.
  unfold bind. destruct (c s) as [[a|e] s1]; intros H.
  - now exists a, s1.
  - discriminate.
Qed.

Lemma lift_ok (a : A) s : lift (Ok a) s = (Ok a, s).
Proof. reflexivity. Qed.

End MonadFacts.

Lemma bind_ret_l {A B} (a : A) (k : A → M B) s : bind (ret a) k s = k a s.
Proof. reflexivity. Qed.

Lemma bind_assoc {A B C} (c : M A) (k : A → M B) (k' : B → M C) s :
  bind (bind c k) k' s = bind c (fun a => bind (k a) k') s.
Proof. unfold bind. destruct (c s) as [[a|e] s1]; reflexivity. Qed.

Lemma bind_ext {A B} (c : M A) (k k' : A → M B) s :
  (∀ a s1, k a s1 = k' a s1) → bind c k s = bind c k' s.
Proof. intros H. unfold bind. destruct (c s) as [[a|e] s1]; auto. Qed.

Lemma for_each_app {A} (xs ys : list A) (body : A → M unit) s :
  for_each (xs ++ ys) body s = bind (for_each xs body) (fun _ => for_each ys body) s.
Proof.
  revert s. induction xs as [|x xs IH]; intros s; simpl.
  - reflexivity.
  - rewrite bind_assoc. apply bind_ext. intros _ s1. apply IH.
Qed.

(** ** States only grow *)

#[local] Instance only_appends_preorder messages : PreOrder (only_appends messages).
Proof.
  split.
  - intros s. repeat split; reflexivity.
  - intros s1 s2 s3 (Hc & Hf & Hg & Hl) (Hc' & Hf' & Hg' & Hl'). repeat split.
    + now transitivity (contents s2 messages).
    + intros l Hl0. rewrite Hf', Hf; auto.
    + lia.
    + now transitivity (http_log s2).
Qed.

#[local] Instance only_requests_preorder : PreOrder only_requests.
Proof.
  split.
  - intros s. repeat split; reflexivity.
  - intros s1 s2 s3 (Hh & Hg & Hl) (Hh' & Hg' & Hl'). repeat split; try congruence.
    now transitivity (http_log s2).
Qed.

Lemma only_requests_appends messages s s' :
  only_requests s s' → only_appends messages s s'.
Proof.
  intros (Hh & Hg & Hl). unfold only_appends, contents. rewrite Hh, Hg.
  repeat split; auto.
Qed.

Section Keeps.
Context (R : state → state → Prop) `{!PreOrder R}.

Lemma keeps_ret {A} (a : A) : keeps R (ret a).
Proof. intros s. reflexivity. Qed.

Lemma keeps_raise {A} e : keeps R (@raise A e).
Proof. intros s. reflexivity. Qed.

Lemma keeps_lift {A} (o : outcome A) : keeps R (lift o).
Proof. intros s. reflexivity. Qed.

Lemma keeps_read l : keeps R (read l).
Proof. intros s. reflexivity. Qed.

Lemma keeps_bind {A B} (c : M A) (k : A → M B) :
  keeps R c → (∀ a, keeps R (k a)) → keeps R (bind c k).
Proof.
  intros Hc Hk s. unfold bind. specialize (Hc s).
  destruct (c s) as [[a|e] s1]; simpl in *; [|assumption].
  transitivity s1; [assumption | apply Hk].
Qed.

Lemma keeps_for_each {A} (xs : list A) (body : A → M unit) :
  (∀ x, keeps R (body x)) → keeps R (for_each xs body).
Proof.
  intros Hb. induction xs as [|x xs IH]; simpl.
  - apply keeps_ret.
  - apply keeps_bind; auto.
Qed.

Lemma keeps_call_with_kwargs (f : pyval → M pyval) function_args :
  (∀ v, keeps R (f v)) → keeps R (call_with_kwargs f function_args).
Proof.
  intros Hf. unfold call_with_kwargs.
  destruct function_args as [| | | |?|[|[k v] [|? ?]]|?]; try apply keeps_raise.
  destruct (String.eqb k "date"); [apply Hf | apply keeps_raise].
Qed.

End Keeps.

Lemma keeps_weaken {A} (R R' : state → state → Prop) (c : M A) :
  (∀ s s', R s s' → R' s s') → keeps R c → keeps R' c.
Proof. intros HR Hc s. apply HR, Hc. Qed.

Lemma contents_append l m s :
  contents (snd (append l m s)) l = contents s l ++ [m].
Proof. unfold append, contents; simpl. now rewrite lookup_total_insert_eq. Qed.

Lemma append_frame l m s l' :
  l' ≠ l → heap (snd (append l m s)) !! l' = heap s !! l'.
Proof. intros Hne. unfold append; simpl. now rewrite lookup_insert_ne. Qed.

Lemma keeps_append l m : keeps (only_appends l) (append l m).
Proof.
  intros s. split; [|split; [|split]].
  - rewrite contents_append. now apply prefix_app_r.
  - intros l' Hne. now apply append_frame.
  - reflexivity.
  - reflexivity.
Qed.

Lemma keeps_create E l req : keeps (only_appends l) (create E req).
Proof.
  intros s. unfold create; simpl. repeat split; simpl; auto.
Qed.

Lemma keeps_http_get E url : keeps only_requests (http_get E url).
Proof.
  intros s. unfold http_get; simpl. repeat split; simpl. now apply prefix_app_r.
Qed.

(** ** The tool functions only talk to the lookup service *)

Ltac keeps_step :=
  first
    [ apply keeps_ret; tc_solve
    | apply keeps_raise; tc_solve
    | apply keeps_lift; tc_solve
    | apply keeps_read; tc_solve
    | apply keeps_http_get
    | apply keeps_bind; [tc_solve | | intros ?] ].

Lemma keeps_get_name_for_day E date : keeps only_requests (get_name_for_day E date).
Proof.
  unfold get_name_for_day. repeat keeps_step.
  destruct (status_code _ =? 200); repeat keeps_step.
Qed.

Lemma keeps_get_all_info_about_day E date :
  keeps only_requests (get_all_info_about_day E date).
Proof.
  unfold get_all_info_about_day. repeat keeps_step.
  destruct (status_code _ =? 200); repeat keeps_step.
Qed.

Lemma keeps_get_names_for_week E date : keeps only_requests (get_names_for_week E date).
Proof.
  unfold get_names_for_week. repeat keeps_step.
  destruct (status_code _ =? 200); repeat keeps_step.
Qed.

(** The registry of the ReAct script holds exactly its three tool functions. *)
Lemma available_functions_lookup E function_name f :
  React.available_functions E !! function_name = Some f →
  (function_name = "get_name_for_day" ∧ f = get_name_for_day E)
  ∨ (function_name = "get_all_info_about_day" ∧ f = get_all_info_about_day E)
  ∨ (function_name = "get_names_for_week" ∧ f = get_names_for_week E).
Proof.
  unfold React.available_functions. intros H.
  apply lookup_insert_Some in H as [[<- <-]|[_ H]]; [now left|].
  apply lookup_insert_Some in H as [[<- <-]|[_ H]]; [now right; left|].
  apply lookup_insert_Some in H as [[<- <-]|[_ H]]; [now right; right|].
  now rewrite lookup_empty in H.
Qed.

Lemma pure_available_functions_lookup E function_name f :
  PureTool.available_functions E !! function_name = Some f →
  function_name = "get_name_for_day" ∧ f = get_name_for_day E.
Proof.
  unfold PureTool.available_functions. intros H.
  apply lookup_singleton_Some in H as [<- <-]. now split.
Qed.

Lemma keeps_registered E function_name f v :
  React.available_functions E !! function_name = Some f → keeps only_requests (f v).
Proof.
  intros H. apply available_functions_lookup in H as [[_ ->]|[[_ ->]|[_ ->]]].
  - apply keeps_get_name_for_day.
  - apply keeps_get_all_info_about_day.
  - apply keeps_get_names_for_week.
Qed.

Lemma keeps_invoke E tool_call : keeps only_requests (React.invoke E tool_call).
Proof.
  unfold React.invoke. keeps_step; [keeps_step|].
  unfold React.lookup_function.
  destruct (React.available_functions E !! _) as [f|] eqn:Hf.
  - unfold keeps, bind, ret; simpl. intros s.
    apply keeps_call_with_kwargs; [tc_solve|].
    intros v. eapply keeps_registered, Hf.
  - intros s. reflexivity.
Qed.

(** ** One pass through the loop body *)

Lemma process_tool_call_invoke E messages tool_call s :
  React.process_tool_call E messages tool_call s =
  bind (React.invoke E tool_call)
    (fun function_response =>
       bind (lift (json_dumps E function_response))
         (fun content_text =>
            append messages
              (React.tool_message (id tool_call) (name (function tool_call)) content_text))) s.
Proof.
  unfold React.process_tool_call, React.invoke.
  rewrite bind_assoc. apply bind_ext. intros function_args s1.
  rewrite bind_assoc. apply bind_ext. intros function_to_call s2.
  reflexivity.
Qed.

Lemma loop_body_unfold E self messages s :
  React.loop_body E self messages s =
  match React.reply E self messages s with
  | Raise e => (Raise e, answered s)
  | Ok r =>
      match tool_calls r with
      | Some (tool_call :: more) =>
          bind (for_each (tool_call :: more) (React.process_tool_call E messages))
            (fun _ => ret React.Continue)
            (React.recorded messages r (tool_call :: more) s)
      | _ =>
          (Ok (React.Return (content r)),
           snd (append messages (React.assistant_final_message (content r))
                  (answered s)))
      end
  end.
Proof.
  unfold React.loop_body, React.reply, React.recorded, React.request_of.
  unfold bind at 1, read. unfold bind at 1, create. fold (answered s).
  destruct (chat_completions_create E _ _) as [r|e]; [|reflexivity].
  destruct (tool_calls r) as [[|tool_call more]|]; reflexivity.
Qed.

#[local] Instance turn_step_preorder messages : PreOrder (turn_step messages).
Proof.
  split.
  - intros s. split; reflexivity.
  - intros s1 s2 s3 [H1 G1] [H2 G2]. split; [now transitivity s2 | congruence].
Qed.

Lemma only_requests_turn_step messages s s' :
  only_requests s s' → turn_step messages s s'.
Proof.
  intros H. split; [now apply only_requests_appends | apply H].
Qed.

Lemma keeps_process_tool_call E messages tool_call :
  keeps (turn_step messages) (React.process_tool_call E messages tool_call).
Proof.
  intros s. rewrite process_tool_call_invoke. revert s.
  apply keeps_bind; [tc_solve | |].
  - eapply keeps_weaken; [apply only_requests_turn_step | apply keeps_invoke].
  - intros v. apply keeps_bind; [tc_solve | apply keeps_lift; tc_solve |].
    intros text s. split; [apply keeps_append | reflexivity].
Qed.

Lemma answered_step messages s :
  only_appends messages s (answered s)
  ∧ gateway_calls (answered s) = S (gateway_calls s).
Proof. unfold answered. repeat split; simpl; auto. Qed.

(** Whatever the gateway answers and whatever the tools do, a pass through
    the body makes exactly one gateway call and only adds to the transcript. *)
Lemma loop_body_step E self messages s :
  only_appends messages s (snd (React.loop_body E self messages s))
  ∧ gateway_calls (snd (React.loop_body E self messages s)) = S (gateway_calls s).
Proof.
  destruct (answered_step messages s) as [Ha Hg].
  assert (Hturn : ∀ s', turn_step messages (answered s) s' →
            only_appends messages s s' ∧ gateway_calls s' = S (gateway_calls s)).
  { intros s' [H1 H2]. split; [now transitivity (answered s) | congruence]. }
  rewrite loop_body_unfold.
  destruct (React.reply E self messages s) as [r|e]; [|now split].
  assert (Hfinal : turn_step messages (answered s)
            (snd (append messages (React.assistant_final_message (content r))
                    (answered s)))).
  { split; [apply keeps_append | reflexivity]. }
  destruct (tool_calls r) as [[|tool_call more]|]; cbv beta iota; try now apply Hturn.
  apply Hturn.
  transitivity (React.recorded messages r (tool_call :: more) s).
  - split; [apply keeps_append | reflexivity].
  - apply keeps_bind; [tc_solve | | intros ?; apply keeps_ret; tc_solve].
    apply keeps_for_each; [tc_solve|]. intros x. apply keeps_process_tool_call.
Qed.

(** ** Induction along the iterations of the loop *)

Lemma while_loop_running E self messages iteration s :
  iteration < React.max_iterations self →
  React.while_loop E self messages iteration s =
    match React.loop_body E self messages s with
    | (Ok React.Continue, s') => React.while_loop E self messages (iteration + 1) s'
    | (Ok (React.Return final_content), s') => (Ok final_content, s')
    | (Raise e, s') => (Raise e, s')
    end.
Proof.
  intros Hlt. rewrite React.while_loop_equation_1.
  destruct (Z_lt_dec iteration (React.max_iterations self)) as [H|H]; [|lia]. simpl.
  destruct (React.loop_body E self messages s) as [[[|c]|e] s']; reflexivity.
Qed.

Lemma while_loop_exhausted E self messages iteration s :
  ¬ iteration < React.max_iterations self →
  React.while_loop E self messages iteration s = (Ok (Some React.limit_message), s).
Proof.
  intros Hge. rewrite React.while_loop_equation_1.
  destruct (Z_lt_dec iteration (React.max_iterations self)) as [H|H]; [lia|]. reflexivity.
Qed.

Section LoopInduction.
Variables (E : env) (self : React.ReactAgent) (messages : loc).
Variable P : Z → state → outcome (option string) * state → Prop.

Hypothesis at_limit : ∀ i s,
  ¬ i < React.max_iterations self → P i s (Ok (Some React.limit_message), s).
Hypothesis on_return : ∀ i s c s',
  i < React.max_iterations self →
  React.loop_body E self messages s = (Ok (React.Return c), s') → P i s (Ok c, s').
Hypothesis on_raise : ∀ i s e s',
  i < React.max_iterations self →
  React.loop_body E self messages s = (Raise e, s') → P i s (Raise e, s').
Hypothesis on_continue : ∀ i s s',
  i < React.max_iterations self →
  React.loop_body E self messages s = (Ok React.Continue, s') →
  P (i + 1) s' (React.while_loop E self messages (i + 1) s') →
  P i s (React.while_loop E self messages (i + 1) s').

Lemma while_loop_induction i s : P i s (React.while_loop E self messages i s).
Proof.
  remember (Z.to_nat (React.max_iterations self - i)) as n eqn:Hn.
  revert i s Hn. induction n as [|n IH]; intros i s Hn.
  - rewrite while_loop_exhausted by lia. apply at_limit. lia.
  - assert (Hlt : i < React.max_iterations self) by lia.
    rewrite while_loop_running by assumption.
    destruct (React.loop_body E self messages s) as [[[|c]|e] s'] eqn:Hbody.
    + apply on_continue; [assumption | assumption | apply IH; lia].
    + now apply on_return.
    + now apply on_raise.
Qed.

End LoopInduction.

(** ** How a pass through the body ends *)

Lemma loop_body_text_only E self messages s r :
  React.reply E self messages s = Ok r → text_only r →
  React.loop_body E self messages s =
    (Ok (React.Return (content r)),
     snd (append messages (React.assistant_final_message (content r)) (answered s))).
Proof.
  intros Hr Ht. rewrite loop_body_unfold, Hr. now destruct Ht as [-> | ->].
Qed.

Lemma loop_body_tools E self messages s r calls :
  React.reply E self messages s = Ok r → requests_tools r calls →
  React.loop_body E self messages s =
    bind (for_each calls (React.process_tool_call E messages))
      (fun _ => ret React.Continue) (React.recorded messages r calls s).
Proof.
  intros Hr [Hc Hne]. rewrite loop_body_unfold, Hr, Hc.
  now destruct calls as [|tool_call more].
Qed.

(** A gateway call that raises ends the pass, and so the run, at once. *)
Lemma loop_body_gateway_error E self messages s e :
  React.reply E self messages s = Raise e →
  React.loop_body E self messages s = (Raise e, answered s).
Proof. intros Hr. now rewrite loop_body_unfold, Hr. Qed.

(** The only [return] inside the loop is the one of a text-only response. *)
Lemma loop_body_return_inv E self messages s c s' :
  React.loop_body E self messages s = (Ok (React.Return c), s') →
  ∃ r, React.reply E self messages s = Ok r ∧ text_only r ∧ c = content r
       ∧ s' = snd (append messages (React.assistant_final_message (content r))
                     (answered s)).
Proof.
  rewrite loop_body_unfold.
  destruct (React.reply E self messages s) as [r|e]; [|discriminate].
  destruct (tool_calls r) as [[|tool_call more]|] eqn:Hc.
  - intros [= <- <-]. exists r. unfold text_only. auto.
  - unfold bind. destruct (for_each _ _ _) as [[[]|e] s1]; discriminate.
  - intros [= <- <-]. exists r. unfold text_only. auto.
Qed.

(** A pass that ends in [continue] answered a response with tool calls. *)
Lemma loop_body_continue_inv E self messages s s' :
  React.loop_body E self messages s = (Ok React.Continue, s') →
  ∃ r calls, React.reply E self messages s = Ok r ∧ requests_tools r calls
    ∧ for_each calls (React.process_tool_call E messages)
        (React.recorded messages r calls s) = (Ok tt, s').
Proof.
  rewrite loop_body_unfold.
  destruct (React.reply E self messages s) as [r|e]; [|discriminate].
  destruct (tool_calls r) as [[|tool_call more]|] eqn:Hc; try discriminate.
  intros H. exists r, (tool_call :: more). split; [reflexivity|]. split; [now split|].
  unfold bind in H.
  destruct (for_each _ _ _) as [[[]|e] s1]; [|discriminate].
  now injection H as <-.
Qed.

Lemma passes_while_loop E self messages k : ∀ iteration s s',
  React.passes E self messages k s = Some s' →
  iteration + Z.of_nat k ≤ React.max_iterations self →
  React.while_loop E self messages iteration s =
  React.while_loop E self messages (iteration + Z.of_nat k) s'.
Proof.
  induction k as [|k IH]; intros iteration s s' Hp Hle; simpl in Hp.
  - injection Hp as <-. now rewrite Z.add_0_r.
  - rewrite while_loop_running by lia.
    destruct (React.loop_body E self messages s) as [[[|c]|e] s1]; try discriminate.
    rewrite (IH _ _ _ Hp) by lia. f_equal. lia.
Qed.

(** The loop makes at most as many gateway calls as iterations are left. *)
Lemma while_loop_gateway_bound E self messages iteration s :
  (gateway_calls (snd (React.while_loop E self messages iteration s))
   ≤ gateway_calls s + Z.to_nat (React.max_iterations self - iteration))%nat.
Proof.
  apply (while_loop_induction E self messages
    (fun i s res => (gateway_calls (snd res)
                     ≤ gateway_calls s + Z.to_nat (React.max_iterations self - i))%nat)).
  - intros i s0 _. simpl. lia.
  - intros i s0 c s' Hlt Hb. simpl.
    pose proof (loop_body_step E self messages s0) as [_ Hg]. rewrite Hb in Hg. simpl in Hg. lia.
  - intros i s0 e s' Hlt Hb. simpl.
    pose proof (loop_body_step E self messages s0) as [_ Hg]. rewrite Hb in Hg. simpl in Hg. lia.
  - intros i s0 s' Hlt Hb IH.
    pose proof (loop_body_step E self messages s0) as [_ Hg]. rewrite Hb in Hg. simpl in Hg. lia.
Qed.

Lemma keeps_while_loop E self messages iteration :
  keeps (only_appends messages) (React.while_loop E self messages iteration).
Proof.
  intros s.
  apply (while_loop_induction E self messages
    (fun i s res => only_appends messages s (snd res))).
  - intros i s0 _. reflexivity.
  - intros i s0 c s' Hlt Hb.
    pose proof (loop_body_step E self messages s0) as [Ha _]. now rewrite Hb in Ha.
  - intros i s0 e s' Hlt Hb.
    pose proof (loop_body_step E self messages s0) as [Ha _]. now rewrite Hb in Ha.
  - intros i s0 s' Hlt Hb IH.
    pose proof (loop_body_step E self messages s0) as [Ha _]. rewrite Hb in Ha.
    now transitivity s'.
Qed.

(** ** The single-round script *)

Lemma keeps_get_completion E messages model :
  keeps (only_appends messages) (PureTool.get_completion_from_messages E messages model).
Proof.
  unfold PureTool.get_completion_from_messages.
  apply keeps_bind; [tc_solve | apply keeps_read; tc_solve | intros transcript].
  apply keeps_bind; [tc_solve | apply keeps_create | intros r].
  destruct (tool_calls r) as [[|tool_call more]|]; try (apply keeps_ret; tc_solve).
  apply keeps_bind; [tc_solve | apply keeps_lift; tc_solve | intros function_args].
  unfold PureTool.lookup_function.
  destruct (PureTool.available_functions E !! _) as [f|] eqn:Hf;
    [|intros s; reflexivity].
  apply pure_available_functions_lookup in Hf as [_ ->].
  intros s. rewrite bind_ret_l. revert s.
  apply keeps_bind; [tc_solve | | intros function_response].
  { apply keeps_call_with_kwargs; [tc_solve|]. intros v.
    eapply keeps_weaken; [apply only_requests_appends | apply keeps_get_name_for_day]. }
  apply keeps_bind; [tc_solve | apply keeps_lift; tc_solve | intros arguments_text].
  apply keeps_bind; [tc_solve | apply keeps_append | intros _].
  apply keeps_bind; [tc_solve | apply keeps_lift; tc_solve | intros content_text].
  apply keeps_bind; [tc_solve | apply keeps_append | intros _].
  apply keeps_bind; [tc_solve | apply keeps_read; tc_solve | intros transcript'].
  apply keeps_bind; [tc_solve | apply keeps_create | intros final_answer].
  apply keeps_ret; tc_solve.
Qed.

(** ** The transcript only grows (C6) *)

(** C6. The transcript is append-only during a run: each tool step, each
    pass through the loop body, the rest of the loop from any iteration on
    (so the whole of [ReactAgent.run]), and the single-round
    [get_completion_from_messages], leave the list they start with as a
    prefix of the list they end with, whether they return or raise. So
    does any part of the [for] loop over the requests of a turn, and any
    number of passes through the loop body: since this holds from every
    state, the transcript at the start of an iteration is a prefix of the
    transcript at every later point. *)
Theorem transcript_append_only E self messages :
  (∀ tool_call s,
     contents s messages
       `prefix_of` contents (snd (React.process_tool_call E messages tool_call s)) messages)
  ∧ (∀ s,
       contents s messages
         `prefix_of` contents (snd (React.loop_body E self messages s)) messages)
  ∧ (∀ iteration s,
       contents s messages
         `prefix_of` contents (snd (React.while_loop E self messages iteration s)) messages)
  ∧ (∀ s,
       contents s messages `prefix_of` contents (snd (React.run E self messages s)) messages)
  ∧ (∀ model s,
       contents s messages
         `prefix_of`
         contents (snd (PureTool.get_completion_from_messages E messages model s)) messages)
  ∧ (∀ calls s,
       contents s messages
         `prefix_of`
         contents (snd (for_each calls (React.process_tool_call E messages) s)) messages)
  ∧ (∀ k s s',
       React.passes E self messages k s = Some s' →
       contents s messages `prefix_of` contents s' messages).
Proof.
  repeat apply conj.
  - intros tool_call s. apply (keeps_process_tool_call E messages tool_call s).
  - intros s. apply (loop_body_step E self messages s).
  - intros iteration s. apply (keeps_while_loop E self messages iteration s).
  - intros s. apply (keeps_while_loop E self messages 0 s).
  - intros model s. apply (keeps_get_completion E messages model s).
  - intros calls s.
    apply (keeps_for_each (turn_step messages) calls _
             (keeps_process_tool_call E messages) s).
  - intros k. induction k as [|k IH]; simpl; intros s s' Hp.
    + now injection Hp as <-.
    + pose proof (loop_body_step E self messages s) as [(Hpre & _) _].
      destruct (React.loop_body E self messages s) as [[[|c]|e] s1]; try discriminate.
      etransitivity; [exact Hpre | now apply IH].
Qed.

(** ** The last message of a run *)

Lemma while_loop_last_message E self messages iteration s final :
  fst (React.while_loop E self messages iteration s) = Ok final →
  last (contents (snd (React.while_loop E self messages iteration s)) messages)
    = Some (React.assistant_final_message final)
  ∨ (final = Some React.limit_message
     ∧ gateway_calls (snd (React.while_loop E self messages iteration s))
       = (gateway_calls s + Z.to_nat (React.max_iterations self - iteration))%nat).
Proof.
  revert final.
  apply (while_loop_induction E self messages
    (fun i s res => ∀ final, fst res = Ok final →
       last (contents (snd res) messages) = Some (React.assistant_final_message final)
       ∨ (final = Some React.limit_message
          ∧ gateway_calls (snd res)
            = (gateway_calls s + Z.to_nat (React.max_iterations self - i))%nat))).
  - intros i s0 Hge final [= <-]. right. split; [reflexivity|]. simpl. lia.
  - intros i s0 c s' Hlt Hb final [= <-]. left.
    apply loop_body_return_inv in Hb as (r & _ & _ & -> & ->). cbn [snd].
    rewrite contents_append. apply last_snoc.
  - intros i s0 e s' Hlt Hb final [=].
  - intros i s0 s' Hlt Hb IH final Hfinal.
    pose proof (loop_body_step E self messages s0) as [_ Hg]. rewrite Hb in Hg. simpl in Hg.
    destruct (IH final Hfinal) as [Hl | [-> Hc]]; [now left | right].
    split; [reflexivity | lia].
Qed.

(** What [main] relies on: a run on a copy leaves the original list alone. *)
Lemma run_on_copy_spares_original E self messages s :
  messages ∈ dom (heap s) →
  fst (list_copy messages s) = Ok (fresh (dom (heap s)))
  ∧ contents (snd (list_copy messages s)) (fresh (dom (heap s))) = contents s messages
  ∧ contents (snd (React.run E self (fresh (dom (heap s))) (snd (list_copy messages s))))
      messages = contents s messages.
Proof.
  intros Hin.
  pose proof (is_fresh (dom (heap s))) as Hfresh.
  assert (Hne : messages ≠ fresh (dom (heap s))) by (intros Heq; now rewrite <- Heq in Hfresh).
  split; [reflexivity | split].
  - unfold contents at 1, list_copy; simpl. now rewrite lookup_total_insert_eq.
  - pose proof (keeps_while_loop E self (fresh (dom (heap s))) 0
                  (snd (list_copy messages s))) as (_ & Hf & _ & _).
    unfold React.run, contents at 1. rewrite lookup_total_alt, (Hf messages Hne).
    unfold list_copy; simpl. rewrite lookup_insert_ne by auto.
    unfold contents. now rewrite lookup_total_alt.
Qed.

(** ** The iteration limit (C1) *)

(** C1, as the code has it. [run] is a total function, defined by
    recursion on the iterations that are left, and a run of an agent built
    by [ReactAgent.__init__] is over after at most 10 gateway calls, one per
    iteration. When 10 iterations in a row end in [continue], the run
    returns the fixed text [limit_message]: an ordinary [str] return value,
    not a failure of a kind of its own, and the same value a run returns
    when the model answers with that text. An iteration ends in [continue]
    only on a response that carries tool calls. *)
Theorem run_stops_at_iteration_limit E model messages s :
  (gateway_calls (snd (React.run E (React.init model) messages s)) ≤ gateway_calls s + 10)%nat
  ∧ (∀ s', React.passes E (React.init model) messages 10 s = Some s' →
       React.run E (React.init model) messages s = (Ok (Some React.limit_message), s'))
  ∧ (∀ r, React.reply E (React.init model) messages s = Ok r →
       text_only r → content r = Some React.limit_message →
       fst (React.run E (React.init model) messages s) = Ok (Some React.limit_message))
  ∧ (∀ s0 s1, React.loop_body E (React.init model) messages s0 = (Ok React.Continue, s1) →
       ∃ r calls, React.reply E (React.init model) messages s0 = Ok r ∧ requests_tools r calls)
  ∧ (∀ s0, gateway_calls (snd (React.loop_body E (React.init model) messages s0))
           = S (gateway_calls s0)).
Proof.
  split; [|split; [|split; [|split]]]; [| | | |intros s0; apply loop_body_step].
  - apply (while_loop_gateway_bound E (React.init model) messages 0 s).
  - intros s' Hp. unfold React.run.
    rewrite (passes_while_loop E (React.init model) messages 10 0 s s' Hp) by (simpl; lia).
    apply while_loop_exhausted. simpl. lia.
  - intros r Hr Ht Hc. unfold React.run.
    rewrite while_loop_running by (simpl; lia).
    rewrite (loop_body_text_only E _ messages s r Hr Ht). simpl. now rewrite Hc.
  - intros s0 s1 Hb. apply loop_body_continue_inv in Hb as (r & calls & Hr & Hreq & _).
    now exists r, calls.
Qed.

Lemma run_stops_at_iteration_limit_witness :
  React.passes Scenario.insistent Scenario.agent 0%nat 10 Scenario.start
    = Some (snd (React.run Scenario.insistent Scenario.agent 0%nat Scenario.start))
  ∧ React.run Scenario.insistent Scenario.agent 0%nat Scenario.start
    = (Ok (Some React.limit_message),
       snd (React.run Scenario.insistent Scenario.agent 0%nat Scenario.start))
  ∧ fst (React.run Scenario.parrot Scenario.agent 0%nat Scenario.start)
    = Ok (Some React.limit_message).
Proof.
  assert (Hp : React.passes Scenario.insistent Scenario.agent 0%nat 10 Scenario.start
               = Some (snd (React.run Scenario.insistent Scenario.agent 0%nat Scenario.start)))
    by (vm_compute; reflexivity).
  split; [exact Hp | split].
  - exact (proj1 (proj2 (run_stops_at_iteration_limit
             Scenario.insistent "gpt-4o" 0%nat Scenario.start)) _ Hp).
  - apply (proj1 (proj2 (proj2 (run_stops_at_iteration_limit
             Scenario.parrot "gpt-4o" 0%nat Scenario.start)))
             (mkMessage (Some React.limit_message) None)).
    + reflexivity.
    + left. reflexivity.
    + reflexivity.
Defined.

(** The claim as stated fails: the value returned at the iteration limit
    (ten gateway calls, each answered by a tool request) is equal to the
    value returned by a successful run (one gateway call, answered by text
    alone), so the caller cannot tell the two apart. *)
Lemma limit_result_is_not_distinguishable :
  fst (React.run Scenario.insistent Scenario.agent 0%nat Scenario.start)
    = fst (React.run Scenario.parrot Scenario.agent 0%nat Scenario.start)
  ∧ gateway_calls (snd (React.run Scenario.insistent Scenario.agent 0%nat Scenario.start)) = 10%nat
  ∧ React.passes Scenario.insistent Scenario.agent 0%nat 10 Scenario.start
    = Some (snd (React.run Scenario.insistent Scenario.agent 0%nat Scenario.start))
  ∧ gateway_calls (snd (React.run Scenario.parrot Scenario.agent 0%nat Scenario.start)) = 1%nat
  ∧ React.reply Scenario.parrot Scenario.agent 0%nat Scenario.start
    = Ok (mkMessage (Some React.limit_message) None)
  ∧ fst (React.run Scenario.parrot Scenario.agent 0%nat Scenario.start)
    = Ok (Some "Error: Maximum iterations reached without getting a final answer.").
Proof. repeat apply conj; vm_compute; reflexivity. Qed.

(** ** A tool step that raises ends the run *)

Lemma for_each_raises_at {A} (before after : list A) (x : A) (body : A → M unit) s s1 e s2 :
  for_each before body s = (Ok tt, s1) →
  body x s1 = (Raise e, s2) →
  for_each (before ++ x :: after) body s = (Raise e, s2).
Proof.
  intros Hb Hx. rewrite for_each_app, (bind_ok _ _ _ _ _ Hb). simpl.
  now rewrite (bind_raise _ _ _ _ _ Hx).
Qed.

Lemma while_loop_raises E self messages iteration s e s' :
  iteration < React.max_iterations self →
  React.loop_body E self messages s = (Raise e, s') →
  React.while_loop E self messages iteration s = (Raise e, s').
Proof. intros Hlt Hb. rewrite while_loop_running by assumption. now rewrite Hb. Qed.

(** If, in a turn, the requests before [tool_call] are processed and the
    step for [tool_call] raises, the run is over with that exception, in the
    state the step left, after this one gateway call. *)
Lemma turn_raises E self messages iteration s r before tool_call after s1 e s2 :
  iteration < React.max_iterations self →
  React.reply E self messages s = Ok r →
  tool_calls r = Some (before ++ tool_call :: after) →
  for_each before (React.process_tool_call E messages)
    (React.recorded messages r (before ++ tool_call :: after) s) = (Ok tt, s1) →
  React.process_tool_call E messages tool_call s1 = (Raise e, s2) →
  React.while_loop E self messages iteration s = (Raise e, s2)
  ∧ gateway_calls s2 = S (gateway_calls s).
Proof.
  intros Hlt Hr Hc Hb Hx.
  assert (Hbody : React.loop_body E self messages s = (Raise e, s2)).
  { rewrite (loop_body_tools E self messages s r (before ++ tool_call :: after) Hr).
    - apply bind_raise. eapply for_each_raises_at; eassumption.
    - split; [assumption|]. now destruct before. }
  split; [now apply while_loop_raises|].
  pose proof (loop_body_step E self messages s) as [_ Hg]. now rewrite Hbody in Hg.
Qed.

(** ** A tool the registry does not know (C2) *)

Lemma process_unknown_tool E messages tool_call s :
  React.available_functions E !! name (function tool_call) = None →
  React.process_tool_call E messages tool_call s = (Raise (unknown_tool_error E tool_call), s).
Proof.
  intros Hnone. unfold React.process_tool_call, unknown_tool_error, bind, lift.
  destruct (json_loads E _) as [function_args|e]; [|reflexivity].
  unfold React.lookup_function. now rewrite Hnone.
Qed.

(** C2, as the code has it. When a request of a turn names a tool that is
    not in [available_functions], and the requests before it in the turn
    have been processed, the run is over with an exception: [KeyError] of
    that name (or the decoding error of its arguments, which are decoded
    first). The state is the one in which the request was reached: no tool
    message is added for it, the requests after it are not executed, and
    the gateway is not called again. *)
Theorem unknown_tool_aborts_run E self messages iteration s r before tool_call after s1 :
  iteration < React.max_iterations self →
  React.reply E self messages s = Ok r →
  tool_calls r = Some (before ++ tool_call :: after) →
  for_each before (React.process_tool_call E messages)
    (React.recorded messages r (before ++ tool_call :: after) s) = (Ok tt, s1) →
  React.available_functions E !! name (function tool_call) = None →
  React.while_loop E self messages iteration s = (Raise (unknown_tool_error E tool_call), s1)
  ∧ gateway_calls s1 = S (gateway_calls s).
Proof.
  intros Hlt Hr Hc Hb Hnone.
  eapply turn_raises; try eassumption.
  now apply process_unknown_tool.
Qed.

Lemma unknown_tool_aborts_run_witness :
  React.run Scenario.hallucinating Scenario.agent 0%nat Scenario.start
  = (Raise (KeyError "nonexistent_tool"),
     React.recorded 0%nat
       (mkMessage None (Some [Scenario.request "call_1" "nonexistent_tool" "2024-10-28"]))
       [Scenario.request "call_1" "nonexistent_tool" "2024-10-28"] Scenario.start)
  ∧ gateway_calls
      (React.recorded 0%nat
         (mkMessage None (Some [Scenario.request "call_1" "nonexistent_tool" "2024-10-28"]))
         [Scenario.request "call_1" "nonexistent_tool" "2024-10-28"] Scenario.start) = 1%nat.
Proof.
  apply (unknown_tool_aborts_run Scenario.hallucinating Scenario.agent 0%nat 0 Scenario.start
           (mkMessage None (Some [Scenario.request "call_1" "nonexistent_tool" "2024-10-28"]))
           [] (Scenario.request "call_1" "nonexistent_tool" "2024-10-28") []).
  - vm_compute. reflexivity.
  - reflexivity.
  - reflexivity.
  - reflexivity.
  - vm_compute. reflexivity.
Defined.

(** The claim as stated fails: asked for [nonexistent_tool], the run ends
    with [KeyError] after its first gateway call, although the script holds
    a second response; the transcript has gained the assistant message and
    no tool message. *)
Lemma unknown_tool_raises_key_error :
  fst (React.run Scenario.hallucinating Scenario.agent 0%nat Scenario.start)
    = Raise (KeyError "nonexistent_tool")
  ∧ gateway_calls (snd (React.run Scenario.hallucinating Scenario.agent 0%nat Scenario.start))
    = 1%nat
  ∧ contents (snd (React.run Scenario.hallucinating Scenario.agent 0%nat Scenario.start)) 0%nat
    = Scenario.question
      ++ [React.assistant_tool_message
            (mkMessage None (Some [Scenario.request "call_1" "nonexistent_tool" "2024-10-28"]))
            [Scenario.request "call_1" "nonexistent_tool" "2024-10-28"]].
Proof. repeat apply conj; vm_compute; reflexivity. Qed.

(** ** The lookup functions (C7, C8) *)

Lemma get_name_for_day_unfold E date s :
  get_name_for_day E date s =
  let url := "https://svatkyapi.cz/api/day/" +:+ format_value E date in
  match requests_get E (http_log s) url with
  | Raise e => (Raise e, requested url s)
  | Ok response =>
      if status_code response =? 200 then
        match json response with
        | Raise e => (Raise e, requested url s)
        | Ok data =>
            match py_get data "name" with
            | Raise e => (Raise e, requested url s)
            | Ok n => (Ok (PDict [("date", date); ("name", n)]), requested url s)
            end
        end
      else (Ok (PDict [("date", date); ("name", PStr "Error fetching data")]), requested url s)
  end.
Proof.
  unfold get_name_for_day, bind, http_get, lift, ret. fold (requested
    ("https://svatkyapi.cz/api/day/" +:+ format_value E date) s). cbv zeta.
  destruct (requests_get E _ _) as [response|e]; [|reflexivity].
  destruct (status_code response =? 200); [|reflexivity].
  destruct (json response) as [data|e]; [|reflexivity].
  destruct (py_get data "name"); reflexivity.
Qed.

Lemma get_names_for_week_unfold E date s :
  get_names_for_week E date s =
  let url := "https://svatkyapi.cz/api/week/" +:+ format_value E date in
  match requests_get E (http_log s) url with
  | Raise e => (Raise e, requested url s)
  | Ok response =>
      if status_code response =? 200 then
        match json response with
        | Raise e => (Raise e, requested url s)
        | Ok data => (Raise (AttributeError "map"), requested url s)
        end
      else
        (Ok (PDict [("date", date); ("weekData", PStr "Error fetching data")]), requested url s)
  end.
Proof.
  unfold get_names_for_week, bind, http_get, lift, ret. fold (requested
    ("https://svatkyapi.cz/api/week/" +:+ format_value E date) s). cbv zeta.
  destruct (requests_get E _ _) as [response|e]; [|reflexivity].
  destruct (status_code response =? 200); [|reflexivity].
  destruct (json response) as [data|e]; [|reflexivity].
  now destruct data.
Qed.

Lemma lookup_get_name_for_day E s :
  React.lookup_function E "get_name_for_day" s = (Ok (get_name_for_day E), s).
Proof.
  unfold React.lookup_function, React.available_functions.
  now rewrite lookup_insert_eq.
Qed.

Lemma lookup_get_names_for_week E s :
  React.lookup_function E "get_names_for_week" s = (Ok (get_names_for_week E), s).
Proof.
  unfold React.lookup_function, React.available_functions.
  rewrite lookup_insert_ne by discriminate. rewrite lookup_insert_ne by discriminate.
  now rewrite lookup_insert_eq.
Qed.

(** C7. Whatever the date, when the lookup service answers with a status
    other than 200, [get_name_for_day] returns the dict with the date and
    the name ["Error fetching data"]; it does not raise. In the loop, the
    tool step of such a request then adds that value, serialized, as the
    tool message, and the loop goes on. *)
Theorem get_name_for_day_error_marker E date s response :
  requests_get E (http_log s) ("https://svatkyapi.cz/api/day/" +:+ format_value E date)
    = Ok response →
  status_code response ≠ 200 →
  get_name_for_day E date s
    = (Ok (PDict [("date", date); ("name", PStr "Error fetching data")]),
       requested ("https://svatkyapi.cz/api/day/" +:+ format_value E date) s)
  ∧ ∀ messages tool_call content_text,
      name (function tool_call) = "get_name_for_day" →
      json_loads E (arguments (function tool_call)) = Ok (PDict [("date", date)]) →
      json_dumps E (PDict [("date", date); ("name", PStr "Error fetching data")])
        = Ok content_text →
      React.process_tool_call E messages tool_call s
        = (Ok tt,
           snd (append messages
                  (React.tool_message (id tool_call) "get_name_for_day" content_text)
                  (requested ("https://svatkyapi.cz/api/day/" +:+ format_value E date) s))).
Proof.
  intros Hget Hstatus.
  assert (Hday : get_name_for_day E date s
    = (Ok (PDict [("date", date); ("name", PStr "Error fetching data")]),
       requested ("https://svatkyapi.cz/api/day/" +:+ format_value E date) s)).
  { rewrite get_name_for_day_unfold. cbv zeta. rewrite Hget.
    destruct (Z.eqb_spec (status_code response) 200); [contradiction | reflexivity]. }
  split; [exact Hday|].
  intros messages tool_call content_text Hname Hargs Hdumps.
  unfold React.process_tool_call. rewrite Hname, Hargs.
  rewrite (bind_ok _ _ s _ s (lift_ok _ s)).
  rewrite (bind_ok _ _ s _ s (lookup_get_name_for_day E s)).
  simpl call_with_kwargs. rewrite (bind_ok _ _ _ _ _ Hday), Hdumps.
  reflexivity.
Qed.

Lemma get_name_for_day_error_marker_witness :
  get_name_for_day Scenario.insistent (PStr "2024-10-28") Scenario.start
    = (Ok (PDict [("date", PStr "2024-10-28"); ("name", PStr "Error fetching data")]),
       requested "https://svatkyapi.cz/api/day/2024-10-28" Scenario.start)
  ∧ React.process_tool_call Scenario.insistent 0%nat
      (Scenario.request "call_1" "get_name_for_day" "2024-10-28") Scenario.start
    = (Ok tt,
       snd (append 0%nat
              (React.tool_message "call_1" "get_name_for_day"
                 ("{" +:+ Json.quoted "date" +:+ ": " +:+ Json.quoted "2024-10-28" +:+ ", "
                  +:+ Json.quoted "name" +:+ ": " +:+ Json.quoted "Error fetching data"
                  +:+ "}"))
              (requested "https://svatkyapi.cz/api/day/2024-10-28" Scenario.start))).
Proof.
  pose proof (get_name_for_day_error_marker Scenario.insistent (PStr "2024-10-28")
                Scenario.start (mkResponse 404 (Raise JSONDecodeError))
                eq_refl ltac:(discriminate)) as [Hday Hstep].
  split; [exact Hday|].
  apply (Hstep 0%nat (Scenario.request "call_1" "get_name_for_day" "2024-10-28")).
  - reflexivity.
  - vm_compute. reflexivity.
  - vm_compute. reflexivity.
Defined.

Lemma get_names_for_week_success E date s response :
  requests_get E (http_log s) ("https://svatkyapi.cz/api/week/" +:+ format_value E date)
    = Ok response →
  status_code response = 200 →
  get_names_for_week E date s
    = (Raise (match json response with
              | Ok _ => AttributeError "map"
              | Raise e => e
              end),
       requested ("https://svatkyapi.cz/api/week/" +:+ format_value E date) s).
Proof.
  intros Hget Hstatus. rewrite get_names_for_week_unfold. cbv zeta.
  rewrite Hget, Hstatus. simpl. now destruct (json response).
Qed.

(** C8. Whatever the date, when the week service answers 200 with a body
    that decodes to a list, [get_names_for_week] raises [AttributeError]
    (for [map]) instead of returning. The function returns only on the
    branch of a status other than 200, with the error marker. In the loop,
    a request for this tool that the service answers with 200 ends the run
    with an exception, the gateway not being called again. *)
Theorem get_names_for_week_raises_on_success E date s :
  (∀ response items,
     requests_get E (http_log s) ("https://svatkyapi.cz/api/week/" +:+ format_value E date)
       = Ok response →
     status_code response = 200 →
     json response = Ok (PList items) →
     get_names_for_week E date s
       = (Raise (AttributeError "map"),
          requested ("https://svatkyapi.cz/api/week/" +:+ format_value E date) s))
  ∧ (∀ v,
       fst (get_names_for_week E date s) = Ok v →
       ∃ response,
         requests_get E (http_log s) ("https://svatkyapi.cz/api/week/" +:+ format_value E date)
           = Ok response
         ∧ status_code response ≠ 200
         ∧ v = PDict [("date", date); ("weekData", PStr "Error fetching data")])
  ∧ (∀ self messages iteration s0 r before tool_call after response,
       iteration < React.max_iterations self →
       React.reply E self messages s0 = Ok r →
       tool_calls r = Some (before ++ tool_call :: after) →
       for_each before (React.process_tool_call E messages)
         (React.recorded messages r (before ++ tool_call :: after) s0) = (Ok tt, s) →
       name (function tool_call) = "get_names_for_week" →
       json_loads E (arguments (function tool_call)) = Ok (PDict [("date", date)]) →
       requests_get E (http_log s) ("https://svatkyapi.cz/api/week/" +:+ format_value E date)
         = Ok response →
       status_code response = 200 →
       ∃ e,
         React.while_loop E self messages iteration s0
           = (Raise e, requested ("https://svatkyapi.cz/api/week/" +:+ format_value E date) s)
         ∧ gateway_calls s = S (gateway_calls s0)).
Proof.
  split; [|split].
  - intros response items Hget Hstatus Hjson.
    rewrite (get_names_for_week_success E date s response Hget Hstatus). now rewrite Hjson.
  - intros v. rewrite get_names_for_week_unfold. cbv zeta.
    destruct (requests_get E _ _) as [response|e]; [|discriminate].
    destruct (Z.eqb_spec (status_code response) 200) as [Heq|Hne].
    + destruct (json response); discriminate.
    + intros [= <-]. now exists response.
  - intros self messages iteration s0 r before tool_call after response
      Hlt Hr Hc Hb Hname Hargs Hget Hstatus.
    eexists.
    assert (Hstep : React.process_tool_call E messages tool_call s
      = (Raise (match json response with
                | Ok _ => AttributeError "map"
                | Raise e => e
                end),
         requested ("https://svatkyapi.cz/api/week/" +:+ format_value E date) s)).
    { unfold React.process_tool_call. rewrite Hname, Hargs.
      rewrite (bind_ok _ _ s _ s (lift_ok _ s)).
      rewrite (bind_ok _ _ s _ s (lookup_get_names_for_week E s)).
      simpl call_with_kwargs.
      now rewrite (bind_raise _ _ _ _ _ (get_names_for_week_success E date s response Hget Hstatus)). }
    destruct (turn_raises E self messages iteration s0 r before tool_call after s _ _
                Hlt Hr Hc Hb Hstep) as [Hrun Hg].
    split; [exact Hrun|]. exact Hg.
Qed.

Lemma get_names_for_week_raises_on_success_witness :
  get_names_for_week Scenario.week_asked (PStr "2024-10-28") (React.recorded 0%nat
      (mkMessage None (Some [Scenario.request "call_1" "get_names_for_week" "2024-10-28"]))
      [Scenario.request "call_1" "get_names_for_week" "2024-10-28"] Scenario.start)
    = (Raise (AttributeError "map"),
       requested "https://svatkyapi.cz/api/week/2024-10-28" (React.recorded 0%nat
         (mkMessage None (Some [Scenario.request "call_1" "get_names_for_week" "2024-10-28"]))
         [Scenario.request "call_1" "get_names_for_week" "2024-10-28"] Scenario.start))
  ∧ ∃ e,
      React.run Scenario.week_asked Scenario.agent 0%nat Scenario.start
        = (Raise e,
           requested "https://svatkyapi.cz/api/week/2024-10-28" (React.recorded 0%nat
             (mkMessage None (Some [Scenario.request "call_1" "get_names_for_week" "2024-10-28"]))
             [Scenario.request "call_1" "get_names_for_week" "2024-10-28"] Scenario.start))
      ∧ gateway_calls (React.recorded 0%nat
          (mkMessage None (Some [Scenario.request "call_1" "get_names_for_week" "2024-10-28"]))
          [Scenario.request "call_1" "get_names_for_week" "2024-10-28"] Scenario.start) = 1%nat.
Proof.
  pose proof (get_names_for_week_raises_on_success Scenario.week_asked (PStr "2024-10-28")
                (React.recorded 0%nat
                   (mkMessage None
                      (Some [Scenario.request "call_1" "get_names_for_week" "2024-10-28"]))
                   [Scenario.request "call_1" "get_names_for_week" "2024-10-28"]
                   Scenario.start)) as (Hraise & _ & Hrun).
  split.
  - apply (Hraise (mkResponse 200 (Ok Scenario.week_body)) _ eq_refl eq_refl eq_refl).
  - apply (Hrun Scenario.agent 0%nat 0 Scenario.start
             (mkMessage None (Some [Scenario.request "call_1" "get_names_for_week" "2024-10-28"]))
             [] (Scenario.request "call_1" "get_names_for_week" "2024-10-28") []
             (mkResponse 200 (Ok Scenario.week_body))).
    + vm_compute. reflexivity.
    + reflexivity.
    + reflexivity.
    + reflexivity.
    + reflexivity.
    + vm_compute. reflexivity.
    + reflexivity.
    + reflexivity.
Defined.

(** ** The text-only response (C4) *)

(** A run that returns does so on a text-only response, or because every
    iteration that was left has been used. *)
Lemma while_loop_exits E self messages iteration s final :
  fst (React.while_loop E self messages iteration s) = Ok final →
  (∃ s0 r,
     React.reply E self messages s0 = Ok r ∧ text_only r ∧ final = content r
     ∧ snd (React.while_loop E self messages iteration s)
       = snd (append messages (React.assistant_final_message (content r)) (answered s0)))
  ∨ (final = Some React.limit_message
     ∧ gateway_calls (snd (React.while_loop E self messages iteration s))
       = (gateway_calls s + Z.to_nat (React.max_iterations self - iteration))%nat).
Proof.
  revert final.
  apply (while_loop_induction E self messages
    (fun i s res => ∀ final, fst res = Ok final →
       (∃ s0 r,
          React.reply E self messages s0 = Ok r ∧ text_only r ∧ final = content r
          ∧ snd res
            = snd (append messages (React.assistant_final_message (content r))
                     (answered s0)))
       ∨ (final = Some React.limit_message
          ∧ gateway_calls (snd res)
            = (gateway_calls s + Z.to_nat (React.max_iterations self - i))%nat))).
  - intros i s0 Hge final [= <-]. right. split; [reflexivity|]. simpl. lia.
  - intros i s0 c s' Hlt Hb final [= <-]. left.
    apply loop_body_return_inv in Hb as (r & Hr & Ht & -> & ->). now exists s0, r.
  - intros i s0 e s' Hlt Hb final [=].
  - intros i s0 s' Hlt Hb IH final Hfinal.
    pose proof (loop_body_step E self messages s0) as [_ Hg]. rewrite Hb in Hg. simpl in Hg.
    destruct (IH final Hfinal) as [Hl | [-> Hc]]; [now left | right].
    split; [reflexivity | lia].
Qed.

(** C4. When the gateway response carries no tool call ([None] or an
    empty list), the loop adds the message with role [assistant] and the
    text of the response to the transcript and returns that text; one
    gateway call has been made and no request sent to the lookup service,
    so that on the first call of a run, the run is over after exactly one
    gateway call and no tool execution. This is the only [return] inside
    the loop: a run that returns a value either does so on a text-only
    response, or has used all its iterations. *)
Theorem text_only_response_ends_run E self messages iteration s r :
  iteration < React.max_iterations self →
  React.reply E self messages s = Ok r →
  text_only r →
  React.while_loop E self messages iteration s
    = (Ok (content r),
       snd (append messages (React.assistant_final_message (content r)) (answered s)))
  ∧ contents (snd (React.while_loop E self messages iteration s)) messages
    = contents s messages
      ++ [PDict [("role", PStr "assistant"); ("content", opt_str (content r))]]
  ∧ gateway_calls (snd (React.while_loop E self messages iteration s)) = S (gateway_calls s)
  ∧ http_log (snd (React.while_loop E self messages iteration s)) = http_log s
  ∧ (iteration = 0 →
     React.run E self messages s = React.while_loop E self messages iteration s)
  ∧ (∀ i s0 final,
       fst (React.while_loop E self messages i s0) = Ok final →
       (∃ s1 r1,
          React.reply E self messages s1 = Ok r1 ∧ text_only r1 ∧ final = content r1
          ∧ snd (React.while_loop E self messages i s0)
            = snd (append messages (React.assistant_final_message (content r1))
                     (answered s1)))
       ∨ (final = Some React.limit_message
          ∧ gateway_calls (snd (React.while_loop E self messages i s0))
            = (gateway_calls s0 + Z.to_nat (React.max_iterations self - i))%nat)).
Proof.
  intros Hlt Hr Ht.
  assert (Hrun : React.while_loop E self messages iteration s
    = (Ok (content r),
       snd (append messages (React.assistant_final_message (content r)) (answered s)))).
  { rewrite while_loop_running by assumption.
    now rewrite (loop_body_text_only E self messages s r Hr Ht). }
  rewrite Hrun. cbn [fst snd].
  split; [reflexivity|]. split; [now rewrite contents_append|].
  split; [reflexivity|]. split; [reflexivity|].
  split; [intros ->; unfold React.run; now rewrite Hrun|].
  intros i s0 final. apply while_loop_exits.
Qed.

Lemma text_only_response_ends_run_witness :
  React.run Scenario.direct Scenario.agent 0%nat Scenario.start
    = (Ok (Some "Sorry, I cannot look that up."),
       snd (append 0%nat
              (React.assistant_final_message (Some "Sorry, I cannot look that up."))
              (answered Scenario.start)))
  ∧ contents (snd (React.run Scenario.direct Scenario.agent 0%nat Scenario.start)) 0%nat
    = Scenario.question
      ++ [PDict [("role", PStr "assistant");
                 ("content", PStr "Sorry, I cannot look that up.")]]
  ∧ gateway_calls (snd (React.run Scenario.direct Scenario.agent 0%nat Scenario.start)) = 1%nat
  ∧ http_log (snd (React.run Scenario.direct Scenario.agent 0%nat Scenario.start)) = [].
Proof.
  destruct (text_only_response_ends_run Scenario.direct Scenario.agent 0%nat 0
              Scenario.start Scenario.direct_answer)
    as (Hrun & Hcontents & Hcalls & Hlog & Hfirst & _).
  - vm_compute. reflexivity.
  - reflexivity.
  - left. reflexivity.
  - rewrite (Hfirst eq_refl). repeat apply conj; assumption.
Defined.

(** ** The tools do not look at the transcript *)

Lemma heap_blind_ret {A} (a : A) : heap_blind (ret a).
Proof. intros s h. reflexivity. Qed.

Lemma heap_blind_raise {A} e : heap_blind (@raise A e).
Proof. intros s h. reflexivity. Qed.

Lemma heap_blind_lift {A} (o : outcome A) : heap_blind (lift o).
Proof. intros s h. reflexivity. Qed.

Lemma heap_blind_http_get E url : heap_blind (http_get E url).
Proof. intros s h. reflexivity. Qed.

Lemma heap_blind_bind {A B} (c : M A) (k : A → M B) :
  heap_blind c → (∀ a, heap_blind (k a)) → heap_blind (bind c k).
Proof.
  intros Hc Hk s h. unfold bind. rewrite Hc.
  destruct (c s) as [[a|e] s1]; simpl; [apply Hk | reflexivity].
Qed.

Ltac blind_step :=
  first
    [ apply heap_blind_ret
    | apply heap_blind_raise
    | apply heap_blind_lift
    | apply heap_blind_http_get
    | apply heap_blind_bind; [ | intros ?] ].

Lemma heap_blind_registered E function_name f v :
  React.available_functions E !! function_name = Some f → heap_blind (f v).
Proof.
  intros H. apply available_functions_lookup in H as [[_ ->]|[[_ ->]|[_ ->]]].
  - unfold get_name_for_day. repeat blind_step.
    destruct (status_code _ =? 200); repeat blind_step.
  - unfold get_all_info_about_day. repeat blind_step.
    destruct (status_code _ =? 200); repeat blind_step.
  - unfold get_names_for_week. repeat blind_step.
    destruct (status_code _ =? 200); repeat blind_step.
Qed.

Lemma heap_blind_call_with_kwargs (f : pyval → M pyval) function_args :
  (∀ v, heap_blind (f v)) → heap_blind (call_with_kwargs f function_args).
Proof.
  intros Hf. unfold call_with_kwargs.
  destruct function_args as [| | | |?|[|[k v] [|? ?]]|?]; try apply heap_blind_raise.
  destruct (String.eqb k "date"); [apply Hf | apply heap_blind_raise].
Qed.

Lemma heap_blind_invoke E tool_call : heap_blind (React.invoke E tool_call).
Proof.
  unfold React.invoke. blind_step; [blind_step|].
  unfold React.lookup_function.
  destruct (React.available_functions E !! _) as [f|] eqn:Hf.
  - intros s h. rewrite !bind_ret_l.
    apply heap_blind_call_with_kwargs. intros v. eapply heap_blind_registered, Hf.
  - intros s h. reflexivity.
Qed.

Lemma heap_blind_invoke_in_order E calls : heap_blind (React.invoke_in_order E calls).
Proof.
  induction calls as [|tool_call rest IH]; simpl.
  - apply heap_blind_ret.
  - blind_step; [apply heap_blind_invoke|].
    blind_step; [apply IH | apply heap_blind_ret].
Qed.

Lemma invoke_in_order_length E calls : ∀ s results s1,
  React.invoke_in_order E calls s = (Ok results, s1) → length results = length calls.
Proof.
  induction calls as [|tool_call rest IH]; simpl; intros s results s1 H.
  - now injection H as <- _.
  - apply bind_inv_ok in H as (v & s2 & _ & H).
    apply bind_inv_ok in H as (vs & s3 & Hrest & H).
    injection H as <- _. simpl. f_equal. eapply IH, Hrest.
Qed.

(** ** The caller's list holds the whole transcript (C10) *)

Lemma blind_from_detached s sv :
  gateway_calls sv = gateway_calls s → http_log sv = http_log s →
  s = with_heap (heap s) sv.
Proof. intros Hg Hh. destruct s, sv; simpl in *. now subst. Qed.

(** The tool steps of a turn leave in the list object the tool messages of
    the round computed on values, whether the round completes or raises. *)
Lemma for_each_round_by_value E messages calls : ∀ s sv,
  gateway_calls sv = gateway_calls s → http_log sv = http_log s →
  fst (for_each calls (React.process_tool_call E messages) s)
    = result (round_by_value E calls sv)
  ∧ contents (snd (for_each calls (React.process_tool_call E messages) s)) messages
    = contents s messages ++ transcript (round_by_value E calls sv)
  ∧ gateway_calls (snd (for_each calls (React.process_tool_call E messages) s))
    = gateway_calls (world (round_by_value E calls sv))
  ∧ http_log (snd (for_each calls (React.process_tool_call E messages) s))
    = http_log (world (round_by_value E calls sv)).
Proof.
  induction calls as [|tool_call rest IH]; intros s sv Hg Hh.
  - cbn. now rewrite app_nil_r.
  - assert (Hstep :
      for_each (tool_call :: rest) (React.process_tool_call E messages) s
      = match React.invoke E tool_call sv with
        | (Raise e, sv1) => (Raise e, with_heap (heap s) sv1)
        | (Ok v, sv1) =>
            match json_dumps E v with
            | Raise e => (Raise e, with_heap (heap s) sv1)
            | Ok content_text =>
                for_each rest (React.process_tool_call E messages)
                  (snd (append messages
                          (React.tool_message (id tool_call) (name (function tool_call))
                             content_text) (with_heap (heap s) sv1)))
            end
        end).
    { cbn [for_each]. unfold bind at 1. rewrite process_tool_call_invoke. unfold bind at 1.
      rewrite (blind_from_detached s sv Hg Hh) at 1.
      rewrite (heap_blind_invoke E tool_call sv (heap s)).
      destruct (React.invoke E tool_call sv) as [[v|e] sv1]; cbn [fst snd]; [|reflexivity].
      unfold bind at 1, lift.
      destruct (json_dumps E v) as [content_text|e]; reflexivity. }
    rewrite Hstep. clear Hstep. cbn [round_by_value].
    destruct (React.invoke E tool_call sv) as [[v|e] sv1];
      [|cbn; now rewrite app_nil_r].
    destruct (json_dumps E v) as [content_text|e]; [|cbn; now rewrite app_nil_r].
    cbv zeta. cbn [result transcript world].
    set (s2 := snd (append messages
                      (React.tool_message (id tool_call) (name (function tool_call))
                         content_text) (with_heap (heap s) sv1))).
    fold s2.
    destruct (IH s2 sv1) as (Hr & Hc & Hg2 & Hh2); [reflexivity | reflexivity |].
    split; [exact Hr | split; [|split; assumption]].
    rewrite Hc. subst s2. rewrite contents_append.
    change (contents (with_heap (heap s) sv1) messages) with (contents s messages).
    now rewrite <- app_assoc.
Qed.

(** The loop leaves in the list object the transcript of the run computed
    on values, for as many iterations as are left. *)
Lemma while_loop_by_value E self messages : ∀ n iteration s sv,
  n = Z.to_nat (React.max_iterations self - iteration) →
  gateway_calls sv = gateway_calls s → http_log sv = http_log s →
  fst (React.while_loop E self messages iteration s)
    = result (run_by_value E self n (contents s messages) sv)
  ∧ contents (snd (React.while_loop E self messages iteration s)) messages
    = transcript (run_by_value E self n (contents s messages) sv)
  ∧ gateway_calls (snd (React.while_loop E self messages iteration s))
    = gateway_calls (world (run_by_value E self n (contents s messages) sv))
  ∧ http_log (snd (React.while_loop E self messages iteration s))
    = http_log (world (run_by_value E self n (contents s messages) sv)).
Proof.
  induction n as [|n IH]; intros iteration s sv Hn Hg Hh.
  - rewrite while_loop_exhausted by lia. cbn. auto.
  - rewrite while_loop_running by lia. rewrite loop_body_unfold.
    cbn [run_by_value]. unfold React.reply, React.request_of. rewrite Hg.
    destruct (chat_completions_create E _ _) as [r|e]; [|cbn; auto].
    destruct (tool_calls r) as [[|tool_call more]|].
    + cbn [fst snd result transcript world]. rewrite contents_append. cbn. auto.
    + cbv zeta.
      destruct (for_each_round_by_value E messages (tool_call :: more)
                  (React.recorded messages r (tool_call :: more) s) (answered sv))
        as (Hr & Hc & Hg1 & Hh1); [cbn; now rewrite Hg | cbn; exact Hh |].
      unfold React.recorded in Hc at 2. rewrite contents_append in Hc.
      change (contents (answered s) messages) with (contents s messages) in Hc.
      rewrite <- app_assoc in Hc. cbn [app] in Hc.
      assert (Hbody :
        bind (for_each (tool_call :: more) (React.process_tool_call E messages))
          (fun _ => ret React.Continue) (React.recorded messages r (tool_call :: more) s)
        = match for_each (tool_call :: more) (React.process_tool_call E messages)
                  (React.recorded messages r (tool_call :: more) s) with
          | (Ok _, s1) => (Ok React.Continue, s1)
          | (Raise e, s1) => (Raise e, s1)
          end).
      { unfold bind. now destruct (for_each _ _ _) as [[[]|e] s1]. }
      rewrite Hbody. clear Hbody.
      destruct (for_each (tool_call :: more) (React.process_tool_call E messages)
                  (React.recorded messages r (tool_call :: more) s)) as [[[]|e] s1];
        cbn [fst snd] in Hr, Hc, Hg1, Hh1; rewrite <- Hr.
      * rewrite <- Hc.
        apply IH; [lia | now symmetry | now symmetry].
      * cbn [fst snd result transcript world]. auto.
    + cbn [fst snd result transcript world]. rewrite contents_append. cbn. auto.
Qed.

(** C10. [ReactAgent.run] works on the list object it is handed. When it is
    over, whether it returned an answer, returned at the iteration limit or
    raised, that object holds the whole transcript of the run: what it held
    at the call, then every assistant message, tool message and final
    message the run produced, in order, as the loop computed on values gives
    them; the value returned and the requests made are those of that loop.
    No other list object has changed or been created. When the run returns,
    the last item of the caller's list is the final assistant message,
    unless the value returned is the message of the iteration limit reached
    after all the iterations. *)
Theorem run_mutates_callers_list E self messages s :
  fst (React.run E self messages s) = result (resulting_transcript E self messages s)
  ∧ contents (snd (React.run E self messages s)) messages
    = transcript (resulting_transcript E self messages s)
  ∧ gateway_calls (snd (React.run E self messages s))
    = gateway_calls (world (resulting_transcript E self messages s))
  ∧ http_log (snd (React.run E self messages s))
    = http_log (world (resulting_transcript E self messages s))
  ∧ (∃ added,
       contents (snd (React.run E self messages s)) messages = contents s messages ++ added)
  ∧ (∀ l, l ≠ messages → heap (snd (React.run E self messages s)) !! l = heap s !! l)
  ∧ (∀ final,
       fst (React.run E self messages s) = Ok final →
       last (contents (snd (React.run E self messages s)) messages)
         = Some (React.assistant_final_message final)
       ∨ (final = Some React.limit_message
          ∧ gateway_calls (snd (React.run E self messages s))
            = (gateway_calls s + Z.to_nat (React.max_iterations self))%nat)).
Proof.
  pose proof (keeps_while_loop E self messages 0 s) as (Hp & Hf & _ & _).
  destruct (while_loop_by_value E self messages (Z.to_nat (React.max_iterations self)) 0 s
              (with_heap ∅ s)) as (Hr & Hc & Hg & Hh);
    [now rewrite Z.sub_0_r | reflexivity | reflexivity |].
  unfold resulting_transcript, React.run.
  split; [exact Hr | split; [exact Hc | split; [exact Hg | split; [exact Hh|]]]].
  split; [exact Hp | split; [exact Hf|]].
  intros final Hfinal.
  destruct (while_loop_last_message E self messages 0 s final Hfinal) as [H | [H1 H2]].
  - now left.
  - right. split; [assumption|]. now rewrite Z.sub_0_r in H2.
Qed.

(** On a concrete run: with one turn of three lookups and then the answer,
    the caller's list ends up with the question, the assistant message of
    the turn, the three tool messages and the final message; with a model
    that asks for a lookup at every call, the run returns at the iteration
    limit and the caller's list holds the question and the ten turns. *)
Lemma run_mutates_callers_list_witness :
  (fst (React.run Scenario.three_lookups Scenario.agent 0%nat Scenario.start)
     = Ok (Some "Alfred, three times.")
   ∧ contents (snd (React.run Scenario.three_lookups Scenario.agent 0%nat Scenario.start))
       0%nat
     = Scenario.question
       ++ React.assistant_tool_message Scenario.three_asked Scenario.three_requests
          :: tool_messages Scenario.three_requests
               (map Scenario.lookup_text ["2024-10-28"; "2024-10-29"; "2024-10-30"])
       ++ [React.assistant_final_message (Some "Alfred, three times.")])
  ∧ (fst (React.run Scenario.insistent Scenario.agent 0%nat Scenario.start)
       = Ok (Some React.limit_message)
     ∧ contents (snd (React.run Scenario.insistent Scenario.agent 0%nat Scenario.start))
         0%nat
       = Scenario.question
         ++ mjoin (replicate 10
              [React.assistant_tool_message
                 (mkMessage None (Some [Scenario.request "call_1" "get_name_for_day"
                                          "2024-10-28"]))
                 [Scenario.request "call_1" "get_name_for_day" "2024-10-28"];
               React.tool_message "call_1" "get_name_for_day"
                 (Scenario.marker_text "2024-10-28")])).
Proof.
  destruct (run_mutates_callers_list Scenario.three_lookups Scenario.agent 0%nat
              Scenario.start) as (Hr & Hc & _).
  destruct (run_mutates_callers_list Scenario.insistent Scenario.agent 0%nat
              Scenario.start) as (Hr' & Hc' & _).
  rewrite Hr, Hc, Hr', Hc'.
  repeat apply conj; vm_compute; reflexivity.
Defined.

(** ** All the requests of a turn, in order (C3) *)

(** The loop, which adds each tool message right after its call, does what
    executing the requests in their order does, and adds the tool messages
    in that same order. *)
Lemma for_each_process_in_order E messages calls : ∀ s results s1 texts,
  React.invoke_in_order E calls s = (Ok results, s1) →
  Forall2 (fun v content_text => json_dumps E v = Ok content_text) results texts →
  ∃ h,
    for_each calls (React.process_tool_call E messages) s = (Ok tt, with_heap h s1)
    ∧ h !!! messages = contents s messages ++ tool_messages calls texts
    ∧ (∀ l, l ≠ messages → h !! l = heap s !! l).
Proof.
  induction calls as [|tool_call rest IH]; simpl; intros s results s1 texts Hin Hdumps.
  - injection Hin as <- <-. inversion Hdumps; subst.
    exists (heap s). split; [now destruct s|]. split; [|auto].
    unfold tool_messages; simpl. now rewrite app_nil_r.
  - apply bind_inv_ok in Hin as (v & s2 & Hv & Hin).
    apply bind_inv_ok in Hin as (vs & s3 & Hrest & Hin).
    injection Hin as <- <-.
    inversion Hdumps as [|? content_text ? texts' Hd Hds]; subst.
    set (m := React.tool_message (id tool_call) (name (function tool_call)) content_text).
    assert (Hstep : React.process_tool_call E messages tool_call s
                    = (Ok tt, snd (append messages m s2))).
    { rewrite process_tool_call_invoke, (bind_ok _ _ _ _ _ Hv). unfold bind, lift.
      now rewrite Hd. }
    rewrite (bind_ok _ _ _ _ _ Hstep).
    pose proof (keeps_invoke E tool_call s) as (Hheap & _ & _). rewrite Hv in Hheap.
    simpl in Hheap.
    set (h2 := <[messages := contents s2 messages ++ [m]]> (heap s2)).
    assert (Hs2 : snd (append messages m s2) = with_heap h2 s2) by reflexivity.
    rewrite Hs2.
    assert (Hrest' : React.invoke_in_order E rest (with_heap h2 s2) = (Ok vs, with_heap h2 s3)).
    { rewrite heap_blind_invoke_in_order. now rewrite Hrest. }
    destruct (IH _ _ _ _ Hrest' Hds) as (h & Hfor & Hcontents & Hframe).
    exists h. split; [exact Hfor|]. split.
    + rewrite Hcontents. unfold contents, with_heap, h2; simpl.
      rewrite lookup_total_insert_eq. unfold contents. rewrite Hheap.
      unfold tool_messages; simpl. now rewrite <- app_assoc.
    + intros l Hne. rewrite (Hframe l Hne). unfold with_heap, h2; simpl.
      rewrite lookup_insert_ne by auto. now rewrite Hheap.
Qed.

(** C3, as the code has it. In a turn with N >= 1 requests whose
    executions all return (each names a registered tool, has arguments that
    decode to an object with the single key [date], and gets a result that
    serializes), the pass through the loop body executes the N requests one
    after the other in the order of the response, and adds to the
    transcript the assistant message followed by exactly N tool messages, in
    that order, the i-th with the call identifier and the name of the i-th
    request and, as its content, the serialization of what the i-th
    execution returned; the loop then goes on to its next iteration. *)
Theorem tool_calls_run_in_emission_order
    E self messages iteration s r calls results texts s1 :
  iteration < React.max_iterations self →
  React.reply E self messages s = Ok r →
  requests_tools r calls →
  React.invoke_in_order E calls (answered s) = (Ok results, s1) →
  Forall2 (fun v content_text => json_dumps E v = Ok content_text) results texts →
  ∃ s',
    React.loop_body E self messages s = (Ok React.Continue, s')
    ∧ contents s' messages
      = contents s messages
        ++ React.assistant_tool_message r calls :: tool_messages calls texts
    ∧ length (tool_messages calls texts) = length calls
    ∧ (∀ l, l ≠ messages → heap s' !! l = heap s !! l)
    ∧ gateway_calls s' = S (gateway_calls s)
    ∧ http_log s' = http_log s1
    ∧ React.while_loop E self messages iteration s
      = React.while_loop E self messages (iteration + 1) s'.
Proof.
  intros Hlt Hr Hreq Hin Hdumps.
  set (m := React.assistant_tool_message r calls).
  set (h0 := <[messages := contents (answered s) messages ++ [m]]>
               (heap (answered s))).
  assert (Hrec : React.recorded messages r calls s = with_heap h0 (answered s))
    by reflexivity.
  assert (Hin' : React.invoke_in_order E calls (with_heap h0 (answered s))
                 = (Ok results, with_heap h0 s1)).
  { rewrite heap_blind_invoke_in_order. now rewrite Hin. }
  destruct (for_each_process_in_order E messages calls _ _ _ _ Hin' Hdumps)
    as (h & Hfor & Hcontents & Hframe).
  assert (Hbody : React.loop_body E self messages s
                  = (Ok React.Continue, with_heap h (with_heap h0 s1))).
  { rewrite (loop_body_tools E self messages s r calls Hr Hreq), Hrec.
    now rewrite (bind_ok _ _ _ _ _ Hfor). }
  exists (with_heap h (with_heap h0 s1)).
  pose proof (loop_body_step E self messages s) as [_ Hg]. rewrite Hbody in Hg.
  split; [exact Hbody|]. split; [|split; [|split; [|split; [|split]]]].
  - unfold contents at 1; simpl. rewrite Hcontents.
    unfold contents at 1, with_heap, h0; simpl. rewrite lookup_total_insert_eq.
    rewrite <- app_assoc. reflexivity.
  - unfold tool_messages. rewrite length_zip_with.
    apply Forall2_length in Hdumps.
    rewrite <- Hdumps, (invoke_in_order_length E calls _ _ _ Hin). lia.
  - intros l Hne. simpl. rewrite (Hframe l Hne). unfold with_heap, h0; simpl.
    now rewrite lookup_insert_ne by auto.
  - exact Hg.
  - reflexivity.
  - rewrite while_loop_running by assumption. now rewrite Hbody.
Qed.

Lemma tool_calls_run_in_emission_order_witness :
  ∃ s',
    React.loop_body Scenario.three_lookups Scenario.agent 0%nat Scenario.start
      = (Ok React.Continue, s')
    ∧ contents s' 0%nat
      = contents Scenario.start 0%nat
        ++ React.assistant_tool_message Scenario.three_asked Scenario.three_requests
           :: tool_messages Scenario.three_requests
                [Scenario.lookup_text "2024-10-28"; Scenario.lookup_text "2024-10-29";
                 Scenario.lookup_text "2024-10-30"]
    ∧ length (tool_messages Scenario.three_requests
                [Scenario.lookup_text "2024-10-28"; Scenario.lookup_text "2024-10-29";
                 Scenario.lookup_text "2024-10-30"]) = 3%nat
    ∧ (∀ l, l ≠ 0%nat → heap s' !! l = heap Scenario.start !! l)
    ∧ gateway_calls s' = 1%nat
    ∧ http_log s'
      = ["https://svatkyapi.cz/api/day/2024-10-28";
         "https://svatkyapi.cz/api/day/2024-10-29";
         "https://svatkyapi.cz/api/day/2024-10-30"]
    ∧ React.while_loop Scenario.three_lookups Scenario.agent 0%nat 0 Scenario.start
      = React.while_loop Scenario.three_lookups Scenario.agent 0%nat (0 + 1) s'.
Proof.
  apply (tool_calls_run_in_emission_order Scenario.three_lookups Scenario.agent 0%nat 0
           Scenario.start Scenario.three_asked Scenario.three_requests
           [PDict [("date", PStr "2024-10-28"); ("name", PStr "Alfred")];
            PDict [("date", PStr "2024-10-29"); ("name", PStr "Alfred")];
            PDict [("date", PStr "2024-10-30"); ("name", PStr "Alfred")]]
           [Scenario.lookup_text "2024-10-28"; Scenario.lookup_text "2024-10-29";
            Scenario.lookup_text "2024-10-30"]
           (mkState (heap Scenario.start) 1
              ["https://svatkyapi.cz/api/day/2024-10-28";
               "https://svatkyapi.cz/api/day/2024-10-29";
               "https://svatkyapi.cz/api/day/2024-10-30"])).
  - vm_compute. reflexivity.
  - reflexivity.
  - split; [reflexivity | discriminate].
  - vm_compute. reflexivity.
  - repeat constructor.
Defined.

(** The claim as stated fails: of three requests in one turn, the second
    for a tool that does not exist, only the first is executed, one tool
    message is added instead of three, and the run ends with [KeyError]. *)
Lemma turn_with_unknown_tool_is_cut_short :
  React.reply Scenario.one_unknown_of_three Scenario.agent 0%nat Scenario.start
    = Ok Scenario.middle_unknown_asked
  ∧ length Scenario.middle_unknown = 3%nat
  ∧ fst (React.run Scenario.one_unknown_of_three Scenario.agent 0%nat Scenario.start)
    = Raise (KeyError "nonexistent_tool")
  ∧ contents (snd (React.run Scenario.one_unknown_of_three Scenario.agent 0%nat Scenario.start))
      0%nat
    = Scenario.question
      ++ [React.assistant_tool_message Scenario.middle_unknown_asked Scenario.middle_unknown;
          React.tool_message "call_1" "get_name_for_day" (Scenario.lookup_text "2024-10-28")]
  ∧ http_log (snd (React.run Scenario.one_unknown_of_three Scenario.agent 0%nat Scenario.start))
    = ["https://svatkyapi.cz/api/day/2024-10-28"].
Proof. repeat apply conj; vm_compute; reflexivity. Qed.

(** ** The single-round script runs one tool, once (C9) *)

Lemma get_name_for_day_state E date s :
  snd (get_name_for_day E date s)
  = requested ("https://svatkyapi.cz/api/day/" +:+ format_value E date) s.
Proof.
  rewrite get_name_for_day_unfold. cbv zeta.
  destruct (requests_get E _ _) as [response|e]; [|reflexivity].
  destruct (status_code response =? 200); [|reflexivity].
  destruct (json response) as [data|e]; [|reflexivity].
  destruct (py_get data "name"); reflexivity.
Qed.

(** An execution sends at most one request to the lookup service, and
    touches nothing else. *)
Lemma pure_invoke_step E tool_call s :
  ∃ urls,
    snd (PureTool.invoke E tool_call s)
    = mkState (heap s) (gateway_calls s) (http_log s ++ urls)
    ∧ (length urls ≤ 1)%nat.
Proof.
  assert (Hsame : ∀ o : outcome pyval,
            ∃ urls, snd (o, s) = mkState (heap s) (gateway_calls s) (http_log s ++ urls)
                    ∧ (length urls ≤ 1)%nat).
  { intros o. exists []. rewrite app_nil_r. split; [now destruct s | simpl; lia]. }
  unfold PureTool.invoke, bind, lift.
  destruct (json_loads E _) as [function_args|e]; [|apply Hsame].
  unfold PureTool.lookup_function.
  destruct (PureTool.available_functions E !! _) as [f|] eqn:Hf; [|apply Hsame].
  apply pure_available_functions_lookup in Hf as [_ ->]. unfold ret.
  unfold call_with_kwargs.
  destruct function_args as [| | | |?|[|[k v] [|? ?]]|?]; try apply Hsame.
  destruct (String.eqb k "date"); [|apply Hsame].
  rewrite get_name_for_day_state. eexists [_]. split; [reflexivity | simpl; lia].
Qed.

Lemma get_completion_unfold E messages model s :
  PureTool.get_completion_from_messages E messages model s =
  match PureTool.reply E model messages s with
  | Raise e => (Raise e, answered s)
  | Ok r =>
      match tool_calls r with
      | Some (tool_call :: _) =>
          match json_loads E (arguments (function tool_call)) with
          | Raise e => (Raise e, answered s)
          | Ok function_args =>
              match PureTool.invoke E tool_call (answered s) with
              | (Raise e, s1) => (Raise e, s1)
              | (Ok v, s1) =>
                  match json_dumps E function_args with
                  | Raise e => (Raise e, s1)
                  | Ok arguments_text =>
                      let s1' :=
                        snd (append messages
                               (PureTool.assistant_message tool_call arguments_text) s1) in
                      match json_dumps E v with
                      | Raise e => (Raise e, s1')
                      | Ok content_text =>
                          let s2 :=
                            snd (append messages
                                   (PureTool.tool_message tool_call content_text) s1') in
                          (chat_completions_create E (gateway_calls s2)
                             (PureTool.request_of model messages s2),
                           answered s2)
                      end
                  end
              end
          end
      | _ => (Ok r, answered s)
      end
  end.
Proof.
  unfold PureTool.get_completion_from_messages, PureTool.reply, PureTool.request_of,
    PureTool.invoke, bind, lift, read, create, ret.
  fold (answered s).
  destruct (chat_completions_create E _ _) as [r|e]; [|reflexivity].
  destruct (tool_calls r) as [[|tool_call more]|]; try reflexivity.
  destruct (json_loads E _) as [function_args|e]; [|reflexivity].
  destruct (PureTool.lookup_function E _ (answered s)) as [[f|e] s0]; [|reflexivity].
  destruct (call_with_kwargs f function_args s0) as [[v|e] s1]; [|reflexivity].
  destruct (json_dumps E function_args) as [arguments_text|e]; [|reflexivity].
  cbn [append snd]. destruct (json_dumps E v) as [content_text|e]; [|reflexivity].
  cbv zeta. now destruct (chat_completions_create E _ _).
Qed.

Lemma contents_answered s l : contents (answered s) l = contents s l.
Proof. reflexivity. Qed.

Lemma pure_round_bounds E messages model s :
  (gateway_calls (snd (PureTool.get_completion_from_messages E messages model s))
   ≤ gateway_calls s + 2)%nat
  ∧ (length (http_log (snd (PureTool.get_completion_from_messages E messages model s)))
     ≤ length (http_log s) + 1)%nat
  ∧ (length (contents (snd (PureTool.get_completion_from_messages E messages model s)) messages)
     ≤ length (contents s messages) + 2)%nat.
Proof.
  rewrite get_completion_unfold.
  destruct (PureTool.reply E model messages s) as [r|e]; [|unfold contents; simpl; lia].
  destruct (tool_calls r) as [[|tool_call more]|]; try (unfold contents; simpl; lia).
  destruct (json_loads E _) as [function_args|e]; [|unfold contents; simpl; lia].
  destruct (pure_invoke_step E tool_call (answered s)) as (urls & Hs1 & Hlen).
  destruct (PureTool.invoke E tool_call (answered s)) as [[v|e] s1];
    simpl in Hs1; subst s1.
  2: { unfold contents; simpl. rewrite length_app. lia. }
  destruct (json_dumps E function_args) as [arguments_text|e].
  2: { unfold contents; simpl. rewrite length_app. lia. }
  cbv zeta. destruct (json_dumps E v) as [content_text|e]; cbn [snd].
  - rewrite contents_answered, !contents_append, !length_app.
    unfold contents; simpl. rewrite length_app. lia.
  - rewrite contents_append, !length_app. unfold contents; simpl. rewrite length_app. lia.
Qed.

(** C9. [get_completion_from_messages] calls the gateway at most twice,
    executes at most one tool (at most one request reaches the lookup
    service) and adds at most two messages. When the first response
    carries requests, only the first of them is decoded, executed and
    recorded, whatever follows it in the list; and what the second gateway
    call gives is returned as it is, tool requests included. A response
    without requests is returned after the single gateway call. *)
Theorem pure_tool_single_round E messages model s :
  (gateway_calls (snd (PureTool.get_completion_from_messages E messages model s))
   ≤ gateway_calls s + 2)%nat
  ∧ (length (http_log (snd (PureTool.get_completion_from_messages E messages model s)))
     ≤ length (http_log s) + 1)%nat
  ∧ (length (contents (snd (PureTool.get_completion_from_messages E messages model s)) messages)
     ≤ length (contents s messages) + 2)%nat
  ∧ (∀ r tool_call more function_args v s1 arguments_text content_text,
       PureTool.reply E model messages s = Ok r →
       tool_calls r = Some (tool_call :: more) →
       json_loads E (arguments (function tool_call)) = Ok function_args →
       PureTool.invoke E tool_call (answered s) = (Ok v, s1) →
       json_dumps E function_args = Ok arguments_text →
       json_dumps E v = Ok content_text →
       ∃ s2,
         PureTool.get_completion_from_messages E messages model s
         = (chat_completions_create E (S (gateway_calls s))
              (PureTool.request_of model messages s2),
            answered s2)
         ∧ contents s2 messages
           = contents s messages
             ++ [PureTool.assistant_message tool_call arguments_text;
                 PureTool.tool_message tool_call content_text]
         ∧ gateway_calls s2 = S (gateway_calls s)
         ∧ http_log s2 = http_log s1)
  ∧ (∀ r, PureTool.reply E model messages s = Ok r → text_only r →
       PureTool.get_completion_from_messages E messages model s = (Ok r, answered s)).
Proof.
  destruct (pure_round_bounds E messages model s) as (Hcalls & Hlog & Hlen).
  split; [exact Hcalls | split; [exact Hlog | split; [exact Hlen | split]]].
  - intros r tool_call more function_args v s1 arguments_text content_text
      Hr Hc Hargs Hv Hda Hdv.
    rewrite get_completion_unfold, Hr, Hc, Hargs, Hv, Hda. cbv zeta. rewrite Hdv.
    destruct (pure_invoke_step E tool_call (answered s)) as (urls & Hs1 & _).
    rewrite Hv in Hs1. simpl in Hs1.
    eexists. split; [|split; [|split]].
    + f_equal. f_equal. rewrite Hs1. reflexivity.
    + rewrite !contents_append, <- app_assoc. rewrite Hs1. reflexivity.
    + rewrite Hs1. reflexivity.
    + reflexivity.
  - intros r Hr Ht. rewrite get_completion_unfold, Hr. now destruct Ht as [-> | ->].
Qed.

Lemma pure_tool_single_round_witness :
  ∃ s2,
    PureTool.get_completion_from_messages Scenario.two_then_more 0%nat "gpt-4o" Scenario.start
    = (Ok Scenario.asks_again, answered s2)
    ∧ contents s2 0%nat
      = Scenario.question
        ++ [PureTool.assistant_message (Scenario.request "call_1" "get_name_for_day" "2024-10-28")
              (Scenario.date_arguments "2024-10-28");
            PureTool.tool_message (Scenario.request "call_1" "get_name_for_day" "2024-10-28")
              (Scenario.lookup_text "2024-10-28")]
    ∧ gateway_calls s2 = 1%nat
    ∧ http_log s2 = ["https://svatkyapi.cz/api/day/2024-10-28"].
Proof.
  apply (proj1 (proj2 (proj2 (proj2
           (pure_tool_single_round Scenario.two_then_more 0%nat "gpt-4o" Scenario.start))))
           Scenario.two_asked
           (Scenario.request "call_1" "get_name_for_day" "2024-10-28")
           [Scenario.request "call_2" "get_name_for_day" "2024-10-30"]
           (PDict [("date", PStr "2024-10-28")])
           (PDict [("date", PStr "2024-10-28"); ("name", PStr "Alfred")])
           (mkState (heap Scenario.start) 1 ["https://svatkyapi.cz/api/day/2024-10-28"])
           (Scenario.date_arguments "2024-10-28")
           (Scenario.lookup_text "2024-10-28")).
  - vm_compute. reflexivity.
  - reflexivity.
  - vm_compute. reflexivity.
  - vm_compute. reflexivity.
  - vm_compute. reflexivity.
  - vm_compute. reflexivity.
Defined.

(** ** The assistant message of a turn with tool calls (C5) *)

#[local] Instance adds_only_preorder P messages : PreOrder (adds_only P messages).
Proof.
  split.
  - intros s. exists []. now rewrite app_nil_r.
  - intros s1 s2 s3 (a1 & H1 & F1) (a2 & H2 & F2). exists (a1 ++ a2).
    split; [now rewrite H2, H1, app_assoc | now apply Forall_app].
Qed.

Lemma only_requests_adds_only P messages s s' :
  only_requests s s' → adds_only P messages s s'.
Proof.
  intros (Hh & _ & _). exists []. unfold contents. now rewrite Hh, app_nil_r.
Qed.

Lemma process_tool_call_adds_tool_messages E messages tool_call :
  keeps (adds_only is_tool_message messages) (React.process_tool_call E messages tool_call).
Proof.
  intros s. rewrite process_tool_call_invoke. revert s.
  apply keeps_bind; [tc_solve | |].
  - eapply keeps_weaken; [apply only_requests_adds_only | apply keeps_invoke].
  - intros v. apply keeps_bind; [tc_solve | apply keeps_lift; tc_solve |].
    intros content_text s. eexists [_]. split; [apply contents_append|].
    constructor; [|constructor]. now eexists _, _, _.
Qed.

(** C5, as the code has it. In [ReactAgent.run], for a response that
    carries one or more requests, the pass through the loop body adds one
    assistant message, which holds the text of the response (its [content],
    [None] included) next to the list of all the requests, each with its
    identifier, name and arguments as received; every other message the
    pass adds is a tool message. In [get_completion_from_messages], the
    assistant message added holds one entry, for the first request, whose
    arguments are the serialization by [json.dumps] of what [json.loads]
    decoded from the arguments received, and no text of the response; it is
    added as soon as the tool has returned and the arguments serialize. *)
Theorem assistant_message_records_turn E self messages s r calls :
  React.reply E self messages s = Ok r →
  requests_tools r calls →
  (∃ tool_msgs,
     contents (snd (React.loop_body E self messages s)) messages
     = contents s messages
       ++ PDict [("role", PStr "assistant");
                 ("content", opt_str (content r));
                 ("tool_calls", PList (map React.tool_call_entry calls))]
          :: tool_msgs
     ∧ Forall is_tool_message tool_msgs)
  ∧ (∀ i tool_call,
       calls !! i = Some tool_call →
       map React.tool_call_entry calls !! i
       = Some (PDict [("id", PStr (id tool_call));
                      ("type", PStr "function");
                      ("function",
                       PDict [("name", PStr (name (function tool_call)));
                              ("arguments", PStr (arguments (function tool_call)))])]))
  ∧ (∀ model r' tool_call more m,
       PureTool.reply E model messages s = Ok r' →
       tool_calls r' = Some (tool_call :: more) →
       contents (snd (PureTool.get_completion_from_messages E messages model s)) messages
         !! length (contents s messages) = Some m →
       ∃ function_args arguments_text,
         json_loads E (arguments (function tool_call)) = Ok function_args
         ∧ json_dumps E function_args = Ok arguments_text
         ∧ m = PDict [("role", PStr "assistant");
                      ("tool_calls",
                       PList [PDict [("id", PStr (id tool_call));
                                     ("type", PStr "function");
                                     ("function",
                                      PDict [("name", PStr (name (function tool_call)));
                                             ("arguments", PStr arguments_text)])]])])
  ∧ (∀ model r' tool_call more function_args v s1 arguments_text,
       PureTool.reply E model messages s = Ok r' →
       tool_calls r' = Some (tool_call :: more) →
       json_loads E (arguments (function tool_call)) = Ok function_args →
       PureTool.invoke E tool_call (answered s) = (Ok v, s1) →
       json_dumps E function_args = Ok arguments_text →
       contents (snd (PureTool.get_completion_from_messages E messages model s)) messages
         !! length (contents s messages)
       = Some (PDict [("role", PStr "assistant");
                      ("tool_calls",
                       PList [PDict [("id", PStr (id tool_call));
                                     ("type", PStr "function");
                                     ("function",
                                      PDict [("name", PStr (name (function tool_call)));
                                             ("arguments", PStr arguments_text)])]])])).
Proof.
  intros Hr Hreq. split; [|split; [|split]].
  - rewrite (loop_body_tools E self messages s r calls Hr Hreq).
    assert (Hrest : adds_only is_tool_message messages (React.recorded messages r calls s)
              (snd (bind (for_each calls (React.process_tool_call E messages))
                      (fun _ => ret React.Continue) (React.recorded messages r calls s)))).
    { apply keeps_bind; [tc_solve | | intros ?; apply keeps_ret; tc_solve].
      apply keeps_for_each; [tc_solve|]. intros x.
      apply process_tool_call_adds_tool_messages. }
    destruct Hrest as (added & Hadded & Hall). exists added. split; [|exact Hall].
    rewrite Hadded. unfold React.recorded. rewrite contents_append, contents_answered.
    now rewrite <- app_assoc.
  - intros i tool_call Hi. now rewrite list_lookup_fmap, Hi.
  - intros model r' tool_call more m Hr' Hc.
    assert (Hnone : contents s messages !! length (contents s messages) = None)
      by (apply lookup_ge_None_2; lia).
    rewrite get_completion_unfold, Hr', Hc.
    destruct (json_loads E _) as [function_args|e];
      [|cbn [snd]; rewrite contents_answered, Hnone; discriminate].
    destruct (pure_invoke_step E tool_call (answered s)) as (urls & Hs1 & _).
    assert (Hs1c : contents (snd (PureTool.invoke E tool_call (answered s))) messages
                   = contents s messages) by now rewrite Hs1.
    destruct (PureTool.invoke E tool_call (answered s)) as [[v|e] s1]; cbn [snd] in Hs1c;
      [|cbn [snd]; rewrite Hs1c, Hnone; discriminate].
    destruct (json_dumps E function_args) as [arguments_text|e] eqn:Hda;
      [|cbn [snd]; rewrite Hs1c, Hnone; discriminate].
    cbv zeta. intros Hm. exists function_args, arguments_text.
    split; [reflexivity|]. split; [exact Hda|]. revert Hm.
    destruct (json_dumps E v) as [content_text|e]; cbn [snd];
      rewrite ?contents_answered, !contents_append, Hs1c.
    + rewrite <- app_assoc. cbn [app].
      rewrite list_lookup_middle by reflexivity. now intros [= <-].
    + rewrite list_lookup_middle by reflexivity. now intros [= <-].
  - intros model r' tool_call more function_args v s1 arguments_text
      Hr' Hc Hargs Hinv Hda.
    destruct (pure_invoke_step E tool_call (answered s)) as (urls & Hs1 & _).
    rewrite Hinv in Hs1. cbn [snd] in Hs1.
    assert (Hs1c : contents s1 messages = contents s messages) by now rewrite Hs1.
    rewrite get_completion_unfold, Hr', Hc, Hargs, Hinv, Hda. cbv zeta.
    destruct (json_dumps E v) as [content_text|e]; cbn [snd];
      rewrite ?contents_answered, !contents_append, Hs1c.
    + rewrite <- app_assoc. cbn [app]. now rewrite list_lookup_middle by reflexivity.
    + now rewrite list_lookup_middle by reflexivity.
Qed.

(** On concrete turns: the loop records the three requests and the text of
    the response; the single-round script records the first of two requests,
    and stores the arguments as [json.dumps] writes them, also when they came
    written otherwise. *)
Lemma assistant_message_records_turn_witness :
  (∃ tool_msgs,
     contents (snd (React.loop_body Scenario.three_lookups Scenario.agent 0%nat Scenario.start))
       0%nat
     = contents Scenario.start 0%nat
       ++ PDict [("role", PStr "assistant");
                 ("content", PStr "I will look up the three days.");
                 ("tool_calls", PList (map React.tool_call_entry Scenario.three_requests))]
          :: tool_msgs
     ∧ Forall is_tool_message tool_msgs)
  ∧ (∃ function_args arguments_text,
       json_loads Scenario.two_then_more (Scenario.date_arguments "2024-10-28")
         = Ok function_args
       ∧ json_dumps Scenario.two_then_more function_args = Ok arguments_text
       ∧ PureTool.assistant_message (Scenario.request "call_1" "get_name_for_day" "2024-10-28")
           (Scenario.date_arguments "2024-10-28")
         = PDict [("role", PStr "assistant");
                  ("tool_calls",
                   PList [PDict [("id", PStr "call_1");
                                 ("type", PStr "function");
                                 ("function",
                                  PDict [("name", PStr "get_name_for_day");
                                         ("arguments", PStr arguments_text)])]])])
  ∧ contents
      (snd (PureTool.get_completion_from_messages Scenario.two_then_more 0%nat "gpt-4o"
              Scenario.start)) 0%nat
      !! length (contents Scenario.start 0%nat)
    = Some (PDict [("role", PStr "assistant");
                   ("tool_calls",
                    PList [PDict [("id", PStr "call_1");
                                  ("type", PStr "function");
                                  ("function",
                                   PDict [("name", PStr "get_name_for_day");
                                          ("arguments",
                                           PStr (Scenario.date_arguments "2024-10-28"))])]])])
  ∧ (arguments (function Scenario.compact_call) ≠ Scenario.date_arguments "2024-10-28"
     ∧ contents
         (snd (PureTool.get_completion_from_messages Scenario.compact_arguments 0%nat "gpt-4o"
                 Scenario.start)) 0%nat
         !! length (contents Scenario.start 0%nat)
       = Some (PDict [("role", PStr "assistant");
                      ("tool_calls",
                       PList [PDict [("id", PStr "call_1");
                                     ("type", PStr "function");
                                     ("function",
                                      PDict [("name", PStr "get_name_for_day");
                                             ("arguments",
                                              PStr (Scenario.date_arguments
                                                      "2024-10-28"))])]])])).
Proof.
  assert (Hreply : React.reply Scenario.three_lookups Scenario.agent 0%nat Scenario.start
                   = Ok Scenario.three_asked) by (vm_compute; reflexivity).
  assert (Htools : requests_tools Scenario.three_asked Scenario.three_requests)
    by (split; [reflexivity | discriminate]).
  destruct (assistant_message_records_turn Scenario.three_lookups Scenario.agent 0%nat
              Scenario.start Scenario.three_asked Scenario.three_requests Hreply Htools)
    as (Hreact & _ & _ & _).
  assert (Hreply2 : React.reply Scenario.two_then_more Scenario.agent 0%nat Scenario.start
                    = Ok Scenario.two_asked) by (vm_compute; reflexivity).
  assert (Htools2 : requests_tools Scenario.two_asked
                      [Scenario.request "call_1" "get_name_for_day" "2024-10-28";
                       Scenario.request "call_2" "get_name_for_day" "2024-10-30"])
    by (split; [reflexivity | discriminate]).
  destruct (assistant_message_records_turn Scenario.two_then_more Scenario.agent 0%nat
              Scenario.start Scenario.two_asked _ Hreply2 Htools2)
    as (_ & _ & Hpure & Hadded).
  assert (Hreply3 : React.reply Scenario.compact_arguments Scenario.agent 0%nat Scenario.start
                    = Ok (mkMessage None (Some [Scenario.compact_call])))
    by (vm_compute; reflexivity).
  assert (Htools3 : requests_tools (mkMessage None (Some [Scenario.compact_call]))
                      [Scenario.compact_call])
    by (split; [reflexivity | discriminate]).
  destruct (assistant_message_records_turn Scenario.compact_arguments Scenario.agent 0%nat
              Scenario.start _ _ Hreply3 Htools3)
    as (_ & _ & _ & Hcompact).
  split; [exact Hreact | split; [|split; [|split; [vm_compute; discriminate|]]]].
  - apply (Hpure "gpt-4o" Scenario.two_asked
             (Scenario.request "call_1" "get_name_for_day" "2024-10-28")
             [Scenario.request "call_2" "get_name_for_day" "2024-10-30"]).
    + vm_compute. reflexivity.
    + reflexivity.
    + vm_compute. reflexivity.
  - apply (Hadded "gpt-4o" Scenario.two_asked
             (Scenario.request "call_1" "get_name_for_day" "2024-10-28")
             [Scenario.request "call_2" "get_name_for_day" "2024-10-30"]
             (PDict [("date", PStr "2024-10-28")])
             (PDict [("date", PStr "2024-10-28"); ("name", PStr "Alfred")])
             (mkState (heap Scenario.start) 1 ["https://svatkyapi.cz/api/day/2024-10-28"])).
    + vm_compute. reflexivity.
    + reflexivity.
    + vm_compute. reflexivity.
    + vm_compute. reflexivity.
    + vm_compute. reflexivity.
  - apply (Hcompact "gpt-4o" (mkMessage None (Some [Scenario.compact_call]))
             Scenario.compact_call []
             (PDict [("date", PStr "2024-10-28")])
             (PDict [("date", PStr "2024-10-28"); ("name", PStr "Alfred")])
             (mkState (heap Scenario.start) 1 ["https://svatkyapi.cz/api/day/2024-10-28"])).
    + vm_compute. reflexivity.
    + reflexivity.
    + vm_compute. reflexivity.
    + vm_compute. reflexivity.
    + vm_compute. reflexivity.
Defined.

(** The claim as stated fails on the single-round script: for a response
    with a text and two requests, the assistant message added to the
    transcript has no [content] and records the first request only. *)
Lemma pure_tool_drops_text_and_requests :
  PureTool.reply Scenario.two_then_more "gpt-4o" 0%nat Scenario.start = Ok Scenario.two_asked
  ∧ content Scenario.two_asked = Some "I will look up both days."
  ∧ tool_calls Scenario.two_asked
    = Some [Scenario.request "call_1" "get_name_for_day" "2024-10-28";
            Scenario.request "call_2" "get_name_for_day" "2024-10-30"]
  ∧ contents
      (snd (PureTool.get_completion_from_messages Scenario.two_then_more 0%nat "gpt-4o"
              Scenario.start)) 0%nat
    = Scenario.question
      ++ [PDict [("role", PStr "assistant");
                 ("tool_calls",
                  PList [PDict [("id", PStr "call_1");
                                ("type", PStr "function");
                                ("function",
                                 PDict [("name", PStr "get_name_for_day");
                                        ("arguments",
                                         PStr (Scenario.date_arguments "2024-10-28"))])]])];
          PDict [("role", PStr "tool");
                 ("tool_call_id", PStr "call_1");
                 ("name", PStr "get_name_for_day");
                 ("content", PStr (Scenario.lookup_text "2024-10-28"))]].
Proof. repeat apply conj; vm_compute; reflexivity. Qed.

(** * Further properties of the code *)

(** ** The lookup functions, case by case *)

Lemma get_all_info_about_day_unfold E date s :
  get_all_info_about_day E date s =
  let url := "https://svatkyapi.cz/api/day/" +:+ format_value E date in
  match requests_get E (http_log s) url with
  | Raise e => (Raise e, requested url s)
  | Ok response =>
      if status_code response =? 200 then
        match json response with
        | Raise e => (Raise e, requested url s)
        | Ok data => (Ok (PDict [("date", date); ("data", data)]), requested url s)
        end
      else (Ok (PDict [("date", date); ("data", PStr "Error fetching data")]), requested url s)
  end.
Proof.
  unfold get_all_info_about_day, bind, http_get, lift, ret. fold (requested
    ("https://svatkyapi.cz/api/day/" +:+ format_value E date) s). cbv zeta.
  destruct (requests_get E _ _) as [response|e]; [|reflexivity].
  destruct (status_code response =? 200); [|reflexivity].
  now destruct (json response).
Qed.

(** X1. On a 200 whose body decodes to a JSON object, [get_name_for_day]
    returns the date it was given with the value the object has under
    [name]; when the object has no such key the name is [None], and the
    function still returns. *)
Theorem get_name_for_day_found E date s response items :
  requests_get E (http_log s) ("https://svatkyapi.cz/api/day/" +:+ format_value E date)
    = Ok response →
  status_code response = 200 →
  json response = Ok (PDict items) →
  get_name_for_day E date s
    = (Ok (PDict [("date", date);
                  ("name", match assoc "name" items with Some n => n | None => PNone end)]),
       requested ("https://svatkyapi.cz/api/day/" +:+ format_value E date) s).
Proof.
  intros Hget Hstatus Hjson. rewrite get_name_for_day_unfold. cbv zeta.
  rewrite Hget, Hstatus, Hjson. simpl. now destruct (assoc "name" items).
Qed.

Lemma get_name_for_day_found_witness :
  get_name_for_day Scenario.three_lookups (PStr "2024-10-28") Scenario.start
    = (Ok (PDict [("date", PStr "2024-10-28"); ("name", PStr "Alfred")]),
       requested "https://svatkyapi.cz/api/day/2024-10-28" Scenario.start)
  ∧ get_name_for_day
      (Scenario.world (Scenario.always Scenario.direct_answer)
         (Scenario.service 200 (Ok (PDict [("date", PStr "2024-10-28")]))))
      (PStr "2024-10-28") Scenario.start
    = (Ok (PDict [("date", PStr "2024-10-28"); ("name", PNone)]),
       requested "https://svatkyapi.cz/api/day/2024-10-28" Scenario.start).
Proof.
  split.
  - apply (get_name_for_day_found Scenario.three_lookups (PStr "2024-10-28") Scenario.start
             (mkResponse 200 (Ok (PDict [("name", PStr "Alfred")])))
             [("name", PStr "Alfred")]); reflexivity.
  - apply (get_name_for_day_found
             (Scenario.world (Scenario.always Scenario.direct_answer)
                (Scenario.service 200 (Ok (PDict [("date", PStr "2024-10-28")]))))
             (PStr "2024-10-28") Scenario.start
             (mkResponse 200 (Ok (PDict [("date", PStr "2024-10-28")])))
             [("date", PStr "2024-10-28")]); reflexivity.
Defined.

(** X2. [get_name_for_day], case by case. It raises in exactly three
    cases: [requests.get] raises; the status is 200 and the body does not
    decode; the status is 200 and the body decodes to something other than
    an object (a list, a string, a number, [null]), in which case the
    exception is [AttributeError] for [get]. It returns in exactly two: on
    a status other than 200, the date with the error marker; on a 200 whose
    body is an object, the date with what the body has under [name], [None]
    when it has no such key. *)
Theorem get_name_for_day_raises_iff E date s :
  (∀ e,
     fst (get_name_for_day E date s) = Raise e
     ↔ requests_get E (http_log s) ("https://svatkyapi.cz/api/day/" +:+ format_value E date)
         = Raise e
       ∨ ∃ response,
           requests_get E (http_log s)
             ("https://svatkyapi.cz/api/day/" +:+ format_value E date) = Ok response
           ∧ status_code response = 200
           ∧ (json response = Raise e
              ∨ ∃ data, json response = Ok data
                        ∧ (∀ items, data ≠ PDict items)
                        ∧ e = AttributeError "get"))
  ∧ (∀ v,
       fst (get_name_for_day E date s) = Ok v
       ↔ ∃ response,
           requests_get E (http_log s)
             ("https://svatkyapi.cz/api/day/" +:+ format_value E date) = Ok response
           ∧ ((status_code response ≠ 200
               ∧ v = PDict [("date", date); ("name", PStr "Error fetching data")])
              ∨ (status_code response = 200
                 ∧ ∃ items, json response = Ok (PDict items)
                            ∧ v = PDict [("date", date);
                                         ("name", default PNone (assoc "name" items))]))).
Proof.
  rewrite get_name_for_day_unfold. cbv zeta. split.
  - intros e.
    destruct (requests_get E _ _) as [response|e0].
    + destruct (Z.eqb_spec (status_code response) 200) as [Hs|Hs].
      * destruct (json response) as [data|e1] eqn:Hjson.
        -- destruct data; simpl; split.
           all: try (intros [= <-]; right; exists response; repeat split; try assumption;
                     right; eexists; repeat split; [eassumption | discriminate]).
           all: try (intros [[=] | (response' & [= <-] & _ & [Hj | (data & Hj & Hnd & ->)])];
                     [congruence | reflexivity]).
           ++ discriminate.
           ++ intros [[=] | (response' & [= <-] & _ & [Hj | (data & Hj & Hnd & ->)])];
                [congruence|]. rewrite Hjson in Hj. injection Hj as <-.
              now destruct (Hnd items).
        -- simpl; split.
           ++ intros [= <-]. right. exists response. auto.
           ++ intros [[=] | (response' & [= <-] & _ & [Hj | (data & Hj & _)])]; congruence.
      * simpl; split; [discriminate|].
        intros [[=] | (response' & [= <-] & Hs' & _)]. contradiction.
    + simpl; split.
      * intros [= <-]. now left.
      * intros [[= <-] | (response' & [=] & _)]. reflexivity.
  - intros v.
    destruct (requests_get E _ _) as [response|e0].
    + destruct (Z.eqb_spec (status_code response) 200) as [Hs|Hs].
      * destruct (json response) as [data|e1] eqn:Hjson.
        -- destruct (py_get data "name") as [n|e1] eqn:Hget; simpl; split.
           ++ intros [= <-]. exists response. split; [reflexivity|]. right.
              split; [assumption|].
              destruct data; try discriminate. injection Hget as <-. now exists items.
           ++ intros (response' & [= <-] & [[Hs' _] | (_ & items & Hj & ->)]);
                [contradiction|].
              rewrite Hjson in Hj. injection Hj as ->. simpl in Hget. now injection Hget as <-.
           ++ discriminate.
           ++ intros (response' & [= <-] & [[Hs' _] | (_ & items & Hj & ->)]);
                [contradiction|].
              rewrite Hjson in Hj. injection Hj as ->. discriminate.
        -- simpl; split; [discriminate|].
           intros (response' & [= <-] & [[Hs' _] | (_ & items & Hj & _)]);
             [contradiction | congruence].
      * simpl; split.
        -- intros [= <-]. exists response. split; [reflexivity|]. now left.
        -- intros (response' & [= <-] & [[_ ->] | (Hs' & _)]); [reflexivity | contradiction].
    + simpl; split; [discriminate|]. intros (response' & [=] & _).
Qed.

(** A 200 whose body is an object without a name gives [None] for the
    name; a 200 whose body has the text of the error marker as its name
    gives back the value that a failed lookup gives. *)
Lemma get_name_for_day_raises_iff_witness :
  fst (get_name_for_day
         (Scenario.world (Scenario.scripted []) (Scenario.service 200 (Ok (PDict []))))
         (PStr "2024-10-28") Scenario.start)
    = Ok (PDict [("date", PStr "2024-10-28"); ("name", PNone)])
  ∧ fst (get_name_for_day
           (Scenario.world (Scenario.scripted [])
              (Scenario.service 200 (Ok (PDict [("name", PStr "Error fetching data")]))))
           (PStr "2024-10-28") Scenario.start)
    = fst (get_name_for_day Scenario.direct (PStr "2024-10-28") Scenario.start)
  ∧ fst (get_name_for_day
           (Scenario.world (Scenario.scripted []) (Scenario.service 200 (Ok (PList []))))
           (PStr "2024-10-28") Scenario.start)
    = Raise (AttributeError "get").
Proof.
  split; [|split].
  - apply (get_name_for_day_raises_iff
             (Scenario.world (Scenario.scripted []) (Scenario.service 200 (Ok (PDict []))))
             (PStr "2024-10-28") Scenario.start).
    exists (mkResponse 200 (Ok (PDict []))). split; [reflexivity|]. right.
    split; [reflexivity|]. now exists [].
  - transitivity (Ok (PDict [("date", PStr "2024-10-28");
                             ("name", PStr "Error fetching data")]) : outcome pyval).
    + apply (get_name_for_day_raises_iff
               (Scenario.world (Scenario.scripted [])
                  (Scenario.service 200 (Ok (PDict [("name", PStr "Error fetching data")]))))
               (PStr "2024-10-28") Scenario.start).
      exists (mkResponse 200 (Ok (PDict [("name", PStr "Error fetching data")]))).
      split; [reflexivity|]. right. split; [reflexivity|].
      now exists [("name", PStr "Error fetching data")].
    + symmetry.
      apply (get_name_for_day_raises_iff Scenario.direct (PStr "2024-10-28") Scenario.start).
      exists (mkResponse 404 (Raise JSONDecodeError)). split; [reflexivity|]. left.
      split; [discriminate | reflexivity].
  - apply (get_name_for_day_raises_iff
             (Scenario.world (Scenario.scripted []) (Scenario.service 200 (Ok (PList []))))
             (PStr "2024-10-28") Scenario.start).
    right. exists (mkResponse 200 (Ok (PList []))). split; [reflexivity|].
    split; [reflexivity|]. right. exists (PList []). now repeat split.
Defined.

(** X3. [get_all_info_about_day] hands back the decoded body as it is,
    whatever its shape: on a 200 it returns the date with the body under
    [data], on any other status the date with the error marker, and it
    raises only when [requests.get] raises or the body of a 200 does not
    decode. *)
Theorem get_all_info_about_day_cases E date s :
  (∀ response data,
     requests_get E (http_log s) ("https://svatkyapi.cz/api/day/" +:+ format_value E date)
       = Ok response →
     status_code response = 200 →
     json response = Ok data →
     fst (get_all_info_about_day E date s) = Ok (PDict [("date", date); ("data", data)]))
  ∧ (∀ response,
       requests_get E (http_log s) ("https://svatkyapi.cz/api/day/" +:+ format_value E date)
         = Ok response →
       status_code response ≠ 200 →
       fst (get_all_info_about_day E date s)
         = Ok (PDict [("date", date); ("data", PStr "Error fetching data")]))
  ∧ (∀ e,
       fst (get_all_info_about_day E date s) = Raise e
       ↔ requests_get E (http_log s) ("https://svatkyapi.cz/api/day/" +:+ format_value E date)
           = Raise e
         ∨ ∃ response,
             requests_get E (http_log s)
               ("https://svatkyapi.cz/api/day/" +:+ format_value E date) = Ok response
             ∧ status_code response = 200
             ∧ json response = Raise e).
Proof.
  rewrite get_all_info_about_day_unfold. cbv zeta. split; [|split].
  - intros response data -> -> ->. reflexivity.
  - intros response -> Hs.
    now destruct (Z.eqb_spec (status_code response) 200).
  - intros e. destruct (requests_get E _ _) as [response|e0].
    + destruct (Z.eqb_spec (status_code response) 200) as [Hs|Hs].
      * destruct (json response) as [data|e1] eqn:Hjson; simpl; split.
        -- discriminate.
        -- intros [[=] | (response' & [= <-] & _ & Hj)]. congruence.
        -- intros [= <-]. right. now exists response.
        -- intros [[=] | (response' & [= <-] & _ & Hj)]. congruence.
      * simpl; split; [discriminate|].
        intros [[=] | (response' & [= <-] & Hs' & _)]. contradiction.
    + simpl; split.
      * intros [= <-]. now left.
      * intros [[= <-] | (response' & [=] & _)]. reflexivity.
Qed.

Lemma get_all_info_about_day_cases_witness :
  fst (get_all_info_about_day Scenario.week_asked (PStr "2024-10-28") Scenario.start)
    = Ok (PDict [("date", PStr "2024-10-28"); ("data", Scenario.week_body)])
  ∧ fst (get_all_info_about_day Scenario.insistent (PStr "2024-10-28") Scenario.start)
    = Ok (PDict [("date", PStr "2024-10-28"); ("data", PStr "Error fetching data")])
  ∧ fst (get_all_info_about_day
           (Scenario.world (Scenario.always Scenario.direct_answer)
              (Scenario.service 200 (Raise JSONDecodeError)))
           (PStr "2024-10-28") Scenario.start)
    = Raise JSONDecodeError.
Proof.
  split; [|split].
  - apply (proj1 (get_all_info_about_day_cases Scenario.week_asked (PStr "2024-10-28")
                    Scenario.start)
             (mkResponse 200 (Ok Scenario.week_body)) Scenario.week_body); reflexivity.
  - apply (proj1 (proj2 (get_all_info_about_day_cases Scenario.insistent (PStr "2024-10-28")
                           Scenario.start))
             (mkResponse 404 (Raise JSONDecodeError))); [reflexivity | discriminate].
  - apply (proj2 (proj2 (get_all_info_about_day_cases
                           (Scenario.world (Scenario.always Scenario.direct_answer)
                              (Scenario.service 200 (Raise JSONDecodeError)))
                           (PStr "2024-10-28") Scenario.start))).
    right. exists (mkResponse 200 (Raise JSONDecodeError)). repeat split.
Defined.

Lemma get_all_info_about_day_state E date s :
  snd (get_all_info_about_day E date s)
  = requested ("https://svatkyapi.cz/api/day/" +:+ format_value E date) s.
Proof.
  rewrite get_all_info_about_day_unfold. cbv zeta.
  destruct (requests_get E _ _) as [response|e]; [|reflexivity].
  destruct (status_code response =? 200); [|reflexivity].
  now destruct (json response).
Qed.

Lemma get_names_for_week_state E date s :
  snd (get_names_for_week E date s)
  = requested ("https://svatkyapi.cz/api/week/" +:+ format_value E date) s.
Proof.
  rewrite get_names_for_week_unfold. cbv zeta.
  destruct (requests_get E _ _) as [response|e]; [|reflexivity].
  destruct (status_code response =? 200); [|reflexivity].
  now destruct (json response).
Qed.

(** X4. Whether it returns or raises, each of the three tool functions
    sends exactly one request to the lookup service, to the [day] address
    (or the [week] address, for [get_names_for_week]) followed by the text
    of its argument, and does nothing else: the transcripts and the count of
    gateway calls are as before. *)
Theorem tool_functions_send_one_request E date s :
  snd (get_name_for_day E date s)
    = mkState (heap s) (gateway_calls s)
        (http_log s ++ ["https://svatkyapi.cz/api/day/" +:+ format_value E date])
  ∧ snd (get_all_info_about_day E date s)
    = mkState (heap s) (gateway_calls s)
        (http_log s ++ ["https://svatkyapi.cz/api/day/" +:+ format_value E date])
  ∧ snd (get_names_for_week E date s)
    = mkState (heap s) (gateway_calls s)
        (http_log s ++ ["https://svatkyapi.cz/api/week/" +:+ format_value E date]).
Proof.
  split; [|split].
  - apply get_name_for_day_state.
  - apply get_all_info_about_day_state.
  - apply get_names_for_week_state.
Qed.

(** ** Failures inside the loop *)

(** X5. When the gateway call of an iteration raises, [ReactAgent.run] ends
    at once with that exception: nothing is added to the transcript, no
    request is sent to the lookup service, and the call is not retried. *)
Theorem gateway_error_aborts_run E self messages iteration s e :
  iteration < React.max_iterations self →
  React.reply E self messages s = Raise e →
  React.while_loop E self messages iteration s = (Raise e, answered s)
  ∧ contents (snd (React.while_loop E self messages iteration s)) messages
    = contents s messages
  ∧ http_log (snd (React.while_loop E self messages iteration s)) = http_log s
  ∧ gateway_calls (snd (React.while_loop E self messages iteration s)) = S (gateway_calls s).
Proof.
  intros Hlt Hr.
  assert (Hrun : React.while_loop E self messages iteration s = (Raise e, answered s)).
  { apply while_loop_raises; [assumption|]. now apply loop_body_gateway_error. }
  rewrite Hrun. repeat split.
Qed.

Lemma gateway_error_aborts_run_witness :
  React.while_loop Scenario.unreachable Scenario.agent 0%nat 0 Scenario.start
    = (Raise (APIError "no response left in the script"), answered Scenario.start)
  ∧ contents
      (snd (React.while_loop Scenario.unreachable Scenario.agent 0%nat 0 Scenario.start)) 0%nat
    = contents Scenario.start 0%nat
  ∧ http_log
      (snd (React.while_loop Scenario.unreachable Scenario.agent 0%nat 0 Scenario.start))
    = http_log Scenario.start
  ∧ gateway_calls
      (snd (React.while_loop Scenario.unreachable Scenario.agent 0%nat 0 Scenario.start))
    = S (gateway_calls Scenario.start).
Proof.
  apply (gateway_error_aborts_run Scenario.unreachable Scenario.agent 0%nat 0 Scenario.start).
  - vm_compute. reflexivity.
  - reflexivity.
Defined.

Lemma call_with_kwargs_bad (f : pyval → M pyval) function_args s :
  (∀ v, function_args ≠ PDict [("date", v)]) →
  ∃ why, call_with_kwargs f function_args s = (Raise (TypeError why), s).
Proof.
  intros Hbad. unfold call_with_kwargs.
  destruct function_args as [| | | |?|[|[k v] [|? ?]]|?]; try (eexists; reflexivity).
  destruct (String.eqb_spec k "date") as [->|Hne]; [|eexists; reflexivity].
  now destruct (Hbad v).
Qed.

(** X6. A request whose arguments cannot be used ends the run before its
    tool is called. If the arguments are not valid JSON, the run ends with
    the exception of [json.loads], whatever the tool name. If they decode,
    the tool is registered, and the value is anything but an object whose
    single key is [date] (a list, an object with no [date], an object with
    one more key), the run ends with [TypeError]. In both cases the state is
    the one in which the request was reached: no request has been sent to
    the lookup service for it and no tool message added. *)
Theorem bad_arguments_abort_run E self messages iteration s r before tool_call after s1 :
  iteration < React.max_iterations self →
  React.reply E self messages s = Ok r →
  tool_calls r = Some (before ++ tool_call :: after) →
  for_each before (React.process_tool_call E messages)
    (React.recorded messages r (before ++ tool_call :: after) s) = (Ok tt, s1) →
  (∀ e, json_loads E (arguments (function tool_call)) = Raise e →
     React.while_loop E self messages iteration s = (Raise e, s1))
  ∧ (∀ function_args f,
       json_loads E (arguments (function tool_call)) = Ok function_args →
       React.available_functions E !! name (function tool_call) = Some f →
       (∀ v, function_args ≠ PDict [("date", v)]) →
       ∃ why, React.while_loop E self messages iteration s = (Raise (TypeError why), s1)).
Proof.
  intros Hlt Hr Hc Hb. split.
  - intros e Hargs.
    eapply turn_raises; try eassumption.
    unfold React.process_tool_call, bind, lift. now rewrite Hargs.
  - intros function_args f Hargs Hf Hbad.
    destruct (call_with_kwargs_bad f function_args s1 Hbad) as (why & Hcall).
    exists why. eapply turn_raises; try eassumption.
    unfold React.process_tool_call, bind, lift. rewrite Hargs.
    unfold React.lookup_function. rewrite Hf. unfold ret. now rewrite Hcall.
Qed.

Lemma bad_arguments_abort_run_witness :
  React.while_loop Scenario.truncated_arguments Scenario.agent 0%nat 0 Scenario.start
  = (Raise JSONDecodeError,
     React.recorded 0%nat (mkMessage None (Some [Scenario.truncated_call]))
       [Scenario.truncated_call] Scenario.start)
  ∧ ∃ why,
      React.while_loop Scenario.list_arguments Scenario.agent 0%nat 0 Scenario.start
      = (Raise (TypeError why),
         React.recorded 0%nat (mkMessage None (Some [Scenario.list_call]))
           [Scenario.list_call] Scenario.start).
Proof.
  split.
  - apply (proj1 (bad_arguments_abort_run Scenario.truncated_arguments
             Scenario.agent 0%nat 0 Scenario.start
             (mkMessage None (Some [Scenario.truncated_call]))
             [] Scenario.truncated_call [] _
             ltac:(vm_compute; reflexivity) eq_refl eq_refl eq_refl)).
    vm_compute. reflexivity.
  - apply (proj2 (bad_arguments_abort_run Scenario.list_arguments
             Scenario.agent 0%nat 0 Scenario.start
             (mkMessage None (Some [Scenario.list_call]))
             [] Scenario.list_call [] _
             ltac:(vm_compute; reflexivity) eq_refl eq_refl eq_refl)
             (PList []) (get_name_for_day Scenario.list_arguments)).
    + vm_compute. reflexivity.
    + apply lookup_insert_eq.
    + discriminate.
Defined.

(** ** The bound of any agent *)

(** X7. [max_iterations] is an attribute that can be set to any integer.
    Whatever its value, a run makes at most that many gateway calls (none
    when it is zero or negative); and with a bound of zero or less the run
    returns the limit message at once, with no gateway call and nothing
    added to the transcript. *)
Theorem run_bound_of_any_agent E self messages s :
  (gateway_calls (snd (React.run E self messages s))
   ≤ gateway_calls s + Z.to_nat (React.max_iterations self))%nat
  ∧ (React.max_iterations self ≤ 0 →
     React.run E self messages s = (Ok (Some React.limit_message), s)).
Proof.
  split.
  - pose proof (while_loop_gateway_bound E self messages 0 s) as H.
    now rewrite Z.sub_0_r in H.
  - intros Hle. unfold React.run. apply while_loop_exhausted. lia.
Qed.

Lemma run_bound_of_any_agent_witness :
  React.run Scenario.three_lookups (React.mkAgent "gpt-4o" 0) 0%nat Scenario.start
    = (Ok (Some React.limit_message), Scenario.start)
  ∧ React.run Scenario.three_lookups (React.mkAgent "gpt-4o" (-3)) 0%nat Scenario.start
    = (Ok (Some React.limit_message), Scenario.start).
Proof.
  split.
  - apply (proj2 (run_bound_of_any_agent Scenario.three_lookups (React.mkAgent "gpt-4o" 0)
                    0%nat Scenario.start)). simpl. lia.
  - apply (proj2 (run_bound_of_any_agent Scenario.three_lookups (React.mkAgent "gpt-4o" (-3))
                    0%nat Scenario.start)). simpl. lia.
Defined.

(** ** The shape of the transcript a run leaves *)

Lemma invoke_ok_one_request E tool_call s v s1 :
  React.invoke E tool_call s = (Ok v, s1) → ∃ url, s1 = requested url s.
Proof.
  unfold React.invoke, bind, lift.
  destruct (json_loads E _) as [function_args|e]; [|discriminate].
  unfold React.lookup_function.
  destruct (React.available_functions E !! _) as [f|] eqn:Hf; [|discriminate].
  unfold ret, call_with_kwargs.
  destruct function_args as [| | | |?|[|[k d] [|? ?]]|?]; try discriminate.
  destruct (String.eqb k "date"); [|discriminate].
  intros Hcall. apply (f_equal snd) in Hcall. simpl in Hcall. subst s1.
  apply available_functions_lookup in Hf as [[_ ->]|[[_ ->]|[_ ->]]]; eexists.
  - apply get_name_for_day_state.
  - apply get_all_info_about_day_state.
  - apply get_names_for_week_state.
Qed.

(** A tool step that returns has sent one request and added one tool message. *)
Lemma process_tool_call_ok E messages tool_call s s' :
  React.process_tool_call E messages tool_call s = (Ok tt, s') →
  ∃ url content_text,
    s' = snd (append messages
                (React.tool_message (id tool_call) (name (function tool_call)) content_text)
                (requested url s)).
Proof.
  rewrite process_tool_call_invoke. intros H.
  apply bind_inv_ok in H as (v & s1 & Hv & H).
  apply invoke_ok_one_request in Hv as (url & ->).
  apply bind_inv_ok in H as (content_text & s2 & Hd & H).
  unfold lift in Hd. injection Hd as _ <-.
  exists url, content_text. now rewrite H.
Qed.

(** A tool step that raises leaves the transcripts as they were. *)
Lemma process_tool_call_raise E messages tool_call s e s' :
  React.process_tool_call E messages tool_call s = (Raise e, s') → heap s' = heap s.
Proof.
  rewrite process_tool_call_invoke. unfold bind at 1.
  pose proof (keeps_invoke E tool_call s) as (Hheap & _ & _).
  destruct (React.invoke E tool_call s) as [[v|e0] s1]; simpl in Hheap.
  - unfold bind, lift. destruct (json_dumps E v); [discriminate|].
    now intros [= _ <-].
  - now intros [= _ <-].
Qed.

Lemma for_each_ok E messages calls : ∀ s s',
  for_each calls (React.process_tool_call E messages) s = (Ok tt, s') →
  ∃ texts,
    length texts = length calls
    ∧ contents s' messages = contents s messages ++ tool_messages calls texts
    ∧ length (http_log s') = (length (http_log s) + length calls)%nat.
Proof.
  induction calls as [|tool_call rest IH]; simpl; intros s s' H.
  - injection H as <-. exists []. rewrite app_nil_r. repeat split. lia.
  - apply bind_inv_ok in H as ([] & s1 & Hstep & Hrest).
    apply process_tool_call_ok in Hstep as (url & content_text & ->).
    destruct (IH _ _ Hrest) as (texts & Hlen & Hc & Hl).
    exists (content_text :: texts). split; [simpl; lia|]. split.
    + rewrite Hc, contents_append. unfold tool_messages; simpl.
      now rewrite <- app_assoc.
    + rewrite Hl. simpl. rewrite length_app. simpl. lia.
Qed.

Lemma for_each_raise E messages calls : ∀ s e s',
  for_each calls (React.process_tool_call E messages) s = (Raise e, s') →
  ∃ k texts,
    (k < length calls)%nat
    ∧ length texts = k
    ∧ contents s' messages = contents s messages ++ tool_messages (take k calls) texts.
Proof.
  induction calls as [|tool_call rest IH]; simpl; intros s e s' H.
  - discriminate.
  - unfold bind in H.
    destruct (React.process_tool_call E messages tool_call s) as [[[]|e0] s1] eqn:Hstep.
    + apply process_tool_call_ok in Hstep as (url & content_text & ->).
      destruct (IH _ _ _ H) as (k & texts & Hk & Hlen & Hc).
      exists (S k), (content_text :: texts). split; [lia|]. split; [simpl; lia|].
      rewrite Hc, contents_append. unfold tool_messages; simpl.
      now rewrite <- app_assoc.
    + injection H as <- <-. apply process_tool_call_raise in Hstep.
      exists 0%nat, []. split; [lia|]. split; [reflexivity|].
      unfold contents. rewrite Hstep. simpl. now rewrite app_nil_r.
Qed.

Lemma loop_body_raise_inv E self messages s e s' :
  React.loop_body E self messages s = (Raise e, s') →
  (React.reply E self messages s = Raise e ∧ s' = answered s)
  ∨ ∃ r calls,
      React.reply E self messages s = Ok r ∧ requests_tools r calls
      ∧ for_each calls (React.process_tool_call E messages)
          (React.recorded messages r calls s) = (Raise e, s').
Proof.
  rewrite loop_body_unfold.
  destruct (React.reply E self messages s) as [r|e0].
  - destruct (tool_calls r) as [[|tool_call more]|] eqn:Hc; try discriminate.
    intros H. right. exists r, (tool_call :: more). split; [reflexivity|].
    split; [now split|].
    unfold bind in H. destruct (for_each _ _ _) as [[[]|e1] s1]; [discriminate|].
    now injection H as <- <-.
  - intros [= <- <-]. now left.
Qed.

Lemma answered_turns_app a b :
  answered_turns a → answered_turns b → answered_turns (a ++ b).
Proof.
  intros Ha Hb. induction Ha as [|r calls texts rest Hne Hlen Hrest IH]; [exact Hb|].
  simpl. rewrite <- app_assoc. now constructor.
Qed.

Lemma tool_count_app a b : tool_count (a ++ b) = (tool_count a + tool_count b)%nat.
Proof. unfold tool_count. now rewrite List.filter_app, length_app. Qed.

Lemma tool_count_tool_messages calls : ∀ texts,
  length texts = length calls → tool_count (tool_messages calls texts) = length calls.
Proof.
  induction calls as [|tool_call rest IH]; intros [|content_text texts] Hlen;
    try discriminate; [reflexivity|].
  unfold tool_count, tool_messages in *. simpl. f_equal. apply IH. simpl in Hlen. lia.
Qed.

(** One turn that ran to its end: the transcript and the request log after it. *)
Lemma loop_body_continue_shape E self messages s s' :
  React.loop_body E self messages s = (Ok React.Continue, s') →
  ∃ r calls texts,
    calls ≠ [] ∧ length texts = length calls
    ∧ contents s' messages
      = contents s messages ++ React.assistant_tool_message r calls :: tool_messages calls texts
    ∧ length (http_log s') = (length (http_log s) + length calls)%nat.
Proof.
  intros Hb. apply loop_body_continue_inv in Hb as (r & calls & _ & [_ Hne] & Hfor).
  apply for_each_ok in Hfor as (texts & Hlen & Hc & Hl).
  exists r, calls, texts. split; [assumption|]. split; [assumption|]. split.
  - rewrite Hc. unfold React.recorded. rewrite contents_append, contents_answered.
    now rewrite <- app_assoc.
  - exact Hl.
Qed.

(** What a run that returns has done, in full. *)
Lemma while_loop_return_shape E self messages iteration s final :
  fst (React.while_loop E self messages iteration s) = Ok final →
  ∃ turns tail,
    contents (snd (React.while_loop E self messages iteration s)) messages
      = contents s messages ++ turns ++ tail
    ∧ answered_turns turns
    ∧ (tail = [React.assistant_final_message final]
       ∨ (tail = [] ∧ final = Some React.limit_message))
    ∧ length (http_log (snd (React.while_loop E self messages iteration s)))
      = (length (http_log s) + tool_count turns)%nat.
Proof.
  revert final.
  apply (while_loop_induction E self messages
    (fun i s res => ∀ final, fst res = Ok final →
       ∃ turns tail,
         contents (snd res) messages = contents s messages ++ turns ++ tail
         ∧ answered_turns turns
         ∧ (tail = [React.assistant_final_message final]
            ∨ (tail = [] ∧ final = Some React.limit_message))
         ∧ length (http_log (snd res)) = (length (http_log s) + tool_count turns)%nat)).
  - intros i s0 _ final [= <-]. exists [], []. simpl. rewrite app_nil_r.
    repeat split; [constructor | now right | unfold tool_count; simpl; lia].
  - intros i s0 c s' _ Hb final [= <-].
    apply loop_body_return_inv in Hb as (r & _ & _ & -> & ->).
    exists [], [React.assistant_final_message (content r)]. cbn [snd].
    rewrite contents_append, contents_answered.
    repeat split; [constructor | now left | unfold tool_count; simpl; lia].
  - intros i s0 e s' _ _ final [=].
  - intros i s0 s' _ Hb IH final Hfinal.
    apply loop_body_continue_shape in Hb as (r & calls & texts & Hne & Hlen & Hc & Hl).
    destruct (IH final Hfinal) as (turns & tail & Hc' & Hturns & Htail & Hl').
    exists (React.assistant_tool_message r calls :: tool_messages calls texts ++ turns), tail.
    split; [|split; [|split]].
    + rewrite Hc', Hc. cbn [app]. now rewrite <- !app_assoc.
    + now constructor.
    + exact Htail.
    + rewrite Hl', Hl.
      change (React.assistant_tool_message r calls :: tool_messages calls texts ++ turns)
        with ([React.assistant_tool_message r calls] ++ tool_messages calls texts ++ turns).
      rewrite !tool_count_app, (tool_count_tool_messages calls texts Hlen).
      change (tool_count [React.assistant_tool_message r calls]) with 0%nat. lia.
Qed.

(** What a run that raises leaves in the transcript. *)
Lemma while_loop_raise_shape E self messages iteration s e :
  fst (React.while_loop E self messages iteration s) = Raise e →
  ∃ turns,
    answered_turns turns
    ∧ (contents (snd (React.while_loop E self messages iteration s)) messages
         = contents s messages ++ turns
       ∨ ∃ r calls k texts,
           (k < length calls)%nat ∧ length texts = k
           ∧ contents (snd (React.while_loop E self messages iteration s)) messages
             = contents s messages ++ turns
               ++ React.assistant_tool_message r calls :: tool_messages (take k calls) texts).
Proof.
  revert e.
  apply (while_loop_induction E self messages
    (fun i s res => ∀ e, fst res = Raise e →
       ∃ turns,
         answered_turns turns
         ∧ (contents (snd res) messages = contents s messages ++ turns
            ∨ ∃ r calls k texts,
                (k < length calls)%nat ∧ length texts = k
                ∧ contents (snd res) messages
                  = contents s messages ++ turns
                    ++ React.assistant_tool_message r calls
                       :: tool_messages (take k calls) texts))).
  - intros i s0 _ e [=].
  - intros i s0 c s' _ _ e [=].
  - intros i s0 e0 s' _ Hb e [= <-]. exists []. split; [constructor|].
    apply loop_body_raise_inv in Hb as [[_ ->] | (r & calls & _ & _ & Hfor)].
    + left. cbn [snd]. now rewrite contents_answered, app_nil_r.
    + right. apply for_each_raise in Hfor as (k & texts & Hk & Hlen & Hc).
      exists r, calls, k, texts. split; [assumption|]. split; [assumption|].
      cbn [snd app]. rewrite Hc. unfold React.recorded.
      rewrite contents_append, contents_answered. now rewrite <- app_assoc.
  - intros i s0 s' _ Hb IH e He.
    apply loop_body_continue_shape in Hb as (r0 & calls0 & texts0 & Hne & Hlen0 & Hc0 & _).
    destruct (IH e He) as (turns & Hturns & Hshape).
    exists (React.assistant_tool_message r0 calls0 :: tool_messages calls0 texts0 ++ turns).
    split; [now constructor|].
    destruct Hshape as [Hc | (r & calls & k & texts & Hk & Hlen & Hc)].
    + left. rewrite Hc, Hc0. cbn [app]. now rewrite <- !app_assoc.
    + right. exists r, calls, k, texts. split; [assumption|]. split; [assumption|].
      rewrite Hc, Hc0. cbn [app]. now rewrite <- !app_assoc.
Qed.

(** X8. When [ReactAgent.run] returns, what it has added to the caller's
    list is a sequence of whole turns (each an assistant message with its
    requests, then one tool message per request, in the order of the
    requests) followed by the final assistant message; or whole turns alone
    when the value returned is the limit message. No request is left
    without its tool message. *)
Theorem returned_transcript_is_whole_turns E self messages s final :
  fst (React.run E self messages s) = Ok final →
  ∃ turns tail,
    contents (snd (React.run E self messages s)) messages
      = contents s messages ++ turns ++ tail
    ∧ answered_turns turns
    ∧ (tail = [React.assistant_final_message final]
       ∨ (tail = [] ∧ final = Some React.limit_message)).
Proof.
  intros Hfinal. unfold React.run in *.
  destruct (while_loop_return_shape E self messages 0 s final Hfinal)
    as (turns & tail & Hc & Hturns & Htail & _).
  now exists turns, tail.
Qed.

Lemma returned_transcript_is_whole_turns_witness :
  ∃ turns tail,
    contents (snd (React.run Scenario.three_lookups Scenario.agent 0%nat Scenario.start)) 0%nat
      = contents Scenario.start 0%nat ++ turns ++ tail
    ∧ answered_turns turns
    ∧ (tail = [React.assistant_final_message (Some "Alfred, three times.")]
       ∨ (tail = [] ∧ Some "Alfred, three times." = Some React.limit_message)).
Proof.
  apply (returned_transcript_is_whole_turns Scenario.three_lookups Scenario.agent 0%nat
           Scenario.start (Some "Alfred, three times.")).
  vm_compute. reflexivity.
Defined.

(** X9. When [ReactAgent.run] returns, the requests it has sent to the
    lookup service are as many as the tool messages it has added: every
    lookup made is reported in the transcript, once. *)
Theorem lookups_match_tool_messages E self messages s final :
  fst (React.run E self messages s) = Ok final →
  ∃ added,
    contents (snd (React.run E self messages s)) messages = contents s messages ++ added
    ∧ length (http_log (snd (React.run E self messages s)))
      = (length (http_log s) + tool_count added)%nat.
Proof.
  intros Hfinal. unfold React.run in *.
  destruct (while_loop_return_shape E self messages 0 s final Hfinal)
    as (turns & tail & Hc & _ & Htail & Hl).
  exists (turns ++ tail). split; [exact Hc|].
  rewrite Hl, tool_count_app.
  destruct Htail as [-> | [-> _]]; unfold tool_count at 3; simpl; lia.
Qed.

Lemma lookups_match_tool_messages_witness :
  ∃ added,
    contents (snd (React.run Scenario.three_lookups Scenario.agent 0%nat Scenario.start)) 0%nat
      = contents Scenario.start 0%nat ++ added
    ∧ length (http_log (snd (React.run Scenario.three_lookups Scenario.agent 0%nat
                               Scenario.start)))
      = (length (http_log Scenario.start) + tool_count added)%nat.
Proof.
  apply (lookups_match_tool_messages Scenario.three_lookups Scenario.agent 0%nat
           Scenario.start (Some "Alfred, three times.")).
  vm_compute. reflexivity.
Defined.

(** X10. When [ReactAgent.run] raises, the caller's list holds what it
    held, then the whole turns of the earlier iterations, and then either
    nothing more (the gateway call raised) or the assistant message of the
    last turn followed by the tool messages of the requests processed before
    the one that raised: that request, and those after it, have no tool
    message. *)
Theorem raised_transcript_ends_in_open_turn E self messages s e :
  fst (React.run E self messages s) = Raise e →
  ∃ turns,
    answered_turns turns
    ∧ (contents (snd (React.run E self messages s)) messages = contents s messages ++ turns
       ∨ ∃ r calls k texts,
           (k < length calls)%nat ∧ length texts = k
           ∧ contents (snd (React.run E self messages s)) messages
             = contents s messages ++ turns
               ++ React.assistant_tool_message r calls :: tool_messages (take k calls) texts).
Proof. intros He. exact (while_loop_raise_shape E self messages 0 s e He). Qed.

Lemma raised_transcript_ends_in_open_turn_witness :
  ∃ turns,
    answered_turns turns
    ∧ (contents (snd (React.run Scenario.one_unknown_of_three Scenario.agent 0%nat
                        Scenario.start)) 0%nat
         = contents Scenario.start 0%nat ++ turns
       ∨ ∃ r calls k texts,
           (k < length calls)%nat ∧ length texts = k
           ∧ contents (snd (React.run Scenario.one_unknown_of_three Scenario.agent 0%nat
                              Scenario.start)) 0%nat
             = contents Scenario.start 0%nat ++ turns
               ++ React.assistant_tool_message r calls :: tool_messages (take k calls) texts).
Proof.
  apply (raised_transcript_ends_in_open_turn Scenario.one_unknown_of_three Scenario.agent
           0%nat Scenario.start (KeyError "nonexistent_tool")).
  vm_compute. reflexivity.
Defined.

(** ** Failures in the single-round script *)

(** X11. In [get_completion_from_messages] the two messages are added only
    after the tool has returned. So when the first gateway call raises, or
    the arguments do not decode, or the tool name is not [get_name_for_day]
    (then [KeyError]), or the tool raises, the function raises with the
    caller's list exactly as it was; the second gateway call is not made. *)
Theorem single_round_failure_leaves_transcript E messages model s :
  (∀ e, PureTool.reply E model messages s = Raise e →
     PureTool.get_completion_from_messages E messages model s = (Raise e, answered s))
  ∧ (∀ r tool_call more e s1,
       PureTool.reply E model messages s = Ok r →
       tool_calls r = Some (tool_call :: more) →
       PureTool.invoke E tool_call (answered s) = (Raise e, s1) →
       PureTool.get_completion_from_messages E messages model s = (Raise e, s1)
       ∧ contents s1 messages = contents s messages
       ∧ gateway_calls s1 = S (gateway_calls s))
  ∧ (∀ r tool_call more function_args,
       PureTool.reply E model messages s = Ok r →
       tool_calls r = Some (tool_call :: more) →
       json_loads E (arguments (function tool_call)) = Ok function_args →
       name (function tool_call) ≠ "get_name_for_day" →
       PureTool.get_completion_from_messages E messages model s
         = (Raise (KeyError (name (function tool_call))), answered s)).
Proof.
  split; [|split].
  - intros e Hr. now rewrite get_completion_unfold, Hr.
  - intros r tool_call more e s1 Hr Hc Hinv.
    destruct (pure_invoke_step E tool_call (answered s)) as (urls & Hs1 & _).
    rewrite Hinv in Hs1. simpl in Hs1.
    split; [|split; now rewrite Hs1].
    rewrite get_completion_unfold, Hr, Hc.
    destruct (json_loads E _) as [function_args|e0] eqn:Hargs.
    + now rewrite Hinv.
    + unfold PureTool.invoke, bind, lift in Hinv. rewrite Hargs in Hinv.
      now injection Hinv as <- <-.
  - intros r tool_call more function_args Hr Hc Hargs Hname.
    assert (Hinv : PureTool.invoke E tool_call (answered s)
                   = (Raise (KeyError (name (function tool_call))), answered s)).
    { unfold PureTool.invoke, bind, lift. rewrite Hargs.
      unfold PureTool.lookup_function, PureTool.available_functions.
      rewrite lookup_singleton_ne by congruence. reflexivity. }
    now rewrite get_completion_unfold, Hr, Hc, Hargs, Hinv.
Qed.

Lemma single_round_failure_leaves_transcript_witness :
  PureTool.get_completion_from_messages Scenario.unreachable 0%nat "gpt-4o" Scenario.start
    = (Raise (APIError "no response left in the script"), answered Scenario.start)
  ∧ (PureTool.get_completion_from_messages Scenario.truncated_arguments 0%nat "gpt-4o"
       Scenario.start
     = (Raise JSONDecodeError, answered Scenario.start)
     ∧ contents (answered Scenario.start) 0%nat = contents Scenario.start 0%nat
     ∧ gateway_calls (answered Scenario.start) = S (gateway_calls Scenario.start))
  ∧ PureTool.get_completion_from_messages Scenario.week_in_single_round 0%nat "gpt-4o"
      Scenario.start
    = (Raise (KeyError "get_names_for_week"), answered Scenario.start).
Proof.
  split; [|split].
  - apply (proj1 (single_round_failure_leaves_transcript Scenario.unreachable 0%nat "gpt-4o"
                    Scenario.start)).
    reflexivity.
  - apply (proj1 (proj2 (single_round_failure_leaves_transcript Scenario.truncated_arguments
                           0%nat "gpt-4o" Scenario.start))
             (mkMessage None (Some [Scenario.truncated_call])) Scenario.truncated_call []).
    + reflexivity.
    + reflexivity.
    + vm_compute. reflexivity.
  - apply (proj2 (proj2 (single_round_failure_leaves_transcript Scenario.week_in_single_round
                           0%nat "gpt-4o" Scenario.start))
             (mkMessage None
                (Some [Scenario.request "call_1" "get_names_for_week" "2024-10-28"]))
             (Scenario.request "call_1" "get_names_for_week" "2024-10-28") []
             (PDict [("date", PStr "2024-10-28")])).
    + reflexivity.
    + reflexivity.
    + vm_compute. reflexivity.
    + discriminate.
Defined.

(** ** [main]: three runs, each on a copy *)

#[local] Instance spares_preorder : PreOrder spares.
Proof.
  split.
  - intros s l items H. exact H.
  - intros s1 s2 s3 H12 H23 l items H. apply H23, H12, H.
Qed.

Lemma fresh_is_new (s : state) : heap s !! fresh (dom (heap s)) = None.
Proof. apply not_elem_of_dom, is_fresh. Qed.

Lemma spares_insert_fresh s items :
  spares s (mkState (<[fresh (dom (heap s)) := items]> (heap s)) (gateway_calls s) (http_log s)).
Proof.
  intros l items' H. simpl. rewrite lookup_insert_ne; [exact H|].
  intros <-. now rewrite fresh_is_new in H.
Qed.

Lemma keeps_spares_list_new items : keeps spares (list_new items).
Proof. intros s. apply spares_insert_fresh. Qed.

Lemma keeps_spares_list_copy l : keeps spares (list_copy l).
Proof. intros s. apply spares_insert_fresh. Qed.

(** A run on a fresh copy changes no list object that existed before the copy. *)
Lemma keeps_spares_copy_run {A} E self l (K : option string → M A) :
  (∀ r, keeps spares (K r)) →
  keeps spares (bind (list_copy l) (fun copy => bind (React.run E self copy) K)).
Proof.
  intros HK s.
  rewrite (bind_ok (list_copy l) _ s (fresh (dom (heap s))) (snd (list_copy l s)) eq_refl).
  assert (Hrun : spares s (snd (React.run E self (fresh (dom (heap s)))
                                  (snd (list_copy l s))))).
  { intros l' items H.
    pose proof (keeps_while_loop E self (fresh (dom (heap s))) 0 (snd (list_copy l s)))
      as (_ & Hframe & _ & _).
    assert (Hne : l' ≠ fresh (dom (heap s))) by (intros ->; now rewrite fresh_is_new in H).
    unfold React.run. rewrite (Hframe l' Hne). now apply (keeps_spares_list_copy l s). }
  unfold bind.
  destruct (React.run E self (fresh (dom (heap s))) (snd (list_copy l s))) as [[r|e] s3];
    [|exact Hrun].
  transitivity s3; [exact Hrun | apply HK].
Qed.

(** The list built by a list display is still as built at the end of what
    follows, if what follows spares the list objects in place. *)
Lemma list_new_survives {A} items (K : loc → M A) s :
  (∀ l, keeps spares (K l)) →
  heap s !! fresh (dom (heap s)) = None
  ∧ heap (snd (bind (list_new items) K s)) !! fresh (dom (heap s)) = Some items.
Proof.
  intros HK. split; [apply fresh_is_new|].
  rewrite (bind_ok (list_new items) K s (fresh (dom (heap s))) (snd (list_new items s)) eq_refl).
  apply (HK (fresh (dom (heap s))) (snd (list_new items s))).
  simpl. apply lookup_insert_eq.
Qed.

Lemma within_bind {A B} n m (c : M A) (k : A → M B) :
  keeps (within n) c → (∀ a, keeps (within m) (k a)) → keeps (within (n + m)) (bind c k).
Proof.
  intros Hc Hk s. unfold bind. specialize (Hc s). unfold within in Hc |- *.
  destruct (c s) as [[a|e] s1]; simpl in *; [|lia].
  specialize (Hk a s1). unfold within in Hk. lia.
Qed.

Lemma within_run E model messages : keeps (within 10) (React.run E (React.init model) messages).
Proof. intros s. apply (while_loop_gateway_bound E (React.init model) messages 0 s). Qed.

Lemma within_list_new items : keeps (within 0) (list_new items).
Proof. intros s. unfold within; simpl. lia. Qed.

Lemma within_list_copy l : keeps (within 0) (list_copy l).
Proof. intros s. unfold within; simpl. lia. Qed.

Lemma within_ret {A} (a : A) : keeps (within 0) (ret a).
Proof. intros s. unfold within; simpl. lia. Qed.

Ltac main_spares :=
  repeat first
    [ apply keeps_ret; tc_solve
    | apply keeps_spares_copy_run; intros ?
    | apply keeps_bind; [tc_solve | apply keeps_spares_list_new | intros ?] ].

(** X12. [main] makes at most 30 gateway calls. Because every run works
    on a copy, [main] changes no list object that existed before it, and
    the lists it builds at its three call sites are never modified: the
    first one holds its two prompts when [main] is over, however it ends,
    and when [main] returns the same is true of the second and of the
    third. *)
Theorem main_runs_on_copies E s :
  within 30 s (snd (React.main E s))
  ∧ spares s (snd (React.main E s))
  ∧ heap (snd (React.main E s)) !! fresh (dom (heap s))
    = Some [React.system_prompt; React.user_prompt "Kdo měl svátek 28. října 2024?"]
  ∧ (fst (React.main E s) = Ok tt →
     ∃ l2 l3,
       heap s !! l2 = None ∧ heap s !! l3 = None
       ∧ heap (snd (React.main E s)) !! l2
         = Some [React.system_prompt;
                 React.user_prompt
                   "Zjisti mi detalní informace o dnech 3. ledna 2024 a 3. ledna 2012?"]
       ∧ heap (snd (React.main E s)) !! l3
         = Some [React.system_prompt;
                 React.user_prompt "Kdo měl svátek 28. a 30. října 2024?"]).
Proof.
  split; [|split; [|split]].
  - revert s. unfold React.main.
    apply (within_bind 0 30); [apply within_list_new | intros m1].
    apply (within_bind 0 30); [apply within_list_copy | intros c1].
    apply (within_bind 10 20); [apply within_run | intros r1].
    apply (within_bind 0 20); [apply within_list_new | intros m2].
    apply (within_bind 0 20); [apply within_list_copy | intros c2].
    apply (within_bind 10 10); [apply within_run | intros r2].
    apply (within_bind 0 10); [apply within_list_new | intros m3].
    apply (within_bind 0 10); [apply within_list_copy | intros c3].
    apply (within_bind 10 0); [apply within_run | intros r3].
    apply within_ret.
  - revert s. unfold React.main. main_spares.
  - unfold React.main. apply list_new_survives. intros m1. main_spares.
  - intros Hok.
    destruct (React.main E s) as [o s'] eqn:Hmain. cbn [fst snd] in *. subst o.
    unfold React.main in Hmain.
    apply bind_inv_ok in Hmain as (m1 & s1 & H1 & Hmain).
    apply bind_inv_ok in Hmain as (c1 & s2 & H2 & Hmain).
    apply bind_inv_ok in Hmain as (r1 & s3 & H3 & Hmain).
    assert (Hs3 : spares s s3).
    { pose proof (keeps_spares_list_new
        [React.system_prompt; React.user_prompt "Kdo měl svátek 28. října 2024?"] s) as Ha.
      rewrite H1 in Ha.
      pose proof (keeps_spares_copy_run E (React.init "gpt-4o") m1
                    (fun r => ret r) (fun r => keeps_ret spares r) s1) as Hb.
      rewrite (bind_ok _ _ _ _ _ H2), (bind_ok _ _ _ _ _ H3) in Hb.
      now transitivity s1. }
    assert (Hn2 : heap s3 !! fresh (dom (heap s3)) = None
                  ∧ heap s' !! fresh (dom (heap s3))
                    = Some [React.system_prompt;
                            React.user_prompt
                              "Zjisti mi detalní informace o dnech 3. ledna 2024 a 3. ledna 2012?"]).
    { match type of Hmain with
      | bind (list_new ?q) ?K _ = _ =>
          destruct (list_new_survives q K s3 ltac:(intros m2; main_spares)) as [Hn Hl]
      end.
      rewrite Hmain in Hl. now split. }
    destruct Hn2 as [Hn2 Hl2].
    apply bind_inv_ok in Hmain as (m2 & s4 & H4 & Hmain).
    apply bind_inv_ok in Hmain as (c2 & s5 & H5 & Hmain).
    apply bind_inv_ok in Hmain as (r2 & s6 & H6 & Hmain).
    assert (Hs6 : spares s3 s6).
    { pose proof (keeps_spares_list_new
        [React.system_prompt;
         React.user_prompt
           "Zjisti mi detalní informace o dnech 3. ledna 2024 a 3. ledna 2012?"] s3) as Ha.
      rewrite H4 in Ha.
      pose proof (keeps_spares_copy_run E (React.init "gpt-4o") m2
                    (fun r => ret r) (fun r => keeps_ret spares r) s4) as Hb.
      rewrite (bind_ok _ _ _ _ _ H5), (bind_ok _ _ _ _ _ H6) in Hb.
      now transitivity s4. }
    assert (Hn3 : heap s6 !! fresh (dom (heap s6)) = None
                  ∧ heap s' !! fresh (dom (heap s6))
                    = Some [React.system_prompt;
                            React.user_prompt "Kdo měl svátek 28. a 30. října 2024?"]).
    { match type of Hmain with
      | bind (list_new ?q) ?K _ = _ =>
          destruct (list_new_survives q K s6 ltac:(intros m3; main_spares)) as [Hn Hl]
      end.
      rewrite Hmain in Hl. now split. }
    destruct Hn3 as [Hn3 Hl3].
    exists (fresh (dom (heap s3))), (fresh (dom (heap s6))).
    assert (Hnone : ∀ (a b : state) l, spares a b → heap b !! l = None → heap a !! l = None).
    { intros a b l Hab Hb. destruct (heap a !! l) as [items|] eqn:Ha; [|reflexivity].
      apply Hab in Ha. congruence. }
    split; [now apply (Hnone s s3)|].
    split; [apply (Hnone s s3); [assumption|]; now apply (Hnone s3 s6)|].
    split; assumption.
Qed.

Lemma main_runs_on_copies_witness :
  within 30 Scenario.start (snd (React.main Scenario.forthcoming Scenario.start))
  ∧ spares Scenario.start (snd (React.main Scenario.forthcoming Scenario.start))
  ∧ heap (snd (React.main Scenario.forthcoming Scenario.start))
      !! fresh (dom (heap Scenario.start))
    = Some [React.system_prompt; React.user_prompt "Kdo měl svátek 28. října 2024?"]
  ∧ ∃ l2 l3,
      heap Scenario.start !! l2 = None ∧ heap Scenario.start !! l3 = None
      ∧ heap (snd (React.main Scenario.forthcoming Scenario.start)) !! l2
        = Some [React.system_prompt;
                React.user_prompt
                  "Zjisti mi detalní informace o dnech 3. ledna 2024 a 3. ledna 2012?"]
      ∧ heap (snd (React.main Scenario.forthcoming Scenario.start)) !! l3
        = Some [React.system_prompt;
                React.user_prompt "Kdo měl svátek 28. a 30. října 2024?"].
Proof.
  destruct (main_runs_on_copies Scenario.forthcoming Scenario.start)
    as (Hcalls & Hspares & Hfirst & Hothers).
  split; [exact Hcalls | split; [exact Hspares | split; [exact Hfirst|]]].
  apply Hothers. vm_compute. reflexivity.
Defined.

(** ** The schema and the registry *)

(** X13. In both scripts the names declared to the model in [tools] are
    exactly the keys of [available_functions]: a request for a declared tool
    is always resolved, and a request for any other name never is. *)
Theorem declared_tools_are_registered E function_name :
  (function_name ∈ React.tools ↔ is_Some (React.available_functions E !! function_name))
  ∧ (function_name ∈ PureTool.tools
     ↔ is_Some (PureTool.available_functions E !! function_name)).
Proof.
  split; split.
  - unfold React.tools. rewrite !elem_of_cons, elem_of_nil.
    intros [-> | [-> | [-> | []]]]; unfold React.available_functions.
    + rewrite lookup_insert_eq. eauto.
    + rewrite lookup_insert_ne by discriminate. rewrite lookup_insert_eq. eauto.
    + rewrite lookup_insert_ne by discriminate. rewrite lookup_insert_ne by discriminate.
      rewrite lookup_insert_eq. eauto.
  - intros [f Hf]. unfold React.tools. rewrite !elem_of_cons.
    apply available_functions_lookup in Hf as [[-> _]|[[-> _]|[-> _]]]; auto.
  - unfold PureTool.tools. rewrite elem_of_cons, elem_of_nil.
    intros [-> | []]. unfold PureTool.available_functions.
    rewrite lookup_singleton_eq. eauto.
  - intros [f Hf]. unfold PureTool.tools. rewrite elem_of_cons.
    apply pure_available_functions_lookup in Hf as [-> _]. auto.
Qed.

(** ** One turn of lookups, then the answer *)

(** A turn whose requests all return: the state after the pass. *)
Lemma turn_completes E self messages s r calls results texts s1 :
  React.reply E self messages s = Ok r →
  requests_tools r calls →
  React.invoke_in_order E calls (answered s) = (Ok results, s1) →
  Forall2 (fun v content_text => json_dumps E v = Ok content_text) results texts →
  ∃ s',
    React.loop_body E self messages s = (Ok React.Continue, s')
    ∧ contents s' messages
      = contents s messages
        ++ React.assistant_tool_message r calls :: tool_messages calls texts
    ∧ gateway_calls s' = S (gateway_calls s)
    ∧ http_log s' = http_log s1.
Proof.
  intros Hr Hreq Hin Hdumps.
  set (m := React.assistant_tool_message r calls).
  set (h0 := <[messages := contents (answered s) messages ++ [m]]> (heap (answered s))).
  assert (Hrec : React.recorded messages r calls s = with_heap h0 (answered s))
    by reflexivity.
  assert (Hin' : React.invoke_in_order E calls (with_heap h0 (answered s))
                 = (Ok results, with_heap h0 s1)).
  { rewrite heap_blind_invoke_in_order. now rewrite Hin. }
  destruct (for_each_process_in_order E messages calls _ _ _ _ Hin' Hdumps)
    as (h & Hfor & Hcontents & _).
  assert (Hbody : React.loop_body E self messages s
                  = (Ok React.Continue, with_heap h (with_heap h0 s1))).
  { rewrite (loop_body_tools E self messages s r calls Hr Hreq), Hrec.
    now rewrite (bind_ok _ _ _ _ _ Hfor). }
  exists (with_heap h (with_heap h0 s1)).
  pose proof (loop_body_step E self messages s) as [_ Hg]. rewrite Hbody in Hg.
  split; [exact Hbody|]. split; [|split; [exact Hg | reflexivity]].
  unfold contents at 1; simpl. rewrite Hcontents.
  unfold contents at 1, with_heap, h0; simpl. rewrite lookup_total_insert_eq.
  now rewrite <- app_assoc.
Qed.

(** X14. The usual course of a run. If the first response asks for
    lookups that all return, the gateway is called a second time with the
    transcript grown by the assistant message and one tool message per
    request; if it then answers with text alone, the run returns that text,
    after two gateway calls, and the caller's list holds, after what it
    held: the assistant message, the tool messages in the order of the
    requests, and the final assistant message. *)
Theorem lookups_then_answer E self messages s r calls results texts s1 r2 :
  1 < React.max_iterations self →
  React.reply E self messages s = Ok r →
  requests_tools r calls →
  React.invoke_in_order E calls (answered s) = (Ok results, s1) →
  Forall2 (fun v content_text => json_dumps E v = Ok content_text) results texts →
  chat_completions_create E (S (gateway_calls s))
    (mkRequest (React.model self)
       (contents s messages
        ++ React.assistant_tool_message r calls :: tool_messages calls texts)
       React.tools "auto" (Some false)) = Ok r2 →
  text_only r2 →
  fst (React.run E self messages s) = Ok (content r2)
  ∧ contents (snd (React.run E self messages s)) messages
    = contents s messages
      ++ React.assistant_tool_message r calls :: tool_messages calls texts
      ++ [React.assistant_final_message (content r2)]
  ∧ gateway_calls (snd (React.run E self messages s)) = S (S (gateway_calls s))
  ∧ http_log (snd (React.run E self messages s)) = http_log s1.
Proof.
  intros Hmax Hr Hreq Hin Hdumps Hr2 Ht2.
  destruct (turn_completes E self messages s r calls results texts s1 Hr Hreq Hin Hdumps)
    as (s' & Hbody & Hc & Hg & Hl).
  assert (Hreply2 : React.reply E self messages s' = Ok r2).
  { unfold React.reply, React.request_of. now rewrite Hc, Hg. }
  unfold React.run.
  rewrite while_loop_running by lia. rewrite Hbody.
  rewrite while_loop_running by lia.
  rewrite (loop_body_text_only E self messages s' r2 Hreply2 Ht2). cbn [fst snd].
  split; [reflexivity|]. split; [|split].
  - rewrite contents_append, contents_answered, Hc. now rewrite <- app_assoc.
  - simpl. now rewrite Hg.
  - simpl. exact Hl.
Qed.

Lemma lookups_then_answer_witness :
  fst (React.run Scenario.three_lookups Scenario.agent 0%nat Scenario.start)
    = Ok (Some "Alfred, three times.")
  ∧ contents (snd (React.run Scenario.three_lookups Scenario.agent 0%nat Scenario.start)) 0%nat
    = contents Scenario.start 0%nat
      ++ React.assistant_tool_message Scenario.three_asked Scenario.three_requests
         :: tool_messages Scenario.three_requests
              [Scenario.lookup_text "2024-10-28"; Scenario.lookup_text "2024-10-29";
               Scenario.lookup_text "2024-10-30"]
      ++ [React.assistant_final_message (Some "Alfred, three times.")]
  ∧ gateway_calls (snd (React.run Scenario.three_lookups Scenario.agent 0%nat Scenario.start))
    = 2%nat
  ∧ http_log (snd (React.run Scenario.three_lookups Scenario.agent 0%nat Scenario.start))
    = ["https://svatkyapi.cz/api/day/2024-10-28";
       "https://svatkyapi.cz/api/day/2024-10-29";
       "https://svatkyapi.cz/api/day/2024-10-30"].
Proof.
  apply (lookups_then_answer Scenario.three_lookups Scenario.agent 0%nat Scenario.start
           Scenario.three_asked Scenario.three_requests
           [PDict [("date", PStr "2024-10-28"); ("name", PStr "Alfred")];
            PDict [("date", PStr "2024-10-29"); ("name", PStr "Alfred")];
            PDict [("date", PStr "2024-10-30"); ("name", PStr "Alfred")]]
           [Scenario.lookup_text "2024-10-28"; Scenario.lookup_text "2024-10-29";
            Scenario.lookup_text "2024-10-30"]
           (mkState (heap Scenario.start) 1
              ["https://svatkyapi.cz/api/day/2024-10-28";
               "https://svatkyapi.cz/api/day/2024-10-29";
               "https://svatkyapi.cz/api/day/2024-10-30"])
           (mkMessage (Some "Alfred, three times.") None)).
  - vm_compute. reflexivity.
  - reflexivity.
  - split; [reflexivity | discriminate].
  - vm_compute. reflexivity.
  - repeat constructor.
  - reflexivity.
  - left. reflexivity.
Defined.
